(** * lofasm.data_file_info: the directory catalog of LofasmFileInfo

    A shallow embedding of [src/lofasm/data_file_info/data_file_info.py]:
    the class [LofasmFileInfo] scans one directory, files every entry under a
    format, loads or builds the catalog table, computes the columns of the
    new rows with the registered collectors and writes the table back on
    request.

    Conventions of the embedding.
    - A Python [dict] is an association list in insertion order with one
      entry per key ([dict_set] replaces in place, [dict_get] looks a key up).
    - An astropy [Table] is an ordered list of named columns plus its [meta]
      dictionary; a cell is a value or the null (Python [None], a masked cell).
      A column has a type: the one numpy gives the list it was made from, or
      the one the catalog file declares.
    - Effects are a writer over a log of [event]s combined with exceptions:
      a computation returns the events it emitted and either a value or the
      exception it raised.
    - The file system is a record of the queries the program makes
      ([os.listdir], [os.path.isdir], [os.path.isfile], [Table.read]); two
      paths name one file when [os.path.abspath] maps them to one path.
    - The two registries the module imports ([DataFormat._format_list] and
      [InfoCollector._info_name_list]) are not part of this file of the
      repository: they are Section variables. *)

From Stdlib Require Import List String Ascii Bool Arith Lia.
Import ListNotations.
Open Scope string_scope.
Open Scope list_scope.

Set Implicit Arguments.

(* ------------------------------------------------------------------ *)
(** ** Strings and paths *)

Module Path.

(** [s.endswith(suf)]: some suffix of [s] is [suf]. *)
Fixpoint endswith (s suf : string) : bool :=
(s =? suf) ||
match s with
| EmptyString => false
| String _ r => endswith r suf
end.

Definition startswith (s pre : string) : bool := String.prefix pre s.

Definition sep : ascii := "/"%char.

Fixpoint has_sep (s : string) : bool :=
match s with
| EmptyString => false
| String c r => Ascii.eqb c sep || has_sep r
end.

(** [posixpath.join(a, b)] for two components. *)
Definition join (a b : string) : string :=
if startswith b "/" then b
else if (a =? "") || endswith a "/" then a ++ b
else a ++ "/" ++ b.

(** [s.rstrip(os.sep)] *)
Fixpoint rstrip_sep (s : string) : string :=
match s with
| EmptyString => EmptyString
| String c r =>
    let r' := rstrip_sep r in
    if (r' =? "") && Ascii.eqb c sep then EmptyString else String c r'
end.

(** [posixpath.basename(p)]: what follows the last separator. *)
Fixpoint basename (s : string) : string :=
match s with
| EmptyString => EmptyString
| String c r =>
    if has_sep r then basename r
    else if Ascii.eqb c sep then r else String c r
end.

End Path.

(* ------------------------------------------------------------------ *)
(** ** Python dictionaries *)

Section Dict.
Variable V : Type.

Definition dict := list (string * V).

Fixpoint dict_get (k : string) (d : dict) : option V :=
  match d with
  | [] => None
  | (k', v) :: r => if k' =? k then Some v else dict_get k r
  end.

Definition dict_mem (k : string) (d : dict) : bool :=
  match dict_get k d with Some _ => true | None => false end.

(** [d[k] = v] *)
Fixpoint dict_set (k : string) (v : V) (d : dict) : dict :=
  match d with
  | [] => [(k, v)]
  | (k', v') :: r =>
      if k' =? k then (k, v) :: r else (k', v') :: dict_set k v r
  end.

Definition dict_keys (d : dict) : list string := map fst d.
Definition dict_values (d : dict) : list V := map snd d.

(** [for k, v in bs: d[k] = v] *)
Definition dict_update (bs : list (string * V)) (d : dict) : dict :=
  fold_left (fun d kv => dict_set (fst kv) (snd kv) d) bs d.

(** [dict(zip(ks, vs))] *)
Definition dict_of_zip (ks : list string) (vs : list V) : dict :=
  dict_update (combine ks vs) [].

(** [d.pop(k, None)] *)
Definition dict_remove (k : string) (d : dict) : dict :=
  filter (fun kv => negb (fst kv =? k)) d.
End Dict.

Arguments dict_get {V} k d.
Arguments dict_mem {V} k d.
Arguments dict_set {V} k v d.
Arguments dict_keys {V} d.
Arguments dict_values {V} d.
Arguments dict_update {V} bs d.
Arguments dict_of_zip {V} ks vs.
Arguments dict_remove {V} k d.

(** [d[k].append(x)] on a dictionary of lists; nothing happens here when
    [k] is missing (the program only appends under keys it has created). *)
Fixpoint dict_append {A : Type} (k : string) (x : A) (d : dict (list A))
  : dict (list A) :=
  match d with
  | [] => []
  | (k', l) :: r =>
      if k' =? k then (k', l ++ [x]) :: r else (k', l) :: dict_append k x r
  end.

Definition mem (x : string) (l : list string) : bool :=
  existsb (String.eqb x) l.

(** Every list of the dictionary grows by the cells [f] gives for its key. *)
Definition extend {A : Type} (f : string -> list A) (d : dict (list A))
  : dict (list A) :=
  map (fun kl => (fst kl, snd kl ++ f (fst kl))) d.

(** [l.remove(x)]: drops the first occurrence. *)
Fixpoint list_remove (x : string) (l : list string) : list string :=
  match l with
  | [] => []
  | y :: r => if y =? x then r else y :: list_remove x r
  end.

(* ------------------------------------------------------------------ *)
(** ** Tables *)

Inductive cell : Type :=
| Null
| Val (v : string).

Definition cell_eqb (a b : cell) : bool :=
  match a, b with
  | Null, Null => true
  | Val x, Val y => x =? y
  | _, _ => false
  end.

Inductive metaval : Type :=
| MStr (s : string)
| MBool (b : bool).

(** The classes of numpy types that astropy tells apart when it stacks
    two columns ([astropy.utils.metadata.common_dtype]): [np.bool_],
    [np.object_], [np.number], [np.character], [np.void], and the types
    that are in none of them. *)
Inductive kind : Type :=
| KBool
| KObject
| KNumber
| KCharacter
| KVoid
| KOther.

Definition kind_eqb (a b : kind) : bool :=
  match a, b with
  | KBool, KBool | KObject, KObject | KNumber, KNumber
  | KCharacter, KCharacter | KVoid, KVoid | KOther, KOther => true
  | _, _ => false
  end.

(** [declared] holds the types of the columns that do not have the type of
    their values: a table read from a catalog file has the types the file
    declares, a stacked table the types of the columns it was stacked
    from. A table made from Python lists declares nothing. *)
Record Table : Type := mkTable {
  columns : dict (list cell);
  meta : dict metaval;
  declared : dict kind
}.

(** [t.keys()] *)
Definition keys (t : Table) : list string := dict_keys (columns t).

(** [len(t)] *)
Definition nrows (t : Table) : nat :=
  match columns t with
  | [] => 0
  | (_, c) :: _ => List.length c
  end.

(** [t[name]] *)
Definition column (name : string) (t : Table) : option (list cell) :=
  dict_get name (columns t).

Definition is_null (c : cell) : bool :=
  match c with
  | Null => true
  | Val _ => false
  end.

(** The type numpy gives a column made from a Python list: [float64] for
    the empty list, [object] when a [None] is in it, a string type when
    all are strings. *)
Definition values_kind (c : list cell) : kind :=
  match c with
  | [] => KNumber
  | _ :: _ => if existsb is_null c then KObject else KCharacter
  end.

(** [t[name].dtype], by its class. *)
Definition col_kind (name : string) (t : Table) : option kind :=
  match column name t with
  | Some c =>
      Some (match dict_get name (declared t) with
            | Some k => k
            | None => values_kind c
            end)
  | None => None
  end.

(** [t[name] = c]: replaces the column in place or adds it last; the
    column is made from the list [c] and has the type of its values. *)
Definition set_column (name : string) (c : list cell) (t : Table) : Table :=
  mkTable (dict_set name c (columns t)) (meta t)
          (dict_remove name (declared t)).

(** The cells of row [i], column by column. *)
Definition row (i : nat) (t : Table) : list (string * cell) :=
  map (fun nc => (fst nc, nth i (snd nc) Null)) (columns t).

(** The cells of column [name] in the rows of [t] for the outer join:
    masked where [t] has no such column. *)
Definition padded (name : string) (t : Table) : list cell :=
  match column name t with
  | Some c => c
  | None => repeat Null (nrows t)
  end.

Definition stacked_kind (name : string) (t1 t2 : Table) : kind :=
  match col_kind name t1, col_kind name t2 with
  | Some k, _ => k
  | None, Some k => k
  | None, None => KOther
  end.

(** What [astropy.table.vstack([t1, t2])] returns with the default outer
    join: the columns of [t1], then those only [t2] has; the rows of [t1],
    then those of [t2]; a cell a table has no column for is masked; the
    metadata of [t1] wins. *)
Definition stacked (t1 t2 : Table) : Table :=
  let names :=
    keys t1 ++ filter (fun n => negb (mem n (keys t1))) (keys t2) in
  mkTable
    (map (fun n => (n, padded n t1 ++ padded n t2)) names)
    (fold_left (fun m kv => if dict_mem (fst kv) m then m
                            else dict_set (fst kv) (snd kv) m)
               (meta t2) (meta t1))
    (map (fun n => (n, stacked_kind n t1 t2)) names).

(** The first column the two tables share whose types are of different
    classes; [vstack] cannot stack it. *)
Definition merge_conflict (t1 t2 : Table) : option string :=
  find (fun n => match col_kind n t1, col_kind n t2 with
                 | Some k1, Some k2 => negb (kind_eqb k1 k2)
                 | _, _ => false
                 end)
       (keys t1).

(* ------------------------------------------------------------------ *)
(** ** Effects: a log of events and exceptions *)

Inductive exn : Type :=
| NotImplementedError
| KeyError (k : string)
| IOError (p : string)
| OSError (p : string)
| TypeError
| ParseError (p : string)
| TableMergeError (col : string).

Inductive event : Type :=
| EvWarn (msg : string)
| EvOpen (p : string)
| EvClose (p : string)
| EvWrite (p : string).

Inductive result (A : Type) : Type :=
| Ok (a : A)
| Raise (e : exn).

Arguments Ok {A} a.
Arguments Raise {A} e.

Definition M (A : Type) : Type := (list event * result A)%type.

Definition ret {A} (a : A) : M A := ([], Ok a).
Definition raise {A} (e : exn) : M A := ([], Raise e).
Definition emit (e : event) : M unit := ([e], Ok tt).

Definition bind {A B} (m : M A) (f : A -> M B) : M B :=
  match m with
  | (l, Ok a) => let (l', r) := f a in (l ++ l', r)
  | (l, Raise e) => (l, Raise e)
  end.

Declare Scope m_scope.
Delimit Scope m_scope with m.
Notation "x <- c ;; k" := (bind c (fun x => k))
  (at level 61, c at next level, right associativity) : m_scope.
Notation "c ;;; k" := (bind c (fun _ => k))
  (at level 61, right associativity) : m_scope.
Open Scope m_scope.

Definition log {A} (m : M A) : list event := fst m.
Definition outcome {A} (m : M A) : result A := snd m.

(** [d[k]] raising [KeyError] *)
Definition getitem {V} (k : string) (d : dict V) : M V :=
  match dict_get k d with
  | Some v => ret v
  | None => raise (KeyError k)
  end.

(** [mapM] over a list, left to right. *)
Fixpoint mapM {A B} (f : A -> M B) (l : list A) : M (list B) :=
  match l with
  | [] => ret []
  | x :: r => y <- f x ;; ys <- mapM f r ;; ret (y :: ys)
  end.

(** [astropy.table.vstack([t1, t2])]: raises [TableMergeError] when a
    column of both tables has types of different classes in the two. *)
Definition vstack (t1 t2 : Table) : M Table :=
  match merge_conflict t1 t2 with
  | Some n => raise (TableMergeError n)
  | None => ret (stacked t1 t2)
  end.

(* ------------------------------------------------------------------ *)
(** ** The collaborators: formats, collectors, file system *)

(** An opened format object ([f_obj]); it stands for the file it was opened
    on. *)
Definition handle := string.

(** What this module asks of an instance of a [DataFormat] subclass (the
    classes live in [lofasm/formats], outside this module):
    [is_format(path)] and [instantiate_format_cls(path)], which opens the
    file or raises. *)
Record DataFormat : Type := mkFormat {
  is_format : string -> bool;
  instantiate_format_cls : string -> result handle
}.

(** What this module asks of an instance of an [InfoCollector] subclass
    (defined in [info_collector.py], outside this module): [collect_method]
    maps a format name to the routine that reads one value from an opened
    file; a routine returns a value or raises ([NotImplementedError] when
    the format has no implementation). *)
Record InfoCollector : Type := mkCollector {
  collect_method : dict (handle -> result cell)
}.

Record FileSystem : Type := mkFS {
  (** [os.listdir(p)]; [None] when it raises *)
  fs_listdir : string -> option (list string);
  fs_isdir : string -> bool;
  fs_isfile : string -> bool;
  (** [Table.read(p, format='ascii.ecsv')]; [None] when the file does not
      parse *)
  fs_read_table : string -> option Table
}.

Definition listdir (fs : FileSystem) (p : string) : M (list string) :=
  match fs_listdir fs p with
  | Some l => ret l
  | None => raise (OSError p)
  end.

Definition read_table (fs : FileSystem) (p : string) : M Table :=
  match fs_read_table fs p with
  | Some t => ret t
  | None => raise (ParseError p)
  end.

(** [t.write(join(dir, name), format='ascii.ecsv', overwrite=True)]: the file
    then exists, reads back as [t], and is listed in [dir] (last, when it is
    new), by whatever path it is named: two paths name one file when
    [abspath] maps them to one path. Writing over a directory raises. *)
Definition fs_write (abspath : string -> string) (fs : FileSystem)
           (dir name : string) (t : Table) : FileSystem :=
  let p := Path.join dir name in
  mkFS
    (fun q =>
       if abspath q =? abspath dir then
         option_map (fun l => if mem name l then l else l ++ [name])
                    (fs_listdir fs q)
       else fs_listdir fs q)
    (fs_isdir fs)
    (fun q => if abspath q =? abspath p then true else fs_isfile fs q)
    (fun q => if abspath q =? abspath p then Some t else fs_read_table fs q).

Definition write_table (abspath : string -> string) (fs : FileSystem)
           (dir name : string) (t : Table) : M FileSystem :=
  let p := Path.join dir name in
  if fs_isdir fs p then raise (IOError p)
  else emit (EvWrite p) ;;; ret (fs_write abspath fs dir name t).

(** [f_obj = fmt.instantiate_format_cls(f)] *)
Definition open_format (kc : DataFormat) (f : string) : M handle :=
  match instantiate_format_cls kc f with
  | Ok h => emit (EvOpen f) ;;; ret h
  | Raise e => raise e
  end.

(** A string cell as a string; a masked cell is no path component. *)
Definition as_str (c : cell) : M string :=
  match c with
  | Val s => ret s
  | Null => raise TypeError
  end.

(** A cell used as a dictionary key; the null is a key no registry has. *)
Definition as_key (c : cell) : M string :=
  match c with
  | Val s => ret s
  | Null => raise (KeyError "None")
  end.

(* ------------------------------------------------------------------ *)
(** ** The class LofasmFileInfo *)

Record LofasmFileInfo : Type := mkInfo {
  directory : string;
  directory_abs_path : string;
  directory_basename : string;
  files : dict (list string);
  info_file_name : string;
  new_files : list string;
  table_update : bool;
  col_names : list string;
  (** unset until [setup_info_table] has run; the empty table until then *)
  info_table : Table
}.

Definition collision_warning (cn : string) : string :=
  "Column '" ++ cn ++ "' exists in the table. If you want to"
  ++ " overwrite the column please set  'overwrite'"
  ++ " flag True.".

Definition info_warning (fn : string) : string :=
  "More then one .info file detected, "
  ++ "use '" ++ fn ++ "' as information file.".

Section Program.

(** [DataFormat._format_list], every class instantiated ([self.formats]) *)
Variable formats : dict DataFormat.
(** [InfoCollector._info_name_list], a class instantiated on lookup *)
Variable info_name_list : dict InfoCollector.
(** [os.path.abspath] (it depends on the working directory) *)
Variable abspath : string -> string.

(** *** check_file_format *)

(** The loop over the formats for one regular file [f] (named [fn]); the
    first format that recognises it takes it. *)
Fixpoint format_loop (fl : dict DataFormat) (f fn : string)
         (file_format : dict (list string)) : dict (list string) :=
  match fl with
  | [] => file_format
  | (k, kc) :: rest =>
      let ff := if dict_mem k file_format then file_format
                else dict_set k [] file_format in
      if is_format kc f then dict_append k fn ff
      else format_loop rest f fn ff
  end.

Definition check_step (fs : FileSystem) (dir : string)
           (file_format : dict (list string)) (fn : string)
  : dict (list string) :=
  let f := Path.join dir fn in
  let ff := if Path.endswith fn ".info"
            then dict_append "info" fn file_format else file_format in
  if fs_isdir fs f then dict_append "data_dir" fn ff
  else format_loop formats f fn ff.

Definition check_file_format (fs : FileSystem) (fns : list string)
           (dir : string) : dict (list string) :=
  fold_left (check_step fs dir) fns [("data_dir", []); ("info", [])].

(** *** get_format_map *)

Definition format_map_step (acc : list string * list string)
           (e : string * list string) : list string * list string :=
  let (tp, flist) := e in
  if negb (tp =? "info")
  then (fst acc ++ flist, snd acc ++ repeat tp (List.length flist))
  else acc.

Definition get_format_map (fls : dict (list string)) : dict string :=
  let acc := fold_left format_map_step fls ([], []) in
  dict_of_zip (fst acc) (snd acc).

(** *** get_col_collector *)

Definition get_col_collector (cols : list string) : dict InfoCollector :=
  fold_left
    (fun d coln =>
       match dict_get coln info_name_list with
       | Some c => dict_set coln c d
       | None => d
       end)
    cols [].

(** *** add_columns *)

(** The first loop: the requested columns that will be computed. *)
Fixpoint init_col_info (cns : list string) (target_table : Table)
         (overwrite : bool) (col_info : dict (list cell))
  : M (dict (list cell)) :=
  match cns with
  | [] => ret col_info
  | cn :: r =>
      if mem cn (keys target_table) && negb overwrite
      then emit (EvWarn (collision_warning cn)) ;;;
           init_col_info r target_table overwrite col_info
      else init_col_info r target_table overwrite (dict_set cn [] col_info)
  end.

(** [try: cvalue = col_collectors[k].collect_method[fmt](f_obj)
    except NotImplementedError: cvalue = None] *)
Definition collect_cell (col_collectors : dict InfoCollector)
           (k fmt : string) (f_obj : handle) : M cell :=
  c <- getitem k col_collectors ;;
  m <- getitem fmt (collect_method c) ;;
  match m f_obj with
  | Ok v => ret v
  | Raise NotImplementedError => ret Null
  | Raise e => raise e
  end.

(** The loop over [col_info.keys()] for one opened file. *)
Fixpoint row_loop (col_collectors : dict InfoCollector) (ks : list string)
         (fmt : string) (f_obj : handle) (col_info : dict (list cell))
  : M (dict (list cell)) :=
  match ks with
  | [] => ret col_info
  | k :: r =>
      cvalue <- collect_cell col_collectors k fmt f_obj ;;
      row_loop col_collectors r fmt f_obj (dict_append k cvalue col_info)
  end.

(** The body of the loop over the rows of the table. *)
Definition do_row (dir : string) (col_collectors : dict InfoCollector)
           (col_info : dict (list cell)) (r : cell * cell)
  : M (dict (list cell)) :=
  fn <- as_str (fst r) ;;
  let f := Path.join dir fn in
  fmt <- as_key (snd r) ;;
  kc <- getitem fmt formats ;;
  f_obj <- open_format kc f ;;
  col_info' <- row_loop col_collectors (dict_keys col_info) fmt f_obj
                        col_info ;;
  emit (EvClose f) ;;;
  ret col_info'.

Fixpoint rows_loop (dir : string) (col_collectors : dict InfoCollector)
         (rs : list (cell * cell)) (col_info : dict (list cell))
  : M (dict (list cell)) :=
  match rs with
  | [] => ret col_info
  | r :: rest =>
      col_info' <- do_row dir col_collectors col_info r ;;
      rows_loop dir col_collectors rest col_info'
  end.

(** The last loop: the computed columns are stored and their names
    recorded in [self.col_names]. *)
Definition store_step (acc : Table * list string) (kc : string * list cell)
  : Table * list string :=
  (set_column (fst kc) (snd kc) (fst acc),
   if mem (fst kc) (snd acc) then snd acc else snd acc ++ [fst kc]).

Definition add_columns (dir : string) (cnames : list string)
           (col_collectors : dict InfoCollector) (target_table : Table)
           (overwrite : bool) : M (Table * list string) :=
  col_info <- init_col_info (dict_keys col_collectors) target_table
                            overwrite [] ;;
  fns <- getitem "filename" (columns target_table) ;;
  fmts <- getitem "fileformat" (columns target_table) ;;
  col_info' <- rows_loop dir col_collectors (combine fns fmts) col_info ;;
  ret (fold_left store_step col_info' (target_table, cnames)).

(** *** setup_info_table *)

(** [for d in l: ... l.remove(d)]: the iteration reads position [i] of the
    list as it is now, and stops past its end. [fuel] bounds the number of
    turns; the length of the list is enough (see [prune_loop_fuel]). *)
Fixpoint prune_loop (fs : FileSystem) (dir : string) (fuel i : nat)
         (l : list string) : M (list string) :=
  match fuel with
  | 0 => ret l
  | S fuel' =>
      match nth_error l i with
      | None => ret l
      | Some d =>
          sub <- listdir fs (Path.join dir d) ;;
          if existsb (fun ff => Path.endswith ff ".info") sub
          then prune_loop fs dir fuel' (S i) l
          else prune_loop fs dir fuel' (S i) (list_remove d l)
      end
  end.

Definition set_meta (k : string) (v : metaval) (t : Table) : Table :=
  mkTable (columns t) (dict_set k v (meta t)) (declared t).

(** [list(set(format_map.keys()) - set(info_table['filename']))], listed in
    the order of the format map. *)
Definition delta (format_map : dict string) (fncol : list cell)
  : list string :=
  filter (fun f => negb (existsb (cell_eqb (Val f)) fncol))
         (dict_keys format_map).

(** [table.Table([new_files, new_file_tp],
    names=('filename', 'fileformat'))] *)
Definition new_rows (nf tps : list string) : Table :=
  mkTable [("filename", map Val nf); ("fileformat", map Val tps)] [] [].

(** [table.Table([format_map.keys(), format_map.values()],
    names=('filename', 'fileformat'), meta={'name': ..., 'haschild': ...})] *)
Definition fresh_rows (base : string) (format_map : dict string)
           (haschild : bool) : Table :=
  mkTable [("filename", map Val (dict_keys format_map));
           ("fileformat", map Val (dict_values format_map))]
          [("name", MStr (base ++ "_info_table")%string);
           ("haschild", MBool haschild)]
          [].

(** [if 'data_dir' in new_file_tp: info_table.meta['haschild'] = True] *)
Definition mark_child (tps : list string) (t : Table) : Table :=
  if mem "data_dir" tps then set_meta "haschild" (MBool true) t else t.

Definition setup_info_table (fs : FileSystem) (self : LofasmFileInfo)
  : M LofasmFileInfo :=
  dd <- getitem "data_dir" (files self) ;;
  dd' <- prune_loop fs (directory self) (List.length dd) 0 dd ;;
  let files' := dict_set "data_dir" dd' (files self) in
  let format_map := get_format_map files' in
  let info_file := Path.join (directory self) (info_file_name self) in
  if fs_isfile fs info_file then
    t <- read_table fs info_file ;;
    let curr_col := keys t in
    fncol <- getitem "filename" (columns t) ;;
    let nf := delta format_map fncol in
    match nf with
    | [] =>
        ret (mkInfo (directory self) (directory_abs_path self)
                    (directory_basename self) files' (info_file_name self)
                    nf (table_update self) (col_names self) t)
    | _ :: _ =>
        new_file_tp <- mapM (fun f => getitem f format_map) nf ;;
        let new_f_table := new_rows nf new_file_tp in
        let curr_col_collector := get_col_collector curr_col in
        r <- add_columns (directory self) (col_names self)
                         curr_col_collector new_f_table false ;;
        t' <- vstack t (fst r) ;;
        let t1 := mark_child new_file_tp t' in
        ret (mkInfo (directory self) (directory_abs_path self)
                    (directory_basename self) files' (info_file_name self)
                    nf true (snd r) t1)
    end
  else
    let haschild := (0 <? List.length dd')%nat in
    let t := fresh_rows (directory_basename self) format_map haschild in
    let col_collector := get_col_collector (col_names self) in
    r <- add_columns (directory self) (col_names self) col_collector t
                     false ;;
    ret (mkInfo (directory self) (directory_abs_path self)
                (directory_basename self) files' (info_file_name self)
                (new_files self) true (snd r) (fst r)).

(** *** __init__ *)

Definition default_col_names : list string :=
  ["station"; "channel"; "hdr_type"; "start_time"].

(** The name of the catalog file: the first [.info] entry, with a
    warning when there are several, or one made from the directory name. *)
Definition pick_info_file_name (base : string) (infos : list string)
  : M string :=
  let num_info_files := List.length infos in
  if (num_info_files <? 1)%nat then ret (base ++ ".info")%string
  else
    (if (1 <? num_info_files)%nat
     then emit (EvWarn (info_warning (hd "" infos)))
     else ret tt) ;;;
    ret (hd "" infos).

Definition init (fs : FileSystem) (dir : string)
           (add_col_names : list string) : M LofasmFileInfo :=
  all_files <- listdir fs dir ;;
  let abs := abspath dir in
  let base := Path.basename (Path.rstrip_sep abs) in
  let fls := check_file_format fs all_files dir in
  infos <- getitem "info" fls ;;
  name <- pick_info_file_name base infos ;;
  setup_info_table fs
    (mkInfo dir abs base fls name [] false
            (default_col_names ++ add_col_names) (mkTable [] [] [])).

(** *** write_info_table *)

Definition write_info_table (fs : FileSystem) (self : LofasmFileInfo)
  : M FileSystem :=
  if table_update self
  then write_table abspath fs (directory_abs_path self)
                   (info_file_name self) (info_table self)
  else ret fs.

(** *** Notions used in the statements *)

(** The name [pick_info_file_name] returns. *)
Definition info_name (base : string) (infos : list string) : string :=
  if (List.length infos <? 1)%nat then (base ++ ".info")%string
  else hd "" infos.

(** How a name [x] may come to be listed under the category [tp]. *)
Definition filed (fs : FileSystem) (dir tp x : string) : Prop :=
  (tp = "info" /\ Path.endswith x ".info" = true) \/
  (tp = "data_dir" /\ fs_isdir fs (Path.join dir x) = true) \/
  (fs_isdir fs (Path.join dir x) = false /\
   exists kc, In (tp, kc) formats /\ is_format kc (Path.join dir x) = true).

Definition all_filed (fs : FileSystem) (dir : string)
           (entries : list string) (ff : dict (list string)) : Prop :=
  forall tp l x, In (tp, l) ff -> In x l ->
                 In x entries /\ filed fs dir tp x.

(** The categories [get_format_map] reads: all but ['info']. *)
Definition data_entries (fls : dict (list string))
  : dict (list string) :=
  filter (fun e => negb (fst e =? "info")) fls.

(** The pairs (name, category) [get_format_map] zips, in order. *)
Definition flat_pairs (fls : dict (list string)) : list (string * string) :=
  flat_map (fun e => map (fun x => (x, fst e)) (snd e)) (data_entries fls).

(** Every name listed in [ff] is listed in [ff'], under the same category. *)
Definition grows (ff ff' : dict (list string)) : Prop :=
  forall tp l x, In (tp, l) ff -> In x l ->
                 exists l', In (tp, l') ff' /\ In x l'.

(** The names the scan filed under [tp] ([self.files[tp]]). *)
Definition category (tp : string) (fls : dict (list string)) : list string :=
  match dict_get tp fls with
  | Some l => l
  | None => []
  end.

(** The formats of the names [nf] in the format map. *)
Definition lookup_all (format_map : dict string) (nf : list string)
  : list string :=
  map (fun f => match dict_get f format_map with
                | Some tp => tp
                | None => ""
                end) nf.

(** A requested column that [add_columns] skips with a warning. *)
Definition colliding (t : Table) (overwrite : bool) (cn : string) : bool :=
  mem cn (keys t) && negb overwrite.

Definition warnings (col_collectors : dict InfoCollector) (t : Table)
           (overwrite : bool) : list event :=
  map (fun cn => EvWarn (collision_warning cn))
      (filter (colliding t overwrite) (dict_keys col_collectors)).

(** [col_info] as the first loop of [add_columns] leaves it. *)
Definition empty_cols (col_collectors : dict InfoCollector) (t : Table)
           (overwrite : bool) : dict (list cell) :=
  dict_update
    (map (fun cn => (cn, []))
         (filter (fun cn => negb (colliding t overwrite cn))
                 (dict_keys col_collectors)))
    [].

(** The names of the columns [add_columns] computes. *)
Definition computed (col_collectors : dict InfoCollector) (t : Table)
           (overwrite : bool) : list string :=
  dict_keys (empty_cols col_collectors t overwrite).

(** The cell [collect_cell] yields; the null where it raises. *)
Definition cell_of (col_collectors : dict InfoCollector) (k fmt : string)
           (f_obj : handle) : cell :=
  match outcome (collect_cell col_collectors k fmt f_obj) with
  | Ok c => c
  | Raise _ => Null
  end.

(** [collect_cell] returns: the collector gave a value or signalled
    [NotImplementedError]. *)
Definition cell_okb (col_collectors : dict InfoCollector) (k fmt : string)
           (f_obj : handle) : bool :=
  match outcome (collect_cell col_collectors k fmt f_obj) with
  | Ok _ => true
  | Raise _ => false
  end.

(** The row names a registered format, its file opens, and no collector
    of the columns [ks] raises anything but [NotImplementedError]. *)
Definition row_okb (dir : string) (col_collectors : dict InfoCollector)
           (ks : list string) (r : cell * cell) : bool :=
  match r with
  | (Val fn, Val fmt) =>
      match dict_get fmt formats with
      | Some kc =>
          match instantiate_format_cls kc (Path.join dir fn) with
          | Ok h => forallb (fun k => cell_okb col_collectors k fmt h) ks
          | Raise _ => false
          end
      | None => false
      end
  | _ => false
  end.

(** The cell of column [k] for row [r]. *)
Definition cell_at (dir : string) (col_collectors : dict InfoCollector)
           (k : string) (r : cell * cell) : cell :=
  match r with
  | (Val fn, Val fmt) =>
      match dict_get fmt formats with
      | Some kc =>
          match instantiate_format_cls kc (Path.join dir fn) with
          | Ok h => cell_of col_collectors k fmt h
          | Raise _ => Null
          end
      | None => Null
      end
  | _ => Null
  end.

(** What the routine that the collector of column [k] has for the format
    [fmt] answers on the opened file [f_obj]; nothing when the column has
    no collector, or the collector no routine for the format. *)
Definition answer (col_collectors : dict InfoCollector) (k fmt : string)
           (f_obj : handle) : option (result cell) :=
  match dict_get k col_collectors with
  | Some c =>
      match dict_get fmt (collect_method c) with
      | Some m => Some (m f_obj)
      | None => None
      end
  | None => None
  end.

(** The routine is there, and it returns a value or signals
    [NotImplementedError]. *)
Definition answeredb (col_collectors : dict InfoCollector) (k fmt : string)
           (f_obj : handle) : bool :=
  match answer col_collectors k fmt f_obj with
  | Some (Ok _) => true
  | Some (Raise NotImplementedError) => true
  | _ => false
  end.

(** The value the routine returns; the null when it signals that the
    format is not implemented. *)
Definition answer_cell (col_collectors : dict InfoCollector) (k fmt : string)
           (f_obj : handle) : cell :=
  match answer col_collectors k fmt f_obj with
  | Some (Ok v) => v
  | _ => Null
  end.

(** The row names a registered format, its file opens, and the routine of
    every column of [ks] returns a value or signals
    [NotImplementedError]. *)
Definition row_answeredb (dir : string) (col_collectors : dict InfoCollector)
           (ks : list string) (r : cell * cell) : bool :=
  match r with
  | (Val fn, Val fmt) =>
      match dict_get fmt formats with
      | Some kc =>
          match instantiate_format_cls kc (Path.join dir fn) with
          | Ok h => forallb (fun k => answeredb col_collectors k fmt h) ks
          | Raise _ => false
          end
      | None => false
      end
  | _ => false
  end.

(** What the routine of column [k] answers for the row [r]. *)
Definition answer_at (dir : string) (col_collectors : dict InfoCollector)
           (k : string) (r : cell * cell) : cell :=
  match r with
  | (Val fn, Val fmt) =>
      match dict_get fmt formats with
      | Some kc =>
          match instantiate_format_cls kc (Path.join dir fn) with
          | Ok h => answer_cell col_collectors k fmt h
          | Raise _ => Null
          end
      | None => Null
      end
  | _ => Null
  end.

Definition row_path (dir : string) (r : cell * cell) : string :=
  match fst r with
  | Val fn => Path.join dir fn
  | Null => ""
  end.

(** What a row leaves in the log when its columns are computed. *)
Definition row_events (dir : string) (r : cell * cell) : list event :=
  [EvOpen (row_path dir r); EvClose (row_path dir r)].

(** The table [add_columns] returns when every row [rs] is fine. *)
Definition with_columns (dir : string) (col_collectors : dict InfoCollector)
           (t : Table) (overwrite : bool) (rs : list (cell * cell))
  : Table :=
  mkTable
    (dict_update
       (extend (fun k => map (cell_at dir col_collectors k) rs)
               (empty_cols col_collectors t overwrite))
       (columns t))
    (meta t)
    (fold_left (fun d k => dict_remove k d)
               (computed col_collectors t overwrite) (declared t)).

(** [self.col_names] after the columns [ks] are stored. *)
Definition record_names (ks cnames : list string) : list string :=
  fold_left (fun cn k => if mem k cn then cn else cn ++ [k]) ks cnames.

(** The first format of the registry, in its order, that recognises the
    path [f]. *)
Fixpoint first_match (fl : dict DataFormat) (f : string) : option string :=
  match fl with
  | [] => None
  | (k, kc) :: rest => if is_format kc f then Some k else first_match rest f
  end.

(** Where the scan may list the entry [x]: under ['info'] for its suffix,
    under ['data_dir'] for being a directory, or, a regular file, under the
    first format that recognises it. *)
Definition placed (fs : FileSystem) (dir tp x : string) : Prop :=
  (tp = "info" /\ Path.endswith x ".info" = true) \/
  (tp = "data_dir" /\ fs_isdir fs (Path.join dir x) = true) \/
  (fs_isdir fs (Path.join dir x) = false /\
   first_match formats (Path.join dir x) = Some tp).

End Program.

(** The openings and closings of files in a log. *)
Definition is_file_event (e : event) : bool :=
  match e with
  | EvOpen _ | EvClose _ => true
  | _ => false
  end.

Definition file_events (l : list event) : list event :=
  filter is_file_event l.

(** The files opened and closed, one after the other, for the names [fns]
    of the directory [dir]. *)
Definition opened_in_turn (dir : string) (fns : list string) : list event :=
  flat_map (fun fn => [EvOpen (Path.join dir fn); EvClose (Path.join dir fn)])
           fns.

Definition has_info (sub : list string) : bool :=
  existsb (fun ff => Path.endswith ff ".info") sub.

(* ------------------------------------------------------------------ *)
(** ** A small world to run the program in *)

Module Examples.

(** A format recognised by its suffix; the file [gone.bbx] cannot be
    opened. *)
Definition bbx : DataFormat :=
  mkFormat (fun p => Path.endswith p ".bbx")
           (fun p => if Path.endswith p "gone.bbx" then Raise (IOError p)
                     else Ok p).

(** The format the rows of the subdirectories are opened with. *)
Definition data_dir_format : DataFormat :=
  mkFormat (fun _ => false) (fun p => Ok p).

(** A format that takes every file. *)
Definition catch_all : DataFormat :=
  mkFormat (fun _ => true) (fun p => Ok p).

Definition formats : dict DataFormat :=
  [("bbx", bbx); ("data_dir", data_dir_format)].

Definition station : InfoCollector :=
  mkCollector [("bbx", fun _ => Ok (Val "LoFASM1"));
               ("data_dir", fun _ => Raise NotImplementedError);
               ("any", fun _ => Raise NotImplementedError)].

Definition channel : InfoCollector :=
  mkCollector [("bbx", fun _ => Raise NotImplementedError);
               ("data_dir", fun _ => Raise NotImplementedError);
               ("any", fun _ => Raise NotImplementedError)].

(** Reading the start time of [bad.bbx] fails. *)
Definition start_time : InfoCollector :=
  mkCollector [("bbx", fun h => if Path.endswith h "bad.bbx"
                                then Raise (IOError h)
                                else Ok (Val "2016-01-01"));
               ("data_dir", fun _ => Raise NotImplementedError);
               ("any", fun _ => Raise NotImplementedError)].

Definition collectors : dict InfoCollector :=
  [("station", station); ("channel", channel); ("start_time", start_time)].

Definition abspath (p : string) : string := p.

(** The directory [/data] with the entries [entries], the subdirectories
    [subdirs] (by path, with their listing) and the tables [tables] (by
    path). *)
Definition disk (entries : list string) (subdirs : dict (list string))
           (tables : dict Table) : FileSystem :=
  mkFS (fun p => if p =? "/data" then Some entries else dict_get p subdirs)
       (fun p => dict_mem p subdirs)
       (fun p => dict_mem p tables)
       (fun p => dict_get p tables).

Definition table_of (fns fmts : list string) : Table :=
  mkTable [("filename", map Val fns); ("fileformat", map Val fmts)] [] [].

(** A catalog with the one row of [a.bbx]. *)
Definition catalog_a : Table :=
  mkTable [("filename", [Val "a.bbx"]); ("fileformat", [Val "bbx"]);
           ("station", [Val "LoFASM1"]); ("channel", [Null])]
          [("name", MStr "data_info_table"); ("haschild", MBool false)]
          [].

Definition run (fs : FileSystem) : M LofasmFileInfo :=
  init formats collectors abspath fs "/data" [].

Definition no_state : LofasmFileInfo :=
  mkInfo "" "" "" [] "" [] false [] (mkTable [] [] []).

Definition state_of (m : M LofasmFileInfo) : LofasmFileInfo :=
  match outcome m with
  | Ok st => st
  | Raise _ => no_state
  end.

(** Two subdirectories, neither with a catalog. *)
Definition disk_two_subdirs : FileSystem :=
  disk ["s1"; "s2"] [("/data/s1", []); ("/data/s2", [])] [].

(** A data file and a file no format recognises, no catalog yet. *)
Definition disk_notes : FileSystem :=
  disk ["a.bbx"; "notes.txt"] [] [].

(** The catalog of [a.bbx] is stored; [notes.txt] is new. *)
Definition disk_notes_catalog : FileSystem :=
  disk ["a.bbx"; "notes.txt"; "data.info"] []
       [("/data/data.info", catalog_a)].

(** The catalog of [a.bbx] is stored; [b.bbx] is new. *)
Definition disk_new_file : FileSystem :=
  disk ["a.bbx"; "b.bbx"; "data.info"] []
       [("/data/data.info", catalog_a)].

(** One data file, no catalog yet. *)
Definition disk_first_run : FileSystem := disk ["a.bbx"] [] [].

(** [os.path.abspath] when the working directory is [/data]. *)
Definition abspath_cwd (p : string) : string :=
  if p =? "." then "/data"
  else if Path.startswith p "./"
       then "/data/" ++ substring 2 (String.length p - 2) p
       else if Path.startswith p "/" then p else "/data/" ++ p.

(** A file system seen from the working directory [/data]: a path names
    the file of its absolute path. *)
Definition at_cwd (fs : FileSystem) : FileSystem :=
  mkFS (fun p => fs_listdir fs (abspath_cwd p))
       (fun p => fs_isdir fs (abspath_cwd p))
       (fun p => fs_isfile fs (abspath_cwd p))
       (fun p => fs_read_table fs (abspath_cwd p)).

Definition disk_first_run_cwd : FileSystem := at_cwd disk_first_run.

(** The catalog of [a.bbx] is stored; the subdirectory [sub], which holds
    a catalog, is new. *)
Definition disk_new_subdir : FileSystem :=
  disk ["a.bbx"; "sub"; "data.info"] [("/data/sub", ["sub.info"])]
       [("/data/data.info", catalog_a)].

(** A registry whose one format takes every file. *)
Definition formats_any : dict DataFormat := [("any", catch_all)].

Definition catalog_any : Table :=
  mkTable [("filename", [Val "a.dat"]); ("fileformat", [Val "any"]);
           ("station", [Null])] [] [].

Definition disk_any : FileSystem :=
  disk ["a.dat"; "data.info"] [] [("/data/data.info", catalog_any)].

(** A subdirectory with a catalog beside a data file, no catalog yet. *)
Definition disk_child : FileSystem :=
  disk ["a.bbx"; "sub"] [("/data/sub", ["sub.info"; "x.bbx"])] [].

(** An empty directory. *)
Definition disk_empty : FileSystem := disk [] [] [].

(** Two catalog candidates; the first holds the catalog of [a.bbx]. *)
Definition disk_two_info : FileSystem :=
  disk ["x.info"; "a.bbx"; "y.info"] [] [("/data/x.info", catalog_a)].

(** The catalog file is there and does not parse. *)
Definition disk_corrupt : FileSystem :=
  mkFS (fun p => if p =? "/data" then Some ["a.bbx"; "data.info"] else None)
       (fun _ => false)
       (fun p => p =? "/data/data.info")
       (fun _ => None).

(** The stored catalog has no [filename] column. *)
Definition disk_no_filename : FileSystem :=
  disk ["a.bbx"; "data.info"] []
       [("/data/data.info", mkTable [("fileformat", [Val "bbx"])] [] [])].

(** A catalog of [a.bbx] with a column no collector is registered for; the
    files [b.bbx] and [c.bbx] are new. *)
Definition catalog_note : Table :=
  mkTable [("filename", [Val "a.bbx"]); ("fileformat", [Val "bbx"]);
           ("station", [Val "LoFASM1"]); ("note", [Val "checked"])] [] [].

Definition disk_two_new : FileSystem :=
  disk ["a.bbx"; "b.bbx"; "c.bbx"; "data.info"] []
       [("/data/data.info", catalog_note)].

(** A registry without the format of the subdirectories. *)
Definition formats_bbx : dict DataFormat := [("bbx", bbx)].

(** A collector with no entry for the format [bbx]. *)
Definition hdr_type : InfoCollector :=
  mkCollector [("data_dir", fun _ => Raise NotImplementedError)].

Definition collectors_hdr : dict InfoCollector :=
  [("station", station); ("hdr_type", hdr_type); ("channel", channel)].

Definition st_child : LofasmFileInfo :=
  Eval vm_compute in state_of (run disk_child).

Definition st_two_info : LofasmFileInfo :=
  Eval vm_compute in state_of (run disk_two_info).

Definition st_two_new : LofasmFileInfo :=
  Eval vm_compute in state_of (run disk_two_new).

Definition st_any : LofasmFileInfo :=
  Eval vm_compute in
    state_of (init formats_any collectors abspath disk_any "/data" []).

Definition st_new_file : LofasmFileInfo :=
  Eval vm_compute in state_of (run disk_new_file).

Definition st_notes : LofasmFileInfo :=
  Eval vm_compute in state_of (run disk_notes).

Definition st_first_run : LofasmFileInfo :=
  Eval vm_compute in state_of (run disk_first_run).

(** The first run on [.], the working directory being [/data]. *)
Definition st_first_run_cwd : LofasmFileInfo :=
  Eval vm_compute in
    state_of (init formats collectors abspath_cwd disk_first_run_cwd "." []).

End Examples.

(* ------------------------------------------------------------------ *)
(** ** Lemmas on the effect layer *)

Lemma bind_nil {A B} (a : A) (f : A -> M B) : bind ([], Ok a) f = f a.
Proof. unfold bind. now destruct (f a). Qed.

Lemma bind_ret {A B} (a : A) (f : A -> M B) : bind (ret a) f = f a.
Proof. apply bind_nil. Qed.


Lemma M_eta {A} (m : M A) : m = (log m, outcome m).
Proof. now destruct m. Qed.

Lemma getitem_ok {V} k (d : dict V) v :
  dict_get k d = Some v -> getitem k d = ([], Ok v).
Proof. unfold getitem. now intros ->. Qed.

(* ------------------------------------------------------------------ *)
(** ** Lemmas on dictionaries *)

Section DictFacts.
Variable V : Type.
Implicit Types (d : dict V) (k : string) (v : V).

Lemma dict_get_set_eq k v d : dict_get k (dict_set k v d) = Some v.
Proof.
  induction d as [|[k' v'] r IH]; simpl.
  - now rewrite String.eqb_refl.
  - destruct (k' =? k) eqn:E; simpl.
    + now rewrite String.eqb_refl.
    + now rewrite E.
Qed.

Lemma dict_get_set_neq k k' v d :
  k <> k' -> dict_get k (dict_set k' v d) = dict_get k d.
Proof.
  intros N. induction d as [|[k0 v0] r IH]; simpl.
  - destruct (k' =? k) eqn:E; [|reflexivity].
    apply String.eqb_eq in E. congruence.
  - destruct (k0 =? k') eqn:E; simpl.
    + apply String.eqb_eq in E. subst k0.
      destruct (k' =? k) eqn:E'; [|reflexivity].
      apply String.eqb_eq in E'. congruence.
    + now rewrite IH.
Qed.

Lemma dict_get_None k d : dict_get k d = None <-> ~ In k (dict_keys d).
Proof.
  induction d as [|[k' v'] r IH]; simpl.
  - tauto.
  - destruct (k' =? k) eqn:E.
    + apply String.eqb_eq in E. split; [discriminate|tauto].
    + apply String.eqb_neq in E. rewrite IH. tauto.
Qed.

Lemma dict_get_Some_In k v d : dict_get k d = Some v -> In (k, v) d.
Proof.
  induction d as [|[k' v'] r IH]; simpl; [discriminate|].
  destruct (k' =? k) eqn:E.
  - apply String.eqb_eq in E. intros [= ->]. subst. now left.
  - intros H. right. auto.
Qed.

Lemma dict_mem_true k d : dict_mem k d = true <-> In k (dict_keys d).
Proof.
  unfold dict_mem. destruct (dict_get k d) eqn:E.
  - split; [intros _|reflexivity]. apply dict_get_Some_In in E.
    change k with (fst (k, v)). now apply in_map.
  - apply dict_get_None in E. split; [discriminate|tauto].
Qed.

Lemma dict_keys_set k k' v d :
  In k (dict_keys (dict_set k' v d)) <-> k = k' \/ In k (dict_keys d).
Proof.
  induction d as [|[k0 v0] r IH]; simpl.
  - intuition.
  - destruct (k0 =? k') eqn:E; simpl.
    + apply String.eqb_eq in E. subst. intuition.
    + rewrite IH. intuition.
Qed.

Lemma dict_set_In k v k' v' d :
  In (k, v) (dict_set k' v' d) -> (k, v) = (k', v') \/ In (k, v) d.
Proof.
  induction d as [|[k0 v0] r IH]; simpl.
  - intuition.
  - destruct (k0 =? k'); simpl; intuition.
Qed.

Lemma dict_set_absent k v d :
  ~ In k (dict_keys d) -> dict_set k v d = d ++ [(k, v)].
Proof.
  induction d as [|[k0 v0] r IH]; simpl; [reflexivity|].
  intros N. destruct (k0 =? k) eqn:E.
  - apply String.eqb_eq in E. tauto.
  - f_equal. apply IH. tauto.
Qed.

Lemma dict_keys_set_present k v d :
  In k (dict_keys d) -> dict_keys (dict_set k v d) = dict_keys d.
Proof.
  induction d as [|[k0 v0] r IH]; simpl; [tauto|].
  intros H. destruct (k0 =? k) eqn:E; simpl.
  - apply String.eqb_eq in E. now subst.
  - f_equal. apply IH. destruct H as [H|H]; [|assumption].
    apply String.eqb_neq in E. congruence.
Qed.

Lemma dict_set_NoDup k v d :
  NoDup (dict_keys d) -> NoDup (dict_keys (dict_set k v d)).
Proof.
  intros ND. destruct (in_dec string_dec k (dict_keys d)) as [I|N].
  - now rewrite dict_keys_set_present.
  - rewrite dict_set_absent by assumption. unfold dict_keys.
    rewrite map_app. simpl. apply NoDup_app; auto.
    + repeat constructor. simpl. tauto.
    + intros a Ha [<-|[]]. now apply N.
Qed.

Lemma dict_update_NoDup bs d :
  NoDup (dict_keys d) -> NoDup (dict_keys (dict_update bs d)).
Proof.
  revert d. induction bs as [|[k v] r IH]; simpl; intros d ND; auto.
  apply IH. now apply dict_set_NoDup.
Qed.

Lemma dict_update_get_other k bs d :
  ~ In k (dict_keys bs) -> dict_get k (dict_update bs d) = dict_get k d.
Proof.
  revert d. induction bs as [|[k' v] r IH]; simpl; intros d N; auto.
  unfold dict_update in *. simpl. rewrite IH by tauto.
  apply dict_get_set_neq. intros ->. tauto.
Qed.

Lemma dict_update_get k v bs d :
  NoDup (dict_keys bs) -> In (k, v) bs ->
  dict_get k (dict_update bs d) = Some v.
Proof.
  revert d. induction bs as [|[k' v'] r IH]; simpl; intros d ND I; [tauto|].
  inversion ND as [|? ? NI ND']; subst. unfold dict_update in *. simpl.
  destruct I as [I|I].
  - inversion I; subst. fold (dict_update r (dict_set k v d)).
    rewrite dict_update_get_other by assumption.
    apply dict_get_set_eq.
  - now apply IH.
Qed.

Lemma dict_update_keys k bs d :
  In k (dict_keys (dict_update bs d)) <->
  In k (dict_keys bs) \/ In k (dict_keys d).
Proof.
  revert d. induction bs as [|[k' v] r IH]; simpl; intros d.
  - tauto.
  - unfold dict_update in *. simpl. rewrite IH, dict_keys_set.
    intuition (subst; auto).
Qed.

End DictFacts.

Lemma dict_append_keys {A} k (x : A) d :
  dict_keys (dict_append k x d) = dict_keys d.
Proof.
  induction d as [|[k' l] r IH]; simpl; [reflexivity|].
  destruct (k' =? k); simpl; [reflexivity|now rewrite IH].
Qed.

Lemma dict_append_get_neq {A} k k' (x : A) d :
  k <> k' -> dict_get k (dict_append k' x d) = dict_get k d.
Proof.
  intros N. induction d as [|[k0 l] r IH]; simpl; [reflexivity|].
  destruct (k0 =? k') eqn:E; simpl.
  - apply String.eqb_eq in E. subst.
    destruct (k' =? k) eqn:E'; [|reflexivity].
    apply String.eqb_eq in E'. congruence.
  - now rewrite IH.
Qed.

Lemma dict_append_get_eq {A} k (x : A) d l :
  dict_get k d = Some l -> dict_get k (dict_append k x d) = Some (l ++ [x]).
Proof.
  induction d as [|[k0 l0] r IH]; simpl; [discriminate|].
  destruct (k0 =? k) eqn:E; simpl; rewrite E.
  - now intros [= ->].
  - auto.
Qed.

Lemma mem_true x l : mem x l = true <-> In x l.
Proof.
  unfold mem. rewrite existsb_exists. split.
  - intros [y [Hy E]]. apply String.eqb_eq in E. now subst.
  - intros H. exists x. split; [assumption|apply String.eqb_refl].
Qed.

Lemma mem_false x l : mem x l = false <-> ~ In x l.
Proof.
  rewrite <- mem_true. destruct (mem x l); split; congruence.
Qed.

(* ------------------------------------------------------------------ *)
(** ** add_columns *)

(** Appending one cell per key, key after key, extends every column. *)
Lemma fold_append_all (g : string -> cell) (d1 d2 : dict (list cell)) :
  NoDup (dict_keys (d1 ++ d2)) ->
  fold_left (fun ci k => dict_append k (g k) ci) (dict_keys d2) (d1 ++ d2)
  = d1 ++ map (fun kl => (fst kl, snd kl ++ [g (fst kl)])) d2.
Proof.
  revert d1. induction d2 as [|[k l] r IH]; intros d1 ND; simpl.
  - reflexivity.
  - assert (E : dict_append k (g k) (d1 ++ (k, l) :: r)
                = (d1 ++ [(k, l ++ [g k])]) ++ r).
    { clear IH. unfold dict_keys in ND. rewrite map_app in ND. simpl in ND.
      apply NoDup_remove_2 in ND.
      assert (N : ~ In k (map fst d1)) by (rewrite in_app_iff in ND; tauto).
      clear ND. induction d1 as [|[k1 l1] d1 IH1]; simpl.
      - now rewrite String.eqb_refl.
      - destruct (k1 =? k) eqn:E1.
        + apply String.eqb_eq in E1. simpl in N. tauto.
        + f_equal. apply IH1. simpl in N. tauto. }
    rewrite E. rewrite IH.
    + now rewrite <- app_assoc.
    + unfold dict_keys in *. rewrite <- app_assoc.
      rewrite !map_app in *. simpl in *. assumption.
Qed.

Lemma extend_keys (f : string -> list cell) ci :
  dict_keys (extend f ci) = dict_keys ci.
Proof. unfold extend, dict_keys. rewrite map_map. reflexivity. Qed.

Lemma extend_nil (ci : dict (list cell)) : extend (fun _ => []) ci = ci.
Proof.
  unfold extend. rewrite <- (map_id ci) at 2. apply map_ext.
  intros [k l]. simpl. now rewrite app_nil_r.
Qed.

Lemma extend_extend (f g : string -> list cell) ci :
  extend g (extend f ci) = extend (fun k => f k ++ g k) ci.
Proof.
  unfold extend. rewrite map_map. apply map_ext.
  intros [k l]. simpl. now rewrite app_assoc.
Qed.

Lemma store_fold (ci : dict (list cell)) t cn :
  fold_left store_step ci (t, cn) =
  (mkTable (dict_update ci (columns t)) (meta t)
            (fold_left (fun d k => dict_remove k d) (dict_keys ci)
                       (declared t)),
   record_names (dict_keys ci) cn).
Proof.
  revert t cn. induction ci as [|[k c] r IH]; intros t cn; simpl.
  - now destruct t.
  - unfold store_step at 2. simpl. rewrite IH. reflexivity.
Qed.

Section AddColumnsFacts.
Variable formats : dict DataFormat.
Variable dir : string.
Variable cs : dict InfoCollector.

Lemma init_col_info_eq cns t ov ci :
  init_col_info cns t ov ci =
  (map (fun cn => EvWarn (collision_warning cn))
       (filter (colliding t ov) cns),
   Ok (dict_update
         (map (fun cn => (cn, []))
              (filter (fun cn => negb (colliding t ov cn)) cns))
         ci)).
Proof.
  revert ci. induction cns as [|cn r IH]; intros ci; simpl; [reflexivity|].
  change (mem cn (keys t) && negb ov) with (colliding t ov cn).
  destruct (colliding t ov cn); simpl; rewrite IH; reflexivity.
Qed.

Lemma computed_NoDup t ov : NoDup (computed cs t ov).
Proof. apply dict_update_NoDup. constructor. Qed.

Lemma computed_In t ov k :
  In k (computed cs t ov) <->
  In k (dict_keys cs) /\ colliding t ov k = false.
Proof.
  unfold computed, empty_cols. rewrite dict_update_keys. simpl.
  unfold dict_keys at 1. rewrite map_map. simpl. rewrite map_id.
  rewrite filter_In, negb_true_iff. tauto.
Qed.

Lemma collect_cell_log k fmt h : log (collect_cell cs k fmt h) = [].
Proof.
  unfold collect_cell. unfold getitem.
  destruct (dict_get k cs) as [c|]; simpl; [|reflexivity].
  destruct (dict_get fmt (collect_method c)) as [m|]; simpl; [|reflexivity].
  destruct (m h) as [v|[]]; reflexivity.
Qed.

Lemma collect_cell_eq k fmt h :
  collect_cell cs k fmt h = ([], outcome (collect_cell cs k fmt h)).
Proof.
  pose proof (collect_cell_log k fmt h) as H.
  destruct (collect_cell cs k fmt h) as [l r]. simpl in *. now subst.
Qed.

Lemma row_loop_ok ks fmt h ci :
  forallb (fun k => cell_okb cs k fmt h) ks = true ->
  row_loop cs ks fmt h ci =
  ([], Ok (fold_left (fun ci k => dict_append k (cell_of cs k fmt h) ci)
                     ks ci)).
Proof.
  revert ci. induction ks as [|k r IH]; intros ci F; simpl; [reflexivity|].
  simpl in F. apply andb_true_iff in F. destruct F as [F1 F2].
  unfold cell_okb in F1. unfold cell_of at 2.
  rewrite collect_cell_eq.
  destruct (outcome (collect_cell cs k fmt h)) as [c|e]; [|discriminate].
  simpl. now rewrite (IH _ F2).
Qed.

Lemma row_loop_raise ks fmt h ci :
  forallb (fun k => cell_okb cs k fmt h) ks = false ->
  exists e, row_loop cs ks fmt h ci = ([], Raise e).
Proof.
  revert ci. induction ks as [|k r IH]; intros ci; simpl; [discriminate|].
  unfold cell_okb at 1. rewrite collect_cell_eq.
  destruct (outcome (collect_cell cs k fmt h)) as [c|e]; simpl.
  - intros F. destruct (IH (dict_append k c ci) F) as [e He].
    exists e. now rewrite He.
  - intros _. now exists e.
Qed.

(** One row whose file opens and whose collectors return. *)
Lemma do_row_ok ci r :
  NoDup (dict_keys ci) ->
  row_okb formats dir cs (dict_keys ci) r = true ->
  do_row formats dir cs ci r =
  (row_events dir r,
   Ok (extend (fun k => [cell_at formats dir cs k r]) ci)).
Proof.
  intros ND H. destruct r as [[|fn] [|fmt]]; simpl in H; try discriminate.
  unfold do_row, cell_at, row_events, row_path, open_format, getitem. simpl.
  destruct (dict_get fmt formats) as [kc|]; [|discriminate]. simpl.
  destruct (instantiate_format_cls kc (Path.join dir fn)) as [h|e];
    [|discriminate].
  simpl. rewrite (row_loop_ok _ _ _ _ H). simpl.
  pose proof (fold_append_all (fun k => cell_of cs k fmt h) [] ci ND) as E.
  simpl in E. now rewrite E.
Qed.

(** One row whose file does not open: nothing is logged. *)
Lemma do_row_open_fail ci fn fmt kc e :
  dict_get fmt formats = Some kc ->
  instantiate_format_cls kc (Path.join dir fn) = Raise e ->
  do_row formats dir cs ci (Val fn, Val fmt) = ([], Raise e).
Proof.
  intros Hk Ho. unfold do_row, open_format, getitem. simpl.
  rewrite Hk. simpl. now rewrite Ho.
Qed.

(** One row with a collector that raises: the file was opened and the
    exception leaves before the close. *)
Lemma do_row_collect_fail ci fn fmt kc h :
  dict_get fmt formats = Some kc ->
  instantiate_format_cls kc (Path.join dir fn) = Ok h ->
  forallb (fun k => cell_okb cs k fmt h) (dict_keys ci) = false ->
  exists e,
    do_row formats dir cs ci (Val fn, Val fmt)
    = ([EvOpen (Path.join dir fn)], Raise e).
Proof.
  intros Hk Ho F. unfold do_row, open_format, getitem. simpl.
  rewrite Hk. simpl. rewrite Ho. simpl.
  destruct (row_loop_raise _ _ _ ci F) as [e He]. exists e.
  now rewrite He.
Qed.

(** Any row that is not fine stops the loop, with at most the opening of
    its file in the log. *)
Lemma do_row_fail ci r :
  row_okb formats dir cs (dict_keys ci) r = false ->
  exists e,
    do_row formats dir cs ci r = ([], Raise e) \/
    do_row formats dir cs ci r = ([EvOpen (row_path dir r)], Raise e).
Proof.
  intros H. destruct r as [[|fn] [|fmt]]; simpl in H;
    try (exists TypeError; left; reflexivity);
    try (exists (KeyError "None"); left; reflexivity).
  destruct (dict_get fmt formats) as [kc|] eqn:Hk.
  - destruct (instantiate_format_cls kc (Path.join dir fn)) as [h|e] eqn:Ho.
    + destruct (do_row_collect_fail ci _ _ Hk Ho H) as [e He].
      exists e. right. exact He.
    + exists e. left. eapply do_row_open_fail; eauto.
  - exists (KeyError fmt). left. unfold do_row, getitem. simpl.
    now rewrite Hk.
Qed.

(** The rows that are fine are processed one after the other. *)
Lemma rows_loop_app pre rest ci :
  NoDup (dict_keys ci) ->
  forallb (row_okb formats dir cs (dict_keys ci)) pre = true ->
  rows_loop formats dir cs (pre ++ rest) ci =
  let ci' := extend (fun k => map (cell_at formats dir cs k) pre) ci in
  (List.concat (map (row_events dir) pre)
     ++ log (rows_loop formats dir cs rest ci'),
   outcome (rows_loop formats dir cs rest ci')).
Proof.
  revert ci. induction pre as [|r pre IH]; intros ci ND F; simpl.
  - rewrite extend_nil. apply M_eta.
  - simpl in F. apply andb_true_iff in F. destruct F as [F1 F2].
    rewrite (do_row_ok _ _ ND F1). simpl.
    rewrite IH; rewrite ?extend_keys; auto.
    simpl. rewrite extend_extend. reflexivity.
Qed.

Lemma rows_loop_ok rs ci :
  NoDup (dict_keys ci) ->
  forallb (row_okb formats dir cs (dict_keys ci)) rs = true ->
  rows_loop formats dir cs rs ci =
  (List.concat (map (row_events dir) rs),
   Ok (extend (fun k => map (cell_at formats dir cs k) rs) ci)).
Proof.
  intros ND F. rewrite <- (app_nil_r rs) at 1.
  rewrite rows_loop_app by assumption. simpl. now rewrite app_nil_r.
Qed.

(** The loop stops at the first row that raises. *)
Lemma rows_loop_raise pre r post ci l e :
  NoDup (dict_keys ci) ->
  forallb (row_okb formats dir cs (dict_keys ci)) pre = true ->
  do_row formats dir cs
         (extend (fun k => map (cell_at formats dir cs k) pre) ci) r
  = (l, Raise e) ->
  rows_loop formats dir cs (pre ++ r :: post) ci =
  (List.concat (map (row_events dir) pre) ++ l, Raise e).
Proof.
  intros ND F D. rewrite rows_loop_app by assumption. simpl.
  now rewrite D.
Qed.

(** A successful loop means every row was fine. *)
Lemma rows_loop_ok_inv rs ci ci' :
  NoDup (dict_keys ci) ->
  outcome (rows_loop formats dir cs rs ci) = Ok ci' ->
  forallb (row_okb formats dir cs (dict_keys ci)) rs = true.
Proof.
  revert ci. induction rs as [|r rs IH]; intros ci ND H; simpl;
    [reflexivity|].
  destruct (row_okb formats dir cs (dict_keys ci) r) eqn:F; simpl.
  - simpl in H. rewrite (do_row_ok _ _ ND F) in H. simpl in H.
    destruct (rows_loop formats dir cs rs
                (extend (fun k => [cell_at formats dir cs k r]) ci))
      as [l x] eqn:R.
    simpl in H. subst x.
    rewrite <- (extend_keys (fun k => [cell_at formats dir cs k r]) ci).
    apply IH; [now rewrite extend_keys|]. now rewrite R.
  - exfalso. simpl in H. destruct (do_row_fail _ _ F) as [e [D|D]];
      rewrite D in H; simpl in H; discriminate.
Qed.

Lemma add_columns_ok cnames t ov fns fmts :
  column "filename" t = Some fns ->
  column "fileformat" t = Some fmts ->
  forallb (row_okb formats dir cs (computed cs t ov)) (combine fns fmts)
  = true ->
  add_columns formats dir cnames cs t ov =
  (warnings cs t ov ++ List.concat (map (row_events dir) (combine fns fmts)),
   Ok (with_columns formats dir cs t ov (combine fns fmts),
       record_names (computed cs t ov) cnames)).
Proof.
  intros Hn Hf F. unfold add_columns. rewrite init_col_info_eq. simpl.
  unfold column in Hn, Hf.
  rewrite (getitem_ok _ _ Hn), (getitem_ok _ _ Hf). simpl.
  fold (empty_cols cs t ov).
  rewrite rows_loop_ok; [|apply computed_NoDup|exact F].
  simpl. rewrite store_fold, extend_keys. rewrite app_nil_r.
  reflexivity.
Qed.

Lemma add_columns_raise cnames t ov fns fmts pre r post l e :
  column "filename" t = Some fns ->
  column "fileformat" t = Some fmts ->
  combine fns fmts = pre ++ r :: post ->
  forallb (row_okb formats dir cs (computed cs t ov)) pre = true ->
  do_row formats dir cs
         (extend (fun k => map (cell_at formats dir cs k) pre)
                 (empty_cols cs t ov)) r
  = (l, Raise e) ->
  add_columns formats dir cnames cs t ov =
  (warnings cs t ov ++ List.concat (map (row_events dir) pre) ++ l,
   Raise e).
Proof.
  intros Hn Hf Hc F D. unfold add_columns. rewrite init_col_info_eq. simpl.
  unfold column in Hn, Hf.
  rewrite (getitem_ok _ _ Hn), (getitem_ok _ _ Hf). simpl.
  fold (empty_cols cs t ov). rewrite Hc.
  rewrite (rows_loop_raise _ _ _ _ (computed_NoDup t ov) F D).
  reflexivity.
Qed.

Lemma add_columns_ok_inv cnames t ov x :
  outcome (add_columns formats dir cnames cs t ov) = Ok x ->
  exists fns fmts,
    column "filename" t = Some fns /\
    column "fileformat" t = Some fmts /\
    forallb (row_okb formats dir cs (computed cs t ov)) (combine fns fmts)
    = true.
Proof.
  unfold add_columns. rewrite init_col_info_eq. simpl.
  unfold getitem, column.
  destruct (dict_get "filename" (columns t)) as [fns|]; [|discriminate].
  destruct (dict_get "fileformat" (columns t)) as [fmts|]; [|discriminate].
  simpl. fold (empty_cols cs t ov). intros H. exists fns, fmts.
  repeat split.
  destruct (rows_loop formats dir cs (combine fns fmts)
                      (empty_cols cs t ov)) as [l [ci'|e]] eqn:R;
    simpl in H; [|discriminate].
  eapply rows_loop_ok_inv; [apply computed_NoDup|].
  fold (empty_cols cs t ov). now rewrite R.
Qed.


Lemma empty_cols_In t ov k l : In (k, l) (empty_cols cs t ov) -> l = [].
Proof.
  unfold empty_cols.
  generalize (filter (fun cn => negb (colliding t ov cn)) (dict_keys cs)).
  intros ks. assert (G : forall (d : dict (list cell)),
    (forall k l, In (k, l) d -> l = []) ->
    forall k l,
      In (k, l) (dict_update (map (fun cn => (cn, [])) ks) d) -> l = []).
  { induction ks as [|k0 ks IH]; intros d Hd k1 l1; simpl.
    - apply Hd.
    - unfold dict_update. simpl. apply IH. intros k2 l2 I.
      apply dict_set_In in I. destruct I as [I|I].
      + now inversion I.
      + eapply Hd; eauto. }
  apply G. intros ? ? [].
Qed.

(** The computed columns hold the cells of the rows, in order. *)
Lemma with_columns_computed t ov rs k :
  In k (computed cs t ov) ->
  column k (with_columns formats dir cs t ov rs)
  = Some (map (cell_at formats dir cs k) rs).
Proof.
  intros I. unfold column, with_columns. simpl.
  apply dict_update_get.
  - rewrite extend_keys. apply computed_NoDup.
  - unfold computed, dict_keys in I. apply in_map_iff in I.
    destruct I as [[k' l] [E I]]. simpl in E. subst k'.
    pose proof (empty_cols_In _ _ _ _ I) as ->.
    unfold extend. apply in_map_iff. exists (k, []). split; auto.
Qed.

(** The other columns are as they were. *)
Lemma with_columns_other t ov rs k :
  ~ In k (computed cs t ov) ->
  column k (with_columns formats dir cs t ov rs) = column k t.
Proof.
  intros N. unfold column, with_columns. simpl.
  apply dict_update_get_other. now rewrite extend_keys.
Qed.

End AddColumnsFacts.

(* ------------------------------------------------------------------ *)
(** ** Properties of add_columns *)

(** The [except NotImplementedError] arm: a routine that returns a value or
    signals [NotImplementedError] gives [collect_cell] a cell, the value or
    the null. *)
Lemma collect_cell_answered cs k fmt h :
  answeredb cs k fmt h = true ->
  collect_cell cs k fmt h = ([], Ok (answer_cell cs k fmt h)).
Proof.
  unfold answeredb, answer_cell, answer, collect_cell, getitem.
  destruct (dict_get k cs) as [c|]; [|discriminate].
  rewrite bind_ret.
  destruct (dict_get fmt (collect_method c)) as [m|]; [|discriminate].
  rewrite bind_ret.
  destruct (m h) as [v|e]; [reflexivity|].
  destruct e; try discriminate. reflexivity.
Qed.

Lemma row_answered_ok formats dir cs ks r :
  row_answeredb formats dir cs ks r = true ->
  row_okb formats dir cs ks r = true /\
  forall k, In k ks ->
            cell_at formats dir cs k r = answer_at formats dir cs k r.
Proof.
  unfold row_answeredb, row_okb, cell_at, answer_at.
  destruct r as [[|fn] [|fmt]]; try discriminate.
  destruct (dict_get fmt formats) as [kc|]; [|discriminate].
  destruct (instantiate_format_cls kc (Path.join dir fn)) as [h|e];
    [|discriminate].
  intros F. rewrite forallb_forall in F. split.
  - apply forallb_forall. intros k Hk. unfold cell_okb.
    now rewrite (collect_cell_answered _ _ _ _ (F k Hk)).
  - intros k Hk. unfold cell_of.
    now rewrite (collect_cell_answered _ _ _ _ (F k Hk)).
Qed.

Lemma rows_answered_ok formats dir cs ks rs :
  forallb (row_answeredb formats dir cs ks) rs = true ->
  forallb (row_okb formats dir cs ks) rs = true /\
  forall k, In k ks ->
            map (cell_at formats dir cs k) rs
            = map (answer_at formats dir cs k) rs.
Proof.
  intros F. rewrite forallb_forall in F. split.
  - apply forallb_forall. intros r Hr.
    now apply (row_answered_ok _ _ _ _ _ (F r Hr)).
  - intros k Hk. apply map_ext_in. intros r Hr.
    now apply (row_answered_ok _ _ _ _ _ (F r Hr)).
Qed.

(** C7. A collector that signals [NotImplementedError] for the format of a
    row leaves the null in its cell of that row and no exception leaves
    [add_columns]: when the files of the rows open and every routine
    returns a value or signals [NotImplementedError], [add_columns] opens
    and closes every file in turn and returns a table in which every
    computed column has one cell per row, the null where the routine
    signalled [NotImplementedError] and the returned value elsewhere. *)
Theorem add_columns_not_implemented
        formats dir cnames cs t ov fns fmts :
  column "filename" t = Some fns ->
  column "fileformat" t = Some fmts ->
  forallb (row_answeredb formats dir cs (computed cs t ov)) (combine fns fmts)
  = true ->
  exists t' cn',
    add_columns formats dir cnames cs t ov
    = (warnings cs t ov
         ++ List.concat (map (row_events dir) (combine fns fmts)),
       Ok (t', cn')) /\
    forall k, In k (computed cs t ov) ->
      exists col,
        column k t' = Some col /\
        List.length col = List.length (combine fns fmts) /\
        forall i fn fmt kc h c m,
          nth_error (combine fns fmts) i = Some (Val fn, Val fmt) ->
          dict_get fmt formats = Some kc ->
          instantiate_format_cls kc (Path.join dir fn) = Ok h ->
          dict_get k cs = Some c ->
          dict_get fmt (collect_method c) = Some m ->
          (m h = Raise NotImplementedError -> nth_error col i = Some Null) /\
          (forall v, m h = Ok v -> nth_error col i = Some v).
Proof.
  intros Hn Hf F. apply rows_answered_ok in F. destruct F as [F Hcells].
  eexists _, _. split.
  - exact (add_columns_ok _ _ _ cnames _ _ Hn Hf F).
  - intros k Hk. eexists. split; [now apply with_columns_computed|].
    split; [apply length_map|].
    intros i fn fmt kc h c m Hi Hfmt Ho Hc Hm.
    rewrite (Hcells k Hk). rewrite (map_nth_error _ _ _ Hi).
    unfold answer_at. rewrite Hfmt, Ho.
    unfold answer_cell, answer. rewrite Hc, Hm.
    split.
    + intros ->. reflexivity.
    + intros v ->. reflexivity.
Qed.

Lemma add_columns_not_implemented_witness :
  exists t' cn',
    outcome (add_columns Examples.formats "/data" []
               Examples.collectors
               (Examples.table_of ["a.bbx"; "b.bbx"] ["bbx"; "bbx"]) false)
    = Ok (t', cn') /\
    column "channel" t' = Some [Null; Null] /\
    column "station" t' = Some [Val "LoFASM1"; Val "LoFASM1"].
Proof.
  destruct (@add_columns_not_implemented
              Examples.formats "/data" [] Examples.collectors
              (Examples.table_of ["a.bbx"; "b.bbx"] ["bbx"; "bbx"]) false
              [Val "a.bbx"; Val "b.bbx"] [Val "bbx"; Val "bbx"]
              eq_refl eq_refl eq_refl) as [t' [cn' [H _]]].
  exists t', cn'. apply (f_equal snd) in H. cbn [snd] in H.
  split; [exact H|].
  vm_compute in H. inversion H; subst. split; reflexivity.
Defined.



(** C3, as the program has it. When the file of a row cannot be opened
    ([instantiate_format_cls] raises), the exception leaves [add_columns]:
    no table is returned, no null is recorded, and the rows after it are
    not processed (the log holds the warnings and the rows before it,
    nothing else). Only [NotImplementedError] from a collector becomes a
    null. *)
Theorem add_columns_open_failure
        formats dir cnames cs t ov fns fmts pre fn fmt post kc e :
  column "filename" t = Some fns ->
  column "fileformat" t = Some fmts ->
  combine fns fmts = pre ++ (Val fn, Val fmt) :: post ->
  forallb (row_okb formats dir cs (computed cs t ov)) pre = true ->
  dict_get fmt formats = Some kc ->
  instantiate_format_cls kc (Path.join dir fn) = Raise e ->
  add_columns formats dir cnames cs t ov =
  (warnings cs t ov ++ List.concat (map (row_events dir) pre), Raise e).
Proof.
  intros Hn Hf Hc F Hk Ho.
  rewrite (@add_columns_raise formats dir cs cnames t ov fns fmts pre
             (Val fn, Val fmt) post [] e Hn Hf Hc F).
  - now rewrite app_nil_r.
  - now apply do_row_open_fail with (kc := kc).
Qed.

Lemma add_columns_open_failure_witness :
  add_columns Examples.formats "/data" [] Examples.collectors
    (Examples.table_of ["a.bbx"; "gone.bbx"; "b.bbx"] ["bbx"; "bbx"; "bbx"])
    false
  = ([EvOpen "/data/a.bbx"; EvClose "/data/a.bbx"],
     Raise (IOError "/data/gone.bbx")).
Proof.
  exact (@add_columns_open_failure Examples.formats "/data" []
           Examples.collectors
           (Examples.table_of ["a.bbx"; "gone.bbx"; "b.bbx"]
                              ["bbx"; "bbx"; "bbx"])
           false
           [Val "a.bbx"; Val "gone.bbx"; Val "b.bbx"]
           [Val "bbx"; Val "bbx"; Val "bbx"]
           [(Val "a.bbx", Val "bbx")] "gone.bbx" "bbx"
           [(Val "b.bbx", Val "bbx")] Examples.bbx
           (IOError "/data/gone.bbx")
           eq_refl eq_refl eq_refl eq_refl eq_refl eq_refl).
Defined.

(** C3 fails as stated: a row whose file cannot be opened makes
    [add_columns] raise; no table with a null comes back and the row after
    it is never opened. *)
Lemma add_columns_missing_file_raises :
  outcome (add_columns Examples.formats "/data" [] Examples.collectors
             (Examples.table_of ["a.bbx"; "gone.bbx"; "b.bbx"]
                                ["bbx"; "bbx"; "bbx"]) false)
  = Raise (IOError "/data/gone.bbx") /\
  ~ In (EvOpen "/data/b.bbx")
       (log (add_columns Examples.formats "/data" [] Examples.collectors
               (Examples.table_of ["a.bbx"; "gone.bbx"; "b.bbx"]
                                  ["bbx"; "bbx"; "bbx"]) false)).
Proof.
  split; [reflexivity|].
  vm_compute. intros [H|[H|[]]]; discriminate.
Qed.

(** C4, as the program has it. On the normal path (every collector returns
    a value or signals [NotImplementedError]) the file of each row is closed
    right after its columns are computed, before the next row is opened.
    When a collector raises anything else on a row, the exception leaves
    [add_columns] at once: the files of the rows before it were closed, the
    file of that row was opened and is not closed. *)
Theorem add_columns_release formats dir cnames cs t ov fns fmts :
  column "filename" t = Some fns ->
  column "fileformat" t = Some fmts ->
  (forall x,
      outcome (add_columns formats dir cnames cs t ov) = Ok x ->
      log (add_columns formats dir cnames cs t ov)
      = warnings cs t ov
          ++ List.concat (map (row_events dir) (combine fns fmts))) /\
  (forall pre fn fmt post kc h,
      combine fns fmts = pre ++ (Val fn, Val fmt) :: post ->
      forallb (row_okb formats dir cs (computed cs t ov)) pre = true ->
      dict_get fmt formats = Some kc ->
      instantiate_format_cls kc (Path.join dir fn) = Ok h ->
      forallb (fun k => cell_okb cs k fmt h) (computed cs t ov) = false ->
      exists e,
        add_columns formats dir cnames cs t ov =
        (warnings cs t ov ++ List.concat (map (row_events dir) pre)
           ++ [EvOpen (Path.join dir fn)],
         Raise e)).
Proof.
  intros Hn Hf. split.
  - intros x H.
    destruct (add_columns_ok_inv _ _ _ _ _ _ H) as [fns' [fmts' [Hn' [Hf' F]]]].
    rewrite Hn in Hn'. rewrite Hf in Hf'.
    inversion Hn'; inversion Hf'; subst fns' fmts'.
    now rewrite (add_columns_ok _ _ _ cnames _ _ Hn Hf F).
  - intros pre fn fmt post kc h Hc F Hk Ho B.
    destruct (@do_row_collect_fail formats dir cs
                (extend (fun k => map (cell_at formats dir cs k) pre)
                        (empty_cols cs t ov)) fn fmt kc h Hk Ho) as [e He].
    + rewrite extend_keys. exact B.
    + exists e. exact (@add_columns_raise formats dir cs cnames t ov
                         fns fmts pre (Val fn, Val fmt) post _ e
                         Hn Hf Hc F He).
Qed.

Lemma add_columns_release_witness :
  exists e,
    add_columns Examples.formats "/data" [] Examples.collectors
      (Examples.table_of ["a.bbx"; "bad.bbx"; "b.bbx"] ["bbx"; "bbx"; "bbx"])
      false
    = ([EvOpen "/data/a.bbx"; EvClose "/data/a.bbx"; EvOpen "/data/bad.bbx"],
       Raise e).
Proof.
  destruct (@add_columns_release Examples.formats "/data" []
              Examples.collectors
              (Examples.table_of ["a.bbx"; "bad.bbx"; "b.bbx"]
                                 ["bbx"; "bbx"; "bbx"])
              false
              [Val "a.bbx"; Val "bad.bbx"; Val "b.bbx"]
              [Val "bbx"; Val "bbx"; Val "bbx"] eq_refl eq_refl)
    as [_ R].
  exact (R [(Val "a.bbx", Val "bbx")] "bad.bbx" "bbx"
           [(Val "b.bbx", Val "bbx")] Examples.bbx "/data/bad.bbx"
           eq_refl eq_refl eq_refl eq_refl eq_refl).
Defined.

(** C4 fails as stated: a collector that raises [IOError] on [bad.bbx]
    leaves [add_columns] with that file opened and never closed. *)
Lemma add_columns_handle_left_open :
  outcome (add_columns Examples.formats "/data" [] Examples.collectors
             (Examples.table_of ["a.bbx"; "bad.bbx"; "b.bbx"]
                                ["bbx"; "bbx"; "bbx"]) false)
  = Raise (IOError "/data/bad.bbx") /\
  In (EvOpen "/data/bad.bbx")
     (log (add_columns Examples.formats "/data" [] Examples.collectors
             (Examples.table_of ["a.bbx"; "bad.bbx"; "b.bbx"]
                                ["bbx"; "bbx"; "bbx"]) false)) /\
  ~ In (EvClose "/data/bad.bbx")
       (log (add_columns Examples.formats "/data" [] Examples.collectors
               (Examples.table_of ["a.bbx"; "bad.bbx"; "b.bbx"]
                                  ["bbx"; "bbx"; "bbx"]) false)).
Proof.
  split; [reflexivity|]. split.
  - vm_compute. tauto.
  - vm_compute. intros [H|[H|[H|[]]]]; discriminate.
Qed.

(* ------------------------------------------------------------------ *)
(** ** The scan and setup_info_table *)

Lemma bind_ret_map {A B} (m : M A) (g : A -> B) :
  bind m (fun x => ret (g x)) =
  (log m, match outcome m with Ok x => Ok (g x) | Raise e => Raise e end).
Proof.
  destruct m as [l [a|e]]; simpl; [|reflexivity]. now rewrite app_nil_r.
Qed.

Lemma list_remove_incl x l : incl (list_remove x l) l.
Proof.
  induction l as [|y r IH]; simpl; [apply incl_refl|].
  destruct (y =? x).
  - apply incl_tl, incl_refl.
  - intros z [->|H]; [now left|right; now apply IH].
Qed.

Lemma list_remove_length x l :
  List.length (list_remove x l) <= List.length l.
Proof.
  induction l as [|y r IH]; simpl; [lia|].
  destruct (y =? x); simpl; lia.
Qed.

Section PruneFacts.
Variable fs : FileSystem.
Variable dir : string.

Lemma prune_loop_eq fuel i l :
  prune_loop fs dir fuel i l = ([], outcome (prune_loop fs dir fuel i l)).
Proof.
  revert i l. induction fuel as [|n IH]; intros i l; simpl; [reflexivity|].
  destruct (nth_error l i) as [d|]; [|reflexivity].
  unfold listdir. destruct (fs_listdir fs (Path.join dir d)) as [sub|];
    [|reflexivity].
  simpl.
  destruct (existsb (fun ff => Path.endswith ff ".info") sub).
  - rewrite IH. reflexivity.
  - rewrite IH. reflexivity.
Qed.

(** The loop only removes names. *)
Lemma prune_loop_incl fuel i l l' :
  outcome (prune_loop fs dir fuel i l) = Ok l' -> incl l' l.
Proof.
  revert i l. induction fuel as [|n IH]; intros i l; simpl.
  - intros [= ->]. apply incl_refl.
  - destruct (nth_error l i) as [d|]; [|intros [= ->]; apply incl_refl].
    unfold listdir. destruct (fs_listdir fs (Path.join dir d)) as [sub|];
      [|discriminate].
    simpl.
    destruct (existsb (fun ff => Path.endswith ff ".info") sub).
    + rewrite prune_loop_eq. simpl. apply IH.
    + rewrite prune_loop_eq. simpl. intros H. apply IH in H.
      eapply incl_tran; [exact H|apply list_remove_incl].
Qed.

(** The length of the list is fuel enough: with more, the loop gives the
    same list. *)
Lemma prune_loop_fuel fuel i l :
  List.length l - i <= fuel ->
  prune_loop fs dir (S fuel) i l = prune_loop fs dir fuel i l.
Proof.
  revert i l. induction fuel as [|n IH]; intros i l Hl.
  - simpl. destruct (nth_error l i) as [d|] eqn:E; [|reflexivity].
    exfalso. assert (i < List.length l).
    { apply nth_error_Some. congruence. }
    lia.
  - change (prune_loop fs dir (S (S n)) i l) with
      (match nth_error l i with
       | None => ret l
       | Some d =>
           sub <- listdir fs (Path.join dir d) ;;
           if existsb (fun ff => Path.endswith ff ".info") sub
           then prune_loop fs dir (S n) (S i) l
           else prune_loop fs dir (S n) (S i) (list_remove d l)
       end).
    change (prune_loop fs dir (S n) i l) with
      (match nth_error l i with
       | None => ret l
       | Some d =>
           sub <- listdir fs (Path.join dir d) ;;
           if existsb (fun ff => Path.endswith ff ".info") sub
           then prune_loop fs dir n (S i) l
           else prune_loop fs dir n (S i) (list_remove d l)
       end).
    destruct (nth_error l i) as [d|]; [|reflexivity].
    f_equal.
    assert (E1 : prune_loop fs dir (S n) (S i) l
                 = prune_loop fs dir n (S i) l) by (apply IH; lia).
    assert (E2 : prune_loop fs dir (S n) (S i) (list_remove d l)
                 = prune_loop fs dir n (S i) (list_remove d l)).
    { apply IH. pose proof (list_remove_length d l). lia. }
    rewrite E1, E2. reflexivity.
Qed.
Lemma list_remove_NoDup x l : NoDup l -> NoDup (list_remove x l).
Proof.
  induction 1 as [|y r N ND IH]; simpl; [constructor|].
  destruct (y =? x); [assumption|]. constructor; [|assumption].
  intros I. apply N. eapply list_remove_incl; eauto.
Qed.

(** Past the first turn the loop never touches the head of a list of
    distinct names. *)
Lemma prune_loop_keeps_head fuel i s l l' :
  1 <= i ->
  NoDup (s :: l) ->
  outcome (prune_loop fs dir fuel i (s :: l)) = Ok l' ->
  exists r, l' = s :: r.
Proof.
  revert i l. induction fuel as [|n IH]; intros i l Hi ND H.
  - simpl in H. inversion H. now exists l.
  - cbn [prune_loop] in H.
    destruct (nth_error (s :: l) i) as [d|] eqn:E.
    + destruct i as [|j]; [lia|]. simpl in E. apply nth_error_In in E.
      assert (Hs : (s =? d) = false).
      { apply String.eqb_neq. intros ->. inversion ND. contradiction. }
      unfold listdir in H.
      destruct (fs_listdir fs (Path.join dir d)) as [sub|];
        [|discriminate H].
      rewrite bind_ret in H.
      destruct (existsb (fun ff => Path.endswith ff ".info") sub).
      * eapply IH; [|exact ND|exact H]. lia.
      * cbn [list_remove] in H. rewrite Hs in H.
        eapply IH; [| |exact H]; [lia|].
        inversion ND as [|? ? N ND']; subst. constructor.
        -- intros I. apply N. eapply list_remove_incl; eauto.
        -- now apply list_remove_NoDup.
    + inversion H. now exists l.
Qed.

(** X25. Removing the subdirectory at hand makes the loop skip the next
    one: the subdirectory that follows one without a catalog is kept,
    whether it has a catalog or not. *)
Lemma prune_loop_skips_next s1 s2 rest sub l' :
  NoDup (s1 :: s2 :: rest) ->
  fs_listdir fs (Path.join dir s1) = Some sub ->
  existsb (fun ff => Path.endswith ff ".info") sub = false ->
  outcome (prune_loop fs dir (List.length (s1 :: s2 :: rest)) 0
                      (s1 :: s2 :: rest)) = Ok l' ->
  exists r, l' = s2 :: r.
Proof.
  intros ND Hl He H.
  change (List.length (s1 :: s2 :: rest))
    with (S (List.length (s2 :: rest))) in H.
  remember (List.length (s2 :: rest)) as n eqn:En. clear En.
  cbn [prune_loop nth_error] in H.
  unfold listdir in H. rewrite Hl, bind_ret, He in H.
  cbn [list_remove] in H. rewrite String.eqb_refl in H.
  eapply prune_loop_keeps_head; [| |exact H]; [lia|].
  now inversion ND.
Qed.

End PruneFacts.

Lemma pick_info_file_name_outcome base infos :
  outcome (pick_info_file_name base infos) = Ok (info_name base infos).
Proof.
  unfold pick_info_file_name, info_name.
  destruct (List.length infos <? 1)%nat; [reflexivity|].
  destruct (1 <? List.length infos)%nat; reflexivity.
Qed.

Lemma pick_info_file_name_log base infos e :
  In e (log (pick_info_file_name base infos)) ->
  e = EvWarn (info_warning (hd "" infos)).
Proof.
  unfold pick_info_file_name.
  destruct (List.length infos <? 1)%nat; [intros []|].
  destruct (1 <? List.length infos)%nat; simpl; intuition.
Qed.

Lemma delta_In fm fncol f :
  In f (delta fm fncol) <-> In f (dict_keys fm) /\ ~ In (Val f) fncol.
Proof.
  unfold delta. rewrite filter_In, negb_true_iff.
  assert (E : existsb (cell_eqb (Val f)) fncol = false
              <-> ~ In (Val f) fncol).
  { split.
    - intros H I. assert (X : existsb (cell_eqb (Val f)) fncol = true).
      { apply existsb_exists. exists (Val f). split; [assumption|].
        simpl. apply String.eqb_refl. }
      congruence.
    - intros N. destruct (existsb (cell_eqb (Val f)) fncol) eqn:X;
        [|reflexivity].
      apply existsb_exists in X. destruct X as [c [Hc Ec]].
      destruct c as [|v]; simpl in Ec; [discriminate|].
      apply String.eqb_eq in Ec. subst. tauto. }
  now rewrite E.
Qed.

Lemma mapM_getitem (fm : dict string) nf :
  (forall f, In f nf -> In f (dict_keys fm)) ->
  mapM (fun f => getitem f fm) nf = ([], Ok (lookup_all fm nf)).
Proof.
  induction nf as [|f r IH]; intros H; simpl; [reflexivity|].
  unfold getitem at 1.
  destruct (dict_get f fm) as [tp|] eqn:E.
  - simpl. rewrite IH by (intros; apply H; now right). reflexivity.
  - exfalso. apply dict_get_None in E. apply E, H. now left.
Qed.

Section SetupFacts.
Variable formats : dict DataFormat.
Variable info_name_list : dict InfoCollector.

(** [setup_info_table], branch by branch. *)
Lemma setup_info_table_eq fs self dd dd' :
  dict_get "data_dir" (files self) = Some dd ->
  outcome (prune_loop fs (directory self) (List.length dd) 0 dd) = Ok dd' ->
  let files' := dict_set "data_dir" dd' (files self) in
  let fm := get_format_map files' in
  let info_file := Path.join (directory self) (info_file_name self) in
  let st := mkInfo (directory self) (directory_abs_path self)
                   (directory_basename self) files' (info_file_name self) in
  setup_info_table formats info_name_list fs self =
  if fs_isfile fs info_file then
    match fs_read_table fs info_file with
    | None => ([], Raise (ParseError info_file))
    | Some T =>
        match column "filename" T with
        | None => ([], Raise (KeyError "filename"))
        | Some fncol =>
            match delta fm fncol with
            | [] => ([], Ok (st [] (table_update self) (col_names self) T))
            | f :: nf' =>
                let nf := f :: nf' in
                let tps := lookup_all fm nf in
                let r := add_columns formats (directory self)
                           (col_names self)
                           (get_col_collector info_name_list (keys T))
                           (new_rows nf tps) false in
                (log r,
                 match outcome r with
                 | Ok x =>
                     match merge_conflict T (fst x) with
                     | None => Ok (st nf true (snd x)
                                      (mark_child tps (stacked T (fst x))))
                     | Some n => Raise (TableMergeError n)
                     end
                 | Raise e => Raise e
                 end)
            end
        end
    end
  else
    let r := add_columns formats (directory self) (col_names self)
               (get_col_collector info_name_list (col_names self))
               (fresh_rows (directory_basename self) fm
                           (0 <? List.length dd')%nat)
               false in
    (log r,
     match outcome r with
     | Ok x => Ok (st (new_files self) true (snd x) (fst x))
     | Raise e => Raise e
     end).
Proof.
  intros Hdd Hp. simpl. unfold setup_info_table.
  rewrite (getitem_ok _ _ Hdd), bind_nil, prune_loop_eq, Hp, bind_nil.
  destruct (fs_isfile fs (Path.join (directory self) (info_file_name self))).
  - unfold read_table.
    destruct (fs_read_table fs
                (Path.join (directory self) (info_file_name self)))
      as [T|]; [|reflexivity].
    rewrite bind_ret. unfold column.
    destruct (dict_get "filename" (columns T)) as [fncol|] eqn:Ef.
    + rewrite (getitem_ok _ _ Ef), bind_nil.
      destruct (delta (get_format_map
                         (dict_set "data_dir" dd' (files self)))
                      fncol) as [|f nf'] eqn:D; [reflexivity|].
      rewrite mapM_getitem.
      * rewrite bind_nil.
        destruct (add_columns _ _ _ _ _ _) as [l [x|e]]; [|reflexivity].
        unfold vstack, bind, raise, ret, log, outcome. cbn [fst snd].
        destruct (merge_conflict T (fst x)); now rewrite ?app_nil_r.
      * intros g Hg. rewrite <- D in Hg. now apply delta_In in Hg.
    + unfold getitem. rewrite Ef. reflexivity.
  - rewrite bind_ret_map. reflexivity.
Qed.

Lemma setup_info_table_ok_inv fs self st :
  outcome (setup_info_table formats info_name_list fs self) = Ok st ->
  exists dd dd',
    dict_get "data_dir" (files self) = Some dd /\
    outcome (prune_loop fs (directory self) (List.length dd) 0 dd) = Ok dd'.
Proof.
  unfold setup_info_table.
  destruct (dict_get "data_dir" (files self)) as [dd|] eqn:E.
  - rewrite (getitem_ok _ _ E), bind_nil, prune_loop_eq.
    destruct (outcome (prune_loop fs (directory self) (List.length dd) 0 dd))
      as [dd'|e] eqn:P.
    + intros _. now exists dd, dd'.
    + unfold bind. simpl. discriminate.
  - unfold getitem. rewrite E. unfold bind, raise. simpl. discriminate.
Qed.

End SetupFacts.

(* ------------------------------------------------------------------ *)
(** ** check_file_format and get_format_map *)

Lemma dict_append_In {A} k (x : A) d tp l :
  In (tp, l) (dict_append k x d) ->
  In (tp, l) d \/ (tp = k /\ exists l0, In (k, l0) d /\ l = l0 ++ [x]).
Proof.
  induction d as [|[k0 l0] r IH]; simpl; [tauto|].
  destruct (k0 =? k) eqn:E; simpl.
  - apply String.eqb_eq in E. subst k0. intros [H|H].
    + inversion H; subst. right. split; [reflexivity|].
      exists l0. split; [now left|reflexivity].
    + left. now right.
  - intros [H|H].
    + left. now left.
    + destruct (IH H) as [I|[-> [l1 [I ->]]]].
      * left. now right.
      * right. split; [reflexivity|]. exists l1. split; [now right|reflexivity].
Qed.

Lemma combine_app_eq {A B} (l1 l2 : list A) (m1 m2 : list B) :
  List.length l1 = List.length m1 ->
  combine (l1 ++ l2) (m1 ++ m2) = combine l1 m1 ++ combine l2 m2.
Proof.
  revert m1. induction l1 as [|a l1 IH]; intros [|b m1] H; simpl in *;
    try discriminate; [reflexivity|].
  f_equal. apply IH. lia.
Qed.

Section ScanFacts.
Variable formats : dict DataFormat.
Variable fs : FileSystem.
Variable dir : string.

Lemma format_loop_keys fl f fn ff k :
  In k (dict_keys ff) -> In k (dict_keys (format_loop fl f fn ff)).
Proof.
  revert ff. induction fl as [|[k0 kc] r IH]; intros ff H; simpl; auto.
  assert (H' : In k (dict_keys (if dict_mem k0 ff then ff
                                else dict_set k0 [] ff))).
  { destruct (dict_mem k0 ff); [assumption|].
    apply dict_keys_set. now right. }
  destruct (is_format kc f).
  - now rewrite dict_append_keys.
  - now apply IH.
Qed.

Lemma check_step_keys ff fn k :
  In k (dict_keys ff) -> In k (dict_keys (check_step formats fs dir ff fn)).
Proof.
  intros H. unfold check_step.
  assert (H' : In k (dict_keys (if Path.endswith fn ".info"
                                then dict_append "info" fn ff else ff))).
  { destruct (Path.endswith fn ".info"); [|assumption].
    now rewrite dict_append_keys. }
  destruct (fs_isdir fs (Path.join dir fn)).
  - now rewrite dict_append_keys.
  - now apply format_loop_keys.
Qed.

Lemma check_loop_keys fns ff k :
  In k (dict_keys ff) ->
  In k (dict_keys (fold_left (check_step formats fs dir) fns ff)).
Proof.
  revert ff. induction fns as [|fn r IH]; intros ff H; simpl; auto.
  apply IH. now apply check_step_keys.
Qed.

(** The scan always has the two categories it starts with. *)
Lemma check_file_format_has entries k :
  k = "info" \/ k = "data_dir" ->
  exists l, dict_get k (check_file_format formats fs entries dir) = Some l.
Proof.
  intros H.
  destruct (dict_get k (check_file_format formats fs entries dir))
    as [l|] eqn:E; [now exists l|].
  exfalso. apply dict_get_None in E. apply E.
  apply check_loop_keys. simpl. destruct H; subst; tauto.
Qed.

Lemma format_loop_filed entries fl fn ff :
  incl fl formats ->
  In fn entries ->
  fs_isdir fs (Path.join dir fn) = false ->
  all_filed formats fs dir entries ff ->
  all_filed formats fs dir entries (format_loop fl (Path.join dir fn) fn ff).
Proof.
  intros Hfl Hfn Hd. revert ff.
  induction fl as [|[k kc] r IH]; intros ff H; simpl; [assumption|].
  assert (H' : all_filed formats fs dir entries (if dict_mem k ff then ff
                                  else dict_set k [] ff)).
  { destruct (dict_mem k ff); [assumption|].
    intros tp l x I Hx. apply dict_set_In in I. destruct I as [I|I].
    - inversion I; subst. destruct Hx.
    - eapply H; eauto. }
  destruct (is_format kc (Path.join dir fn)) eqn:Ef.
  - intros tp l x I Hx. apply dict_append_In in I.
    destruct I as [I|[-> [l0 [I ->]]]].
    + eapply H'; eauto.
    + apply in_app_or in Hx. destruct Hx as [Hx|[<-|[]]].
      * eapply H'; eauto.
      * split; [assumption|]. right. right. split; [assumption|].
        exists kc. split; [|assumption]. apply Hfl. now left.
  - apply IH; [|assumption]. intros y Hy. apply Hfl. now right.
Qed.

Lemma check_step_filed entries ff fn :
  In fn entries ->
  all_filed formats fs dir entries ff ->
  all_filed formats fs dir entries (check_step formats fs dir ff fn).
Proof.
  intros Hfn H. unfold check_step.
  assert (H' : all_filed formats fs dir entries
                 (if Path.endswith fn ".info"
                  then dict_append "info" fn ff else ff)).
  { destruct (Path.endswith fn ".info") eqn:E; [|assumption].
    intros tp l x I Hx. apply dict_append_In in I.
    destruct I as [I|[-> [l0 [I ->]]]].
    - eapply H; eauto.
    - apply in_app_or in Hx. destruct Hx as [Hx|[<-|[]]].
      + eapply H; eauto.
      + split; [assumption|]. left. auto. }
  destruct (fs_isdir fs (Path.join dir fn)) eqn:Ed.
  - intros tp l x I Hx. apply dict_append_In in I.
    destruct I as [I|[-> [l0 [I ->]]]].
    + eapply H'; eauto.
    + apply in_app_or in Hx. destruct Hx as [Hx|[<-|[]]].
      * eapply H'; eauto.
      * split; [assumption|]. right. left. auto.
  - apply format_loop_filed; auto. apply incl_refl.
Qed.

(** Every name of the scan is an entry of the directory, filed under
    ['info'] for its suffix, under ['data_dir'] for being a directory, or
    under a format that recognises it. *)
Lemma check_file_format_filed entries :
  all_filed formats fs dir entries (check_file_format formats fs entries dir).
Proof.
  unfold check_file_format.
  assert (G : forall fns ff,
             incl fns entries -> all_filed formats fs dir entries ff ->
             all_filed formats fs dir entries
                       (fold_left (check_step formats fs dir) fns ff)).
  { induction fns as [|fn r IH]; intros ff Hi H; simpl; [assumption|].
    apply IH.
    - intros y Hy. apply Hi. now right.
    - apply check_step_filed; [|assumption]. apply Hi. now left. }
  apply G; [apply incl_refl|].
  intros tp l x [I|[I|[]]] Hx; inversion I; subst; destruct Hx.
Qed.

Lemma grows_refl ff : grows ff ff.
Proof. intros tp l x I Hx. now exists l. Qed.

Lemma grows_trans ff1 ff2 ff3 : grows ff1 ff2 -> grows ff2 ff3 -> grows ff1 ff3.
Proof.
  intros H1 H2 tp l x I Hx. destruct (H1 _ _ _ I Hx) as [l' [I' Hx']].
  eapply H2; eauto.
Qed.

Lemma dict_append_grows k (x : string) ff : grows ff (dict_append k x ff).
Proof.
  induction ff as [|[k0 l0] r IH]; [apply grows_refl|].
  intros tp l y [I|I] Hy; cbn [dict_append].
  - inversion I; subst. destruct (tp =? k).
    + exists (l ++ [x]). split; [now left|]. apply in_or_app. now left.
    + exists l. split; [now left|assumption].
  - destruct (k0 =? k).
    + exists l. split; [now right|assumption].
    + destruct (IH _ _ _ I Hy) as [l' [I' Hy']]. exists l'.
      split; [now right|assumption].
Qed.

Lemma dict_append_listed k (x : string) ff :
  In k (dict_keys ff) -> exists l, In (k, l) (dict_append k x ff) /\ In x l.
Proof.
  intros H. apply dict_mem_true in H. unfold dict_mem in H.
  destruct (dict_get k ff) as [l|] eqn:E; [|discriminate].
  exists (l ++ [x]). split.
  - apply dict_get_Some_In. now apply dict_append_get_eq.
  - apply in_or_app. right. now left.
Qed.

Lemma ensure_key_grows k (ff : dict (list string)) :
  grows ff (if dict_mem k ff then ff else dict_set k [] ff).
Proof.
  destruct (dict_mem k ff) eqn:E; [apply grows_refl|].
  rewrite dict_set_absent.
  - intros tp l x I Hx. exists l. split; [|assumption].
    apply in_or_app. now left.
  - intros I. apply dict_mem_true in I. congruence.
Qed.

Lemma format_loop_grows fl f fn ff : grows ff (format_loop fl f fn ff).
Proof.
  revert ff. induction fl as [|[k kc] r IH]; intros ff; [apply grows_refl|].
  cbn [format_loop]. destruct (is_format kc f).
  - eapply grows_trans; [apply ensure_key_grows|apply dict_append_grows].
  - eapply grows_trans; [apply ensure_key_grows|apply IH].
Qed.

Lemma check_step_grows ff fn : grows ff (check_step formats fs dir ff fn).
Proof.
  unfold check_step.
  assert (G : grows ff (if Path.endswith fn ".info"
                        then dict_append "info" fn ff else ff)).
  { destruct (Path.endswith fn ".info");
      [apply dict_append_grows|apply grows_refl]. }
  destruct (fs_isdir fs (Path.join dir fn)).
  - eapply grows_trans; [exact G|apply dict_append_grows].
  - eapply grows_trans; [exact G|apply format_loop_grows].
Qed.

Lemma check_loop_grows fns ff :
  grows ff (fold_left (check_step formats fs dir) fns ff).
Proof.
  revert ff. induction fns as [|fn r IH]; intros ff; [apply grows_refl|].
  simpl. eapply grows_trans; [apply check_step_grows|apply IH].
Qed.

(** The first format that recognises a regular file lists it. *)
Lemma format_loop_first_match fl1 k kc fl2 f fn ff :
  (forall k' kc', In (k', kc') fl1 -> is_format kc' f = false) ->
  is_format kc f = true ->
  exists l, In (k, l) (format_loop (fl1 ++ (k, kc) :: fl2) f fn ff) /\
            In fn l.
Proof.
  revert ff. induction fl1 as [|[k1 kc1] r IH]; intros ff Hn Hy.
  - cbn [app format_loop]. rewrite Hy. apply dict_append_listed.
    destruct (dict_mem k ff) eqn:E; [now apply dict_mem_true|].
    apply dict_keys_set. now left.
  - cbn [app format_loop]. rewrite (Hn k1 kc1) by now left.
    apply IH; [|assumption]. intros k' kc' I. apply (Hn k' kc'). now right.
Qed.

(** A regular entry of the directory is listed under the first format
    that recognises it, whatever its suffix. *)
Lemma check_file_format_lists entries fn fl1 k kc fl2 :
  In fn entries ->
  fs_isdir fs (Path.join dir fn) = false ->
  formats = fl1 ++ (k, kc) :: fl2 ->
  (forall k' kc', In (k', kc') fl1 ->
                  is_format kc' (Path.join dir fn) = false) ->
  is_format kc (Path.join dir fn) = true ->
  exists l, In (k, l) (check_file_format formats fs entries dir) /\ In fn l.
Proof.
  intros Hin Hd Hf Hn Hy. unfold check_file_format.
  apply in_split in Hin. destruct Hin as [e1 [e2 ->]].
  rewrite fold_left_app. cbn [fold_left].
  set (ff := fold_left (check_step formats fs dir) e1 _).
  assert (S : exists l, In (k, l) (check_step formats fs dir ff fn) /\
                        In fn l).
  { unfold check_step. rewrite Hd.
    generalize (if Path.endswith fn ".info"
                then dict_append "info" fn ff else ff).
    intros ff'. rewrite Hf. now apply format_loop_first_match. }
  destruct S as [l [I Hl]].
  exact (check_loop_grows e2 _ _ _ _ I Hl).
Qed.

(** The accumulators of [get_format_map] hold the pairs of the
    categories other than ['info']. *)
Lemma format_map_acc fls acc :
  List.length (fst acc) = List.length (snd acc) ->
  let r := fold_left format_map_step fls acc in
  combine (fst r) (snd r)
  = combine (fst acc) (snd acc) ++ flat_pairs fls /\
  List.length (fst r) = List.length (snd r).
Proof.
  revert acc. induction fls as [|[tp flist] r IH]; intros acc Hl; simpl.
  - unfold flat_pairs. simpl. now rewrite app_nil_r.
  - unfold flat_pairs, data_entries. simpl.
    destruct (negb (tp =? "info")) eqn:E; simpl.
    + specialize (IH (fst acc ++ flist,
                      snd acc ++ repeat tp (List.length flist))).
      simpl in IH. destruct IH as [IH1 IH2].
      { rewrite !length_app, repeat_length. lia. }
      split; [|assumption]. rewrite IH1.
      rewrite combine_app_eq by assumption. rewrite <- app_assoc.
      f_equal. f_equal. clear. induction flist as [|x l IH]; simpl;
        [reflexivity|now rewrite IH].
    + apply IH. assumption.
Qed.

Lemma get_format_map_eq fls :
  get_format_map fls = dict_update (flat_pairs fls) [].
Proof.
  unfold get_format_map, dict_of_zip.
  destruct (format_map_acc fls ([], []) eq_refl) as [E _].
  simpl in E. now rewrite E.
Qed.

Lemma get_format_map_NoDup fls : NoDup (dict_keys (get_format_map fls)).
Proof. rewrite get_format_map_eq. apply dict_update_NoDup. constructor. Qed.

(** A name of the format map is listed under a category other than
    ['info']. *)
Lemma get_format_map_keys fls k :
  In k (dict_keys (get_format_map fls)) <->
  exists tp l, In (tp, l) fls /\ tp <> "info" /\ In k l.
Proof.
  rewrite get_format_map_eq, dict_update_keys. simpl.
  unfold dict_keys, flat_pairs, data_entries. split.
  - intros [H|[]]. apply in_map_iff in H. destruct H as [[k' tp] [<- H]].
    apply in_flat_map in H. destruct H as [[tp' l] [I H]].
    apply filter_In in I. destruct I as [I N]. simpl in *.
    apply in_map_iff in H. destruct H as [x [E Hx]]. inversion E; subst.
    exists tp, l. repeat split; auto.
    intros ->. discriminate.
  - intros [tp [l [I [N Hk]]]]. left. apply in_map_iff.
    exists (k, tp). split; [reflexivity|]. apply in_flat_map.
    exists (tp, l). split.
    + apply filter_In. split; [assumption|]. simpl.
      apply negb_true_iff. now apply String.eqb_neq.
    + simpl. apply in_map_iff. now exists k.
Qed.

End ScanFacts.

(* ------------------------------------------------------------------ *)
(** ** Tables: vstack and the columns add_columns leaves alone *)

Lemma fold_remove_nil {V} (ks : list string) :
  fold_left (fun (d : dict V) k => dict_remove k d) ks [] = [].
Proof. induction ks as [|k r IH]; [reflexivity|exact IH]. Qed.

(** Two tables stack when the columns they share have types of one
    class. *)
Lemma merge_conflict_none t1 t2 :
  (forall n k1 k2, col_kind n t1 = Some k1 -> col_kind n t2 = Some k2 ->
                   k1 = k2) ->
  merge_conflict t1 t2 = None.
Proof.
  intros H. unfold merge_conflict.
  induction (keys t1) as [|n r IH]; [reflexivity|]. cbn [find].
  destruct (col_kind n t1) as [k1|] eqn:E1; [|exact IH].
  destruct (col_kind n t2) as [k2|] eqn:E2; [|exact IH].
  rewrite (H n k1 k2 E1 E2). now destruct k2.
Qed.

Lemma merge_conflict_some t1 t2 n k1 k2 :
  In n (keys t1) ->
  col_kind n t1 = Some k1 -> col_kind n t2 = Some k2 -> k1 <> k2 ->
  exists n', merge_conflict t1 t2 = Some n'.
Proof.
  intros I H1 H2 N. unfold merge_conflict.
  destruct (find _ (keys t1)) as [n'|] eqn:F; [now exists n'|].
  exfalso. apply (find_none _ _ F) in I. rewrite H1, H2 in I.
  destruct k1, k2; try discriminate; congruence.
Qed.

Lemma dict_get_map_fun {V} (g : string -> V) ks n :
  dict_get n (map (fun k => (k, g k)) ks)
  = if mem n ks then Some (g n) else None.
Proof.
  induction ks as [|k r IH]; simpl; [reflexivity|].
  rewrite (String.eqb_sym n k).
  destruct (k =? n) eqn:E; simpl.
  - apply String.eqb_eq in E. now subst.
  - exact IH.
Qed.

(** The rows of the first table come first in every column it has. *)
Lemma stacked_column t1 t2 n c :
  column n t1 = Some c ->
  column n (stacked t1 t2) = Some (c ++ padded n t2).
Proof.
  intros H. unfold column, stacked. simpl.
  rewrite dict_get_map_fun.
  assert (I : In n (keys t1)).
  { unfold column in H. apply dict_get_Some_In in H.
    change n with (fst (n, c)). now apply in_map. }
  assert (E : mem n (keys t1 ++ filter (fun n0 => negb (mem n0 (keys t1)))
                                        (keys t2)) = true).
  { apply mem_true. apply in_or_app. now left. }
  rewrite E. unfold padded at 1. now rewrite H.
Qed.

(** The columns of the first table keep their place. *)
Lemma stacked_keys t1 t2 :
  keys (stacked t1 t2)
  = keys t1 ++ filter (fun n => negb (mem n (keys t1))) (keys t2).
Proof.
  unfold keys at 1, stacked, dict_keys. simpl. rewrite map_map. simpl.
  apply map_id.
Qed.

Lemma mark_child_columns tps t : columns (mark_child tps t) = columns t.
Proof. unfold mark_child. now destruct (mem "data_dir" tps). Qed.

Lemma mark_child_column tps t n : column n (mark_child tps t) = column n t.
Proof. unfold column. now rewrite mark_child_columns. Qed.

Lemma NoDup_map_Val l : NoDup l -> NoDup (map Val l).
Proof.
  induction 1 as [|x l N ND IH]; simpl; constructor; [|assumption].
  intros I. apply in_map_iff in I. destruct I as [y [E Hy]].
  inversion E; subst. contradiction.
Qed.

Section InitFacts.
Variable formats : dict DataFormat.
Variable info_name_list : dict InfoCollector.
Variable abspath : string -> string.

(** With [overwrite] false the columns of the table are not computed. *)
Lemma computed_not_key cs t k :
  In k (keys t) -> ~ In k (computed cs t false).
Proof.
  intros I H. apply computed_In in H. destruct H as [_ H].
  unfold colliding in H. apply mem_true in I. rewrite I in H. discriminate.
Qed.

Lemma with_columns_kept dir cs t rs k :
  In k (keys t) ->
  column k (with_columns formats dir cs t false rs) = column k t.
Proof. intros I. apply with_columns_other. now apply computed_not_key. Qed.

(** [__init__], up to [setup_info_table]. *)
Lemma init_eq fs dir add entries infos :
  fs_listdir fs dir = Some entries ->
  dict_get "info" (check_file_format formats fs entries dir) = Some infos ->
  let base := Path.basename (Path.rstrip_sep (abspath dir)) in
  let self := mkInfo dir (abspath dir) base
                     (check_file_format formats fs entries dir)
                     (info_name base infos) [] false
                     (default_col_names ++ add) (mkTable [] [] []) in
  init formats info_name_list abspath fs dir add =
  (log (pick_info_file_name base infos)
     ++ log (setup_info_table formats info_name_list fs self),
   outcome (setup_info_table formats info_name_list fs self)).
Proof.
  intros Hl Hi. simpl. unfold init, listdir. rewrite Hl, bind_ret.
  rewrite (getitem_ok _ _ Hi), bind_nil.
  pose proof (pick_info_file_name_outcome
                (Path.basename (Path.rstrip_sep (abspath dir))) infos) as O.
  destruct (pick_info_file_name
              (Path.basename (Path.rstrip_sep (abspath dir))) infos)
    as [lp rp].
  simpl in O. subst rp. unfold bind, log, outcome. simpl.
  now destruct (setup_info_table formats info_name_list fs _).
Qed.

Lemma init_ok_inv fs dir add st :
  outcome (init formats info_name_list abspath fs dir add) = Ok st ->
  exists entries infos,
    fs_listdir fs dir = Some entries /\
    dict_get "info" (check_file_format formats fs entries dir) = Some infos.
Proof.
  unfold init, listdir.
  destruct (fs_listdir fs dir) as [entries|] eqn:E.
  - intros _. exists entries.
    destruct (check_file_format_has formats fs dir entries (k := "info"))
      as [infos Hi]; [now left|].
    now exists infos.
  - unfold bind, raise. simpl. discriminate.
Qed.

(** What [add_columns] returns on the tables [setup_info_table] makes:
    rows of file names and formats. *)
Lemma add_columns_rows_inv dir cnames cs fns fmts mt x :
  outcome (add_columns formats dir cnames cs
             (mkTable [("filename", map Val fns);
                       ("fileformat", map Val fmts)] mt []) false)
  = Ok x ->
  let t := mkTable [("filename", map Val fns);
                    ("fileformat", map Val fmts)] mt [] in
  let rs := combine (map Val fns) (map Val fmts) in
  forallb (row_okb formats dir cs (computed cs t false)) rs = true /\
  add_columns formats dir cnames cs t false =
  (warnings cs t false ++ List.concat (map (row_events dir) rs),
   Ok (with_columns formats dir cs t false rs,
       record_names (computed cs t false) cnames)).
Proof.
  intros H. simpl.
  pose proof H as H0. apply add_columns_ok_inv in H0.
  destruct H0 as [a [b [Ha [Hb F]]]].
  unfold column in Ha, Hb. simpl in Ha, Hb.
  inversion Ha; inversion Hb; subst a b. split; [exact F|].
  now apply add_columns_ok.
Qed.

(** The three ways [__init__] can return. *)
Lemma init_cases fs dir add st :
  outcome (init formats info_name_list abspath fs dir add) = Ok st ->
  exists entries infos dd dd',
    let fls := check_file_format formats fs entries dir in
    let base := Path.basename (Path.rstrip_sep (abspath dir)) in
    let fm := get_format_map (dict_set "data_dir" dd' fls) in
    let info_file := Path.join dir (info_name base infos) in
    fs_listdir fs dir = Some entries /\
    dict_get "info" fls = Some infos /\
    dict_get "data_dir" fls = Some dd /\
    outcome (prune_loop fs dir (List.length dd) 0 dd) = Ok dd' /\
    directory st = dir /\
    directory_abs_path st = abspath dir /\
    info_file_name st = info_name base infos /\
    files st = dict_set "data_dir" dd' fls /\
    ((fs_isfile fs info_file = false /\
      new_files st = [] /\
      table_update st = true /\
      info_table st =
      with_columns formats dir
        (get_col_collector info_name_list (default_col_names ++ add))
        (fresh_rows base fm (0 <? List.length dd')%nat) false
        (combine (map Val (dict_keys fm)) (map Val (dict_values fm))))
     \/
     (fs_isfile fs info_file = true /\
      exists T fncol,
        fs_read_table fs info_file = Some T /\
        column "filename" T = Some fncol /\
        delta fm fncol = [] /\
        new_files st = [] /\
        table_update st = false /\
        info_table st = T)
     \/
     (fs_isfile fs info_file = true /\
      exists T fncol,
        fs_read_table fs info_file = Some T /\
        column "filename" T = Some fncol /\
        delta fm fncol <> [] /\
        new_files st = delta fm fncol /\
        table_update st = true /\
        let nf := delta fm fncol in
        let tps := lookup_all fm nf in
        info_table st =
        mark_child tps
          (stacked T
             (with_columns formats dir
                (get_col_collector info_name_list (keys T))
                (new_rows nf tps) false
                (combine (map Val nf) (map Val tps)))))).
Proof.
  intros H.
  pose proof H as H0. apply init_ok_inv in H0.
  destruct H0 as [entries [infos [Hl Hi]]].
  rewrite (@init_eq fs dir add entries infos Hl Hi) in H.
  unfold outcome at 1 in H. simpl in H.
  pose proof H as H0. apply setup_info_table_ok_inv in H0.
  destruct H0 as [dd [dd' [Hd Hp]]].
  simpl in Hd, Hp.
  exists entries, infos, dd, dd'. simpl.
  rewrite setup_info_table_eq with (dd := dd) (dd' := dd') in H
    by assumption.
  cbv zeta in H. cbn [directory info_file_name files] in H.
  destruct (fs_isfile fs _) eqn:Ef.
  - destruct (fs_read_table fs _) as [T|] eqn:Er; [|discriminate H].
    destruct (column "filename" T) as [fncol|] eqn:Ec; [|discriminate H].
    destruct (delta _ fncol) as [|f nf'] eqn:Ed.
    + unfold outcome in H. cbn [snd] in H. inversion H; subst st.
      cbn [directory directory_abs_path info_file_name files new_files
           table_update info_table].
      repeat (split; [first [assumption | reflexivity]|]).
      right. left. split; [reflexivity|]. exists T, fncol.
      repeat (split; [first [assumption | reflexivity]|]). reflexivity.
    + unfold outcome at 1 in H. cbn [snd] in H.
      destruct (outcome (add_columns _ _ _ _ _ _)) as [x|e] eqn:A;
        [|discriminate H].
      destruct (merge_conflict T (fst x)); [discriminate H|].
      inversion H; subst st.
      cbn [directory directory_abs_path info_file_name files new_files
           table_update info_table].
      repeat (split; [first [assumption | reflexivity]|]).
      right. right. split; [reflexivity|]. exists T, fncol.
      rewrite Ed.
      repeat (split; [first [assumption | reflexivity | discriminate]|]).
      unfold new_rows in A.
      pose proof A as A0. apply add_columns_rows_inv in A0.
      destruct A0 as [_ E].
      rewrite E in A. unfold outcome in A. cbn [snd] in A.
      inversion A; subst x. reflexivity.
  - unfold outcome at 1 in H. cbn [snd] in H.
    destruct (outcome (add_columns _ _ _ _ _ _)) as [x|e] eqn:A;
      [|discriminate H].
    inversion H; subst st.
    cbn [directory directory_abs_path info_file_name files new_files
         table_update info_table].
    repeat (split; [first [assumption | reflexivity]|]).
    left. repeat (split; [first [assumption | reflexivity]|]).
    unfold fresh_rows in A.
    pose proof A as A0. apply add_columns_rows_inv in A0.
    destruct A0 as [_ E].
    rewrite E in A. unfold outcome in A. cbn [snd] in A.
    inversion A; subst x. reflexivity.
Qed.

(** The [filename] column after [__init__]: the names of the format
    map for a new catalog, the stored names followed by the new ones for
    a stored one. *)
Lemma init_filenames fs dir add st :
  outcome (init formats info_name_list abspath fs dir add) = Ok st ->
  let fm := get_format_map (files st) in
  let info_file := Path.join dir (info_file_name st) in
  exists c,
    column "filename" (info_table st) = Some c /\
    ((fs_isfile fs info_file = false /\
      new_files st = [] /\
      table_update st = true /\
      c = map Val (dict_keys fm))
     \/
     (fs_isfile fs info_file = true /\
      exists T fncol,
        fs_read_table fs info_file = Some T /\
        column "filename" T = Some fncol /\
        new_files st = delta fm fncol /\
        table_update st = negb (match new_files st with
                                | [] => true
                                | _ => false
                                end) /\
        c = fncol ++ map Val (new_files st))).
Proof.
  intros H. apply init_cases in H.
  destruct H as [entries [infos [dd [dd' H]]]]. cbv zeta in H.
  destruct H as [Hl [Hi [Hd [Hp [Ed [Ea [En [Ef H]]]]]]]].
  cbv zeta. rewrite En, Ef.
  destruct H as [[Hf [Hn [Hu Ht]]]|[[Hf [T [fncol H]]]|[Hf [T [fncol H]]]]].
  - rewrite Ht. eexists. split.
    + rewrite with_columns_kept by (simpl; tauto). reflexivity.
    + left. auto.
  - destruct H as [Hr [Hc [Hdl [Hn [Hu Ht]]]]]. rewrite Ht.
    exists fncol. split; [assumption|]. right. split; [assumption|].
    exists T, fncol. rewrite Hn, Hdl, Hu, app_nil_r. auto.
  - destruct H as [Hr [Hc [Hdl [Hn [Hu Ht]]]]]. cbv zeta in Ht. rewrite Ht.
    eexists. split.
    + rewrite mark_child_column. apply stacked_column. exact Hc.
    + right. split; [assumption|]. exists T, fncol.
      repeat (split; [assumption|]). rewrite Hn, Hu. split.
      * destruct (delta _ fncol); [congruence|reflexivity].
      * f_equal. unfold padded.
        rewrite with_columns_kept by (simpl; tauto). reflexivity.
Qed.

End InitFacts.

(* ------------------------------------------------------------------ *)
(** ** Properties of the scan and of the table __init__ leaves *)

(** C8. In every table [__init__] returns no two rows have the same
    [filename]: a table built from a scan has the names of the format map,
    a dictionary; a stored table whose names are distinct gets the names of
    the format map it lacks, each once. *)
Theorem filenames_unique formats info_name_list abspath fs dir add st :
  outcome (init formats info_name_list abspath fs dir add) = Ok st ->
  (forall T fncol,
      fs_read_table fs (Path.join dir (info_file_name st)) = Some T ->
      column "filename" T = Some fncol -> NoDup fncol) ->
  exists c, column "filename" (info_table st) = Some c /\ NoDup c.
Proof.
  intros H HT. apply init_filenames in H. cbv zeta in H.
  destruct H as [c [Hc [[_ [_ [_ ->]]]|[_ [T [fncol H]]]]]].
  - eexists. split; [exact Hc|]. apply NoDup_map_Val, get_format_map_NoDup.
  - destruct H as [Hr [Hf [Hn [_ ->]]]]. eexists. split; [exact Hc|].
    assert (ND : NoDup (new_files st)).
    { rewrite Hn. unfold delta. apply NoDup_filter, get_format_map_NoDup. }
    apply NoDup_app.
    + eapply HT; eauto.
    + now apply NoDup_map_Val.
    + intros a Ha I. apply in_map_iff in I. destruct I as [f [<- Hf']].
      rewrite Hn in Hf'. apply delta_In in Hf'. tauto.
Qed.

Lemma filenames_unique_witness :
  exists c,
    column "filename" (info_table Examples.st_new_file) = Some c /\ NoDup c.
Proof.
  apply (@filenames_unique Examples.formats Examples.collectors
           Examples.abspath Examples.disk_new_file "/data" []
           Examples.st_new_file).
  - reflexivity.
  - intros T fncol HT Hc. vm_compute in HT. inversion HT; subst T.
    vm_compute in Hc. inversion Hc; subst fncol.
    constructor; [simpl; tauto|constructor].
Defined.

(** C6, as the program has it. A regular file that no registered format
    recognises is filed under no category (except ['info'] when it has the
    catalog suffix): it is not in the format map, it is not a new file, and
    it is in the table only when the stored catalog already had it. *)
Theorem unformatted_file_not_listed
        formats info_name_list abspath fs dir add st fn :
  outcome (init formats info_name_list abspath fs dir add) = Ok st ->
  fs_isdir fs (Path.join dir fn) = false ->
  (forall k kc, In (k, kc) formats ->
                is_format kc (Path.join dir fn) = false) ->
  (forall tp l, In (tp, l) (files st) -> In fn l -> tp = "info") /\
  ~ In fn (dict_keys (get_format_map (files st))) /\
  ~ In fn (new_files st) /\
  (forall c, column "filename" (info_table st) = Some c ->
             In (Val fn) c ->
             exists T c0,
               fs_read_table fs (Path.join dir (info_file_name st)) = Some T /\
               column "filename" T = Some c0 /\ In (Val fn) c0).
Proof.
  intros H Hd Hm.
  assert (P1 : forall tp l, In (tp, l) (files st) -> In fn l -> tp = "info").
  { pose proof H as H0. apply init_cases in H0.
    destruct H0 as [entries [infos [dd [dd' H0]]]]. cbv zeta in H0.
    destruct H0 as [_ [_ [Hdd [Hp [_ [_ [_ [Ef _]]]]]]]].
    assert (F : forall tp x, filed formats fs dir tp x -> x = fn ->
                             tp = "info").
    { intros tp x [[-> _]|[[_ Hx]|[_ [kc [Ik Hk]]]]] ->.
      - reflexivity.
      - congruence.
      - rewrite (Hm _ _ Ik) in Hk. discriminate. }
    intros tp l I Hfn. rewrite Ef in I. apply dict_set_In in I.
    destruct I as [I|I].
    - inversion I; subst tp l. apply prune_loop_incl in Hp.
      apply Hp in Hfn. apply dict_get_Some_In in Hdd.
      destruct (check_file_format_filed formats fs dir entries _ _ _ Hdd Hfn)
        as [_ Hfiled].
      eapply F; eauto.
    - destruct (check_file_format_filed formats fs dir entries _ _ _ I Hfn)
        as [_ Hfiled].
      eapply F; eauto. }
  assert (P2 : ~ In fn (dict_keys (get_format_map (files st)))).
  { intros I. apply get_format_map_keys in I.
    destruct I as [tp [l [I [N Hfn]]]]. apply N. eapply P1; eauto. }
  split; [exact P1|]. split; [exact P2|].
  apply init_filenames in H. cbv zeta in H.
  destruct H as [c [Hc [[_ [Hn [_ ->]]]|[_ [T [fncol H]]]]]].
  - split; [rewrite Hn; tauto|].
    intros c' Hc' I. rewrite Hc in Hc'. inversion Hc'; subst c'.
    apply in_map_iff in I. destruct I as [x [E Hx]]. inversion E; subst x.
    contradiction.
  - destruct H as [Hr [Hf [Hn [_ ->]]]].
    assert (P3 : ~ In fn (new_files st)).
    { rewrite Hn. intros I. apply delta_In in I. tauto. }
    split; [exact P3|].
    intros c' Hc' I. rewrite Hc in Hc'. inversion Hc'; subst c'.
    apply in_app_or in I. destruct I as [I|I].
    + exists T, fncol. auto.
    + apply in_map_iff in I. destruct I as [x [E Hx]]. inversion E; subst x.
      contradiction.
Qed.

Lemma unformatted_file_not_listed_witness :
  ~ In "notes.txt" (dict_keys (get_format_map (files Examples.st_notes))) /\
  ~ In "notes.txt" (new_files Examples.st_notes).
Proof.
  destruct (@unformatted_file_not_listed Examples.formats Examples.collectors
              Examples.abspath Examples.disk_notes "/data" []
              Examples.st_notes "notes.txt") as [_ [A [B _]]].
  - reflexivity.
  - reflexivity.
  - intros k kc [E|[E|[]]]; inversion E; subst; reflexivity.
  - split; assumption.
Defined.

(** C6 fails as stated: [notes.txt], a regular file no format recognises,
    is in no category of the scan and has no row in the table. *)
Lemma unformatted_file_dropped :
  fs_listdir Examples.disk_notes "/data" = Some ["a.bbx"; "notes.txt"] /\
  exists st,
    outcome (Examples.run Examples.disk_notes) = Ok st /\
    files st = [("data_dir", []); ("info", []); ("bbx", ["a.bbx"])] /\
    get_format_map (files st) = [("a.bbx", "bbx")] /\
    column "filename" (info_table st) = Some [Val "a.bbx"].
Proof.
  split; [reflexivity|]. eexists. split; [reflexivity|].
  repeat split; reflexivity.
Qed.

(** C5 at its failing input: of two subdirectories without a catalog the
    loop of [setup_info_table] removes the first and never looks at the
    second, which stays in the format map and gets a row. *)
Lemma second_catalogless_subdir_kept :
  outcome (prune_loop Examples.disk_two_subdirs "/data" 2 0 ["s1"; "s2"])
  = Ok ["s2"] /\
  exists st,
    outcome (Examples.run Examples.disk_two_subdirs) = Ok st /\
    get_format_map (files st) = [("s2", "data_dir")] /\
    column "filename" (info_table st) = Some [Val "s2"] /\
    dict_get "haschild" (meta (info_table st)) = Some (MBool true).
Proof.
  split; [reflexivity|]. eexists. split; [reflexivity|].
  repeat split; reflexivity.
Qed.

(** C9 at its failing input: with a format that takes every file the
    catalog file itself is filed under that format, is in the format map
    and gets a row of the table. *)
Lemma catalog_file_classified :
  exists st,
    outcome (init Examples.formats_any Examples.collectors Examples.abspath
                  Examples.disk_any "/data" []) = Ok st /\
    files st = [("data_dir", []); ("info", ["data.info"]);
                ("any", ["a.dat"; "data.info"])] /\
    dict_get "data.info" (get_format_map (files st)) = Some "any" /\
    column "filename" (info_table st) = Some [Val "a.dat"; Val "data.info"].
Proof.
  eexists. split; [reflexivity|]. repeat split; reflexivity.
Qed.

(* ------------------------------------------------------------------ *)
(** ** The incremental update *)

Lemma dict_update_head {V} (bs : dict V) k0 v0 r :
  ~ In k0 (dict_keys bs) ->
  dict_update bs ((k0, v0) :: r) = (k0, v0) :: dict_update bs r.
Proof.
  revert r v0. induction bs as [|[k v] bs IH]; intros r v0 N; simpl;
    [reflexivity|].
  unfold dict_update in *. simpl.
  destruct (k0 =? k) eqn:E.
  - apply String.eqb_eq in E. subst. simpl in N. tauto.
  - apply IH. simpl in N. tauto.
Qed.

Section NewRowsFacts.
Variable formats : dict DataFormat.
Variable dir : string.
Variable cs : dict InfoCollector.

(** The table of the new rows, with its computed columns, has one cell per
    new file in every column, and the null where it has no column. *)
Lemma new_rows_padded nf tps n :
  List.length nf = List.length tps ->
  List.length
    (padded n (with_columns formats dir cs (new_rows nf tps) false
                            (combine (map Val nf) (map Val tps))))
  = List.length nf.
Proof.
  intros Hl. unfold padded.
  destruct (in_dec string_dec n (computed cs (new_rows nf tps) false))
    as [I|N].
  - rewrite with_columns_computed by assumption.
    rewrite length_map, length_combine, !length_map. lia.
  - rewrite with_columns_other by assumption.
    unfold column, new_rows. cbn [columns dict_get].
    destruct ("filename" =? n); [now rewrite length_map|].
    destruct ("fileformat" =? n); [rewrite length_map; lia|].
    rewrite repeat_length. unfold nrows, with_columns. cbn [columns].
    rewrite dict_update_head.
    + now rewrite length_map.
    + rewrite extend_keys. apply computed_not_key. simpl. tauto.
Qed.

Lemma new_rows_filename nf tps :
  padded "filename" (with_columns formats dir cs (new_rows nf tps) false
                                  (combine (map Val nf) (map Val tps)))
  = map Val nf.
Proof.
  unfold padded. rewrite with_columns_kept by (simpl; tauto). reflexivity.
Qed.

(** The table of the new rows is made from Python lists: every column has
    the type of its values. *)
Lemma col_kind_new_rows nf tps rs n :
  col_kind n (with_columns formats dir cs (new_rows nf tps) false rs)
  = option_map values_kind
      (column n (with_columns formats dir cs (new_rows nf tps) false rs)).
Proof.
  unfold col_kind.
  destruct (column n _) as [c|]; [|reflexivity].
  unfold with_columns at 1. cbn [declared new_rows].
  now rewrite fold_remove_nil.
Qed.
End NewRowsFacts.

Section Incremental.
Variable formats : dict DataFormat.
Variable info_name_list : dict InfoCollector.
Variable abspath : string -> string.
Variable fs : FileSystem.
Variable dir : string.
Variable add : list string.

(** The entries of the directory and the subdirectories the scan keeps. *)
Variable entries : list string.
Variable dd' : list string.
(** The stored catalog, its names, and the new file. *)
Variable T : Table.
Variable fncol : list cell.
Variable f : string.

Let fls := check_file_format formats fs entries dir.
Let name :=
  info_name (Path.basename (Path.rstrip_sep (abspath dir)))
            (category "info" fls).
Let fm := get_format_map (dict_set "data_dir" dd' fls).
Let curr := get_col_collector info_name_list (keys T).
Let tps := lookup_all fm [f].

Hypothesis Hlist : fs_listdir fs dir = Some entries.
Hypothesis Hprune :
  outcome (prune_loop fs dir (List.length (category "data_dir" fls)) 0
                      (category "data_dir" fls)) = Ok dd'.
Hypothesis Hfile : fs_isfile fs (Path.join dir name) = true.
Hypothesis Hread : fs_read_table fs (Path.join dir name) = Some T.
Hypothesis Hcol : column "filename" T = Some fncol.
(** [f] is the one name of the format map the catalog lacks. *)
Hypothesis Hdelta : delta fm fncol = [f].
(** The file of [f] opens and every routine run on it returns a value or
    signals [NotImplementedError]. *)
Hypothesis Hrow :
  forallb (row_answeredb formats dir curr
                         (computed curr (new_rows [f] tps) false))
          (combine (map Val [f]) (map Val tps)) = true.
(** The columns of [T] have the types of the cells of the new row: the
    names and formats are strings, and a column with a collector has the
    type that the answer of its routine makes. *)
Hypothesis Hname : col_kind "filename" T = Some KCharacter.
Hypothesis Hformat :
  forall k, col_kind "fileformat" T = Some k -> k = KCharacter.
Hypothesis Hkind :
  forall n, In n (computed curr (new_rows [f] tps) false) ->
            col_kind n T
            = Some (values_kind
                      (map (answer_at formats dir curr n)
                           (combine (map Val [f]) (map Val tps)))).

(** C1, as the program has it. A directory with a stored catalog [T] and
    one new file [f] that the scan files under a format (or keeps as a
    subdirectory with a catalog), the cells of the new row being of the
    types of the columns of [T]: [__init__] returns the table [T] with one
    more row, the row of [f]. Every column of [T] keeps its place and its
    cells, in order, and gets one cell more; only the file of [f] is opened
    for the columns. *)
Theorem init_incremental :
  exists st,
    outcome (init formats info_name_list abspath fs dir add) = Ok st /\
    new_files st = [f] /\
    table_update st = true /\
    ~ In (Val f) fncol /\
    (forall n c, column n T = Some c ->
                 exists x, column n (info_table st) = Some (c ++ [x])) /\
    column "filename" (info_table st) = Some (fncol ++ [Val f]) /\
    (exists extra, keys (info_table st) = keys T ++ extra) /\
    meta (info_table st)
    = (if mem "data_dir" tps
       then dict_set "haschild" (MBool true) (meta T) else meta T) /\
    (forall p,
        In (EvOpen p) (log (init formats info_name_list abspath fs dir add))
        -> p = Path.join dir f).
Proof.
  destruct (check_file_format_has formats fs dir entries (k := "info"))
    as [infos Hi]; [now left|].
  destruct (check_file_format_has formats fs dir entries (k := "data_dir"))
    as [dd Hd]; [now right|].
  assert (Ei : category "info" fls = infos)
    by (unfold category, fls; now rewrite Hi).
  assert (Ed : category "data_dir" fls = dd)
    by (unfold category, fls; now rewrite Hd).
  rewrite Ed in Hprune. unfold name in Hfile, Hread. rewrite Ei in Hfile, Hread.
  pose proof (@init_eq formats info_name_list abspath fs dir add entries infos
                Hlist Hi) as E.
  cbv zeta in E.
  rewrite setup_info_table_eq with (dd := dd) (dd' := dd') in E
    by assumption.
  cbv zeta in E. cbn [directory info_file_name files col_names] in E.
  rewrite Hfile, Hread, Hcol in E. fold fls fm in E. rewrite Hdelta in E.
  fold tps curr in E.
  assert (A : add_columns formats dir (default_col_names ++ add) curr
                          (new_rows [f] tps) false
              = (warnings curr (new_rows [f] tps) false
                   ++ List.concat (map (row_events dir)
                                       (combine (map Val [f]) (map Val tps))),
                 Ok (with_columns formats dir curr (new_rows [f] tps) false
                                  (combine (map Val [f]) (map Val tps)),
                     record_names (computed curr (new_rows [f] tps) false)
                                  (default_col_names ++ add)))).
  { apply add_columns_ok; [reflexivity|reflexivity|].
    now destruct (rows_answered_ok _ _ _ _ _ Hrow). }
  rewrite A in E. unfold outcome, log in E. cbn [fst snd] in E.
  assert (Hm : merge_conflict T
                 (with_columns formats dir curr (new_rows [f] tps) false
                               (combine (map Val [f]) (map Val tps)))
               = None).
  { apply merge_conflict_none. intros n k1 k2 H1 H2.
    rewrite col_kind_new_rows in H2.
    destruct (in_dec string_dec n (computed curr (new_rows [f] tps) false))
      as [I|N].
    - rewrite with_columns_computed in H2 by exact I.
      destruct (rows_answered_ok _ _ _ _ _ Hrow) as [_ Hc].
      rewrite (Hc n I) in H2. rewrite (Hkind n I) in H1.
      cbn [option_map] in H2. congruence.
    - rewrite with_columns_other in H2 by exact N.
      unfold column, new_rows in H2. cbn [columns dict_get] in H2.
      destruct ("filename" =? n) eqn:E1.
      + apply String.eqb_eq in E1. subst n. cbn in H2. congruence.
      + destruct ("fileformat" =? n) eqn:E2; [|discriminate H2].
        apply String.eqb_eq in E2. subst n. apply Hformat in H1.
        subst k1. unfold tps, lookup_all in H2. cbn in H2. congruence. }
  rewrite Hm in E.
  eexists. split; [rewrite E; reflexivity|].
  cbn [new_files table_update info_table].
  split; [reflexivity|]. split; [reflexivity|].
  assert (Hf : In f (delta fm fncol)) by (rewrite Hdelta; now left).
  apply delta_In in Hf. split; [tauto|].
  split; [|split; [|split; [|split]]].
  - intros n c Hn. rewrite mark_child_column.
    rewrite stacked_column with (c := c) by exact Hn.
    pose proof (new_rows_padded formats dir curr [f] tps n eq_refl) as L.
    destruct (padded n _) as [|x [|y r]]; simpl in L; try discriminate.
    now exists x.
  - rewrite mark_child_column.
    rewrite stacked_column with (c := fncol) by exact Hcol.
    now rewrite new_rows_filename.
  - eexists. unfold keys at 1. rewrite mark_child_columns.
    apply stacked_keys.
  - unfold mark_child. destruct (mem "data_dir" tps); reflexivity.
  - intros p Hp. rewrite E in Hp. unfold log in Hp. cbn [fst] in Hp.
    apply in_app_or in Hp. destruct Hp as [Hp|Hp].
    + apply pick_info_file_name_log in Hp. discriminate.
    + apply in_app_or in Hp. destruct Hp as [Hp|Hp].
      * unfold warnings in Hp. apply in_map_iff in Hp.
        destruct Hp as [? [? _]]. discriminate.
      * simpl in Hp. destruct Hp as [Hp|[Hp|[]]]; [|discriminate].
        now inversion Hp.
Qed.

End Incremental.

Lemma init_incremental_witness :
  exists st,
    outcome (Examples.run Examples.disk_new_file) = Ok st /\
    new_files st = ["b.bbx"] /\
    column "filename" (info_table st) = Some [Val "a.bbx"; Val "b.bbx"] /\
    column "station" (info_table st)
    = Some [Val "LoFASM1"; Val "LoFASM1"].
Proof.
  destruct (@init_incremental Examples.formats Examples.collectors
              Examples.abspath Examples.disk_new_file "/data" []
              ["a.bbx"; "b.bbx"; "data.info"] [] Examples.catalog_a
              [Val "a.bbx"] "b.bbx")
    as [st [H [Hn [_ [_ [_ [Hc _]]]]]]].
  - reflexivity.
  - reflexivity.
  - reflexivity.
  - reflexivity.
  - reflexivity.
  - reflexivity.
  - reflexivity.
  - reflexivity.
  - intros k H. vm_compute in H. inversion H. reflexivity.
  - intros n H. vm_compute in H.
    destruct H as [H|[H|[]]]; subst n; reflexivity.
  - exists st. split; [exact H|]. split; [exact Hn|]. split; [exact Hc|].
    vm_compute in H. inversion H; subst st. reflexivity.
Defined.

(** C1 fails as stated: the catalog of [a.bbx] is stored and [notes.txt],
    which no format recognises, is new in the directory; [__init__] returns
    the stored table as it is, with no row for [notes.txt]. *)
Lemma unformatted_new_file_gets_no_row :
  fs_listdir Examples.disk_notes_catalog "/data"
  = Some ["a.bbx"; "notes.txt"; "data.info"] /\
  column "filename" Examples.catalog_a = Some [Val "a.bbx"] /\
  exists st,
    outcome (Examples.run Examples.disk_notes_catalog) = Ok st /\
    info_table st = Examples.catalog_a /\
    nrows (info_table st) = nrows Examples.catalog_a /\
    column "filename" (info_table st) = Some [Val "a.bbx"] /\
    new_files st = [] /\
    table_update st = false.
Proof.
  split; [reflexivity|]. split; [reflexivity|].
  eexists. split; [reflexivity|]. repeat split; reflexivity.
Qed.

(* ------------------------------------------------------------------ *)
(** ** A second run after the table was written *)

Lemma endswith_append (a suf : string) :
  Path.endswith (a ++ suf) suf = true.
Proof.
  induction a as [|c a IH].
  - change ("" ++ suf)%string with suf.
    destruct suf; cbn [Path.endswith]; now rewrite String.eqb_refl.
  - change (String c a ++ suf)%string with (String c (a ++ suf)).
    cbn [Path.endswith]. rewrite IH. apply orb_true_r.
Qed.

Lemma delta_nil fm c :
  (forall k, In k (dict_keys fm) -> In (Val k) c) -> delta fm c = [].
Proof.
  intros H. destruct (delta fm c) as [|x l] eqn:E; [reflexivity|].
  assert (I : In x (delta fm c)) by (rewrite E; now left).
  apply delta_In in I. destruct I as [I N]. exfalso. auto.
Qed.

Lemma data_entries_append_info x d :
  data_entries (dict_append "info" x d) = data_entries d.
Proof.
  unfold data_entries. induction d as [|[k l] r IH]; [reflexivity|].
  cbn [dict_append]. destruct (k =? "info") eqn:E.
  - cbn [filter fst]. now rewrite E.
  - cbn [filter fst]. rewrite E. cbn [negb]. now rewrite IH.
Qed.

Lemma dict_set_append_info k l x (d : dict (list string)) :
  k <> "info" ->
  dict_set k l (dict_append "info" x d) = dict_append "info" x (dict_set k l d).
Proof.
  intros N. induction d as [|[k0 l0] r IH].
  - cbn [dict_append dict_set].
    destruct (k =? "info") eqn:E; [|reflexivity].
    apply String.eqb_eq in E. contradiction.
  - cbn [dict_append dict_set].
    destruct (k0 =? "info") eqn:E1; destruct (k0 =? k) eqn:E2;
      cbn [dict_append dict_set]; rewrite ?E1, ?E2.
    + apply String.eqb_eq in E1, E2. congruence.
    + reflexivity.
    + apply String.eqb_eq in E2. subst k0.
      destruct (k =? "info") eqn:E3; [|reflexivity].
      apply String.eqb_eq in E3. contradiction.
    + now rewrite IH.
Qed.

Lemma dict_set_app_present {V} k (v : V) a b :
  In k (dict_keys a) -> dict_set k v (a ++ b) = dict_set k v a ++ b.
Proof.
  induction a as [|[k0 v0] r IH]; simpl; [tauto|].
  intros H. destruct (k0 =? k) eqn:E; [reflexivity|].
  simpl. f_equal. apply IH. destruct H as [H|H]; [|assumption].
  apply String.eqb_neq in E. congruence.
Qed.

Lemma dict_get_app_present {V} k (a b : dict V) :
  In k (dict_keys a) -> dict_get k (a ++ b) = dict_get k a.
Proof.
  induction a as [|[k0 v0] r IH]; simpl; [tauto|].
  intros H. destruct (k0 =? k) eqn:E; [reflexivity|].
  apply IH. destruct H as [H|H]; [|assumption].
  apply String.eqb_neq in E. congruence.
Qed.

Lemma flat_pairs_app_empty d extra :
  Forall (fun e : string * list string => snd e = []) extra ->
  flat_pairs (d ++ extra) = flat_pairs d.
Proof.
  intros H. unfold flat_pairs, data_entries.
  rewrite filter_app, flat_map_app.
  assert (E : flat_map (fun e : string * list string =>
                          map (fun x => (x, fst e)) (snd e))
                       (filter (fun e => negb (fst e =? "info")) extra) = []).
  { induction H as [|[k l] r Hk Hr IH]; [reflexivity|].
    cbn [filter fst]. simpl in Hk. subst l.
    destruct (negb (k =? "info")); [|exact IH]. simpl. exact IH. }
  rewrite E. apply app_nil_r.
Qed.

Section PersistFacts.
Variable formats : dict DataFormat.

(** A file no format recognises only makes the loop create the categories
    that are not there yet, empty. *)
Lemma format_loop_unmatched fl f fn ff :
  (forall k kc, In (k, kc) fl -> is_format kc f = false) ->
  exists extra,
    Forall (fun e : string * list string => snd e = []) extra /\
    format_loop fl f fn ff = ff ++ extra.
Proof.
  revert ff. induction fl as [|[k kc] r IH]; intros ff H.
  - exists []. split; [constructor|]. simpl. now rewrite app_nil_r.
  - cbn [format_loop]. rewrite (H k kc) by now left.
    destruct (dict_mem k ff) eqn:E.
    + apply IH. intros k' kc' I. apply (H k' kc'). now right.
    + destruct (IH (dict_set k [] ff)) as [extra [F Eq]].
      { intros k' kc' I. apply (H k' kc'). now right. }
      exists ((k, []) :: extra). split; [constructor; [reflexivity|exact F]|].
      rewrite Eq. rewrite dict_set_absent.
      * now rewrite <- app_assoc.
      * intros I. apply dict_mem_true in I. congruence.
Qed.

(** The scan of the directory once the catalog file [name] is in it: the
    format map is the same and [name] is the one catalog candidate more. *)
Lemma check_step_catalog fs dir fls name infos :
  Path.endswith name ".info" = true ->
  fs_isdir fs (Path.join dir name) = false ->
  (forall k kc, In (k, kc) formats ->
                is_format kc (Path.join dir name) = false) ->
  dict_get "info" fls = Some infos ->
  In "data_dir" (dict_keys fls) ->
  let fls1 := check_step formats fs dir fls name in
  dict_get "info" fls1 = Some (infos ++ [name]) /\
  dict_get "data_dir" fls1 = dict_get "data_dir" fls /\
  (forall l, get_format_map (dict_set "data_dir" l fls1)
             = get_format_map (dict_set "data_dir" l fls)).
Proof.
  intros He Hd Hm Hi Hk. cbv zeta. unfold check_step. rewrite He, Hd.
  destruct (format_loop_unmatched formats (Path.join dir name) name
              (dict_append "info" name fls) Hm) as [extra [F ->]].
  assert (Ki : In "info" (dict_keys (dict_append "info" name fls))).
  { rewrite dict_append_keys. apply dict_mem_true. unfold dict_mem.
    now rewrite Hi. }
  assert (Kd : In "data_dir" (dict_keys (dict_append "info" name fls))).
  { now rewrite dict_append_keys. }
  split; [|split].
  - rewrite dict_get_app_present by assumption.
    now apply dict_append_get_eq.
  - rewrite dict_get_app_present by assumption.
    apply dict_append_get_neq. discriminate.
  - intros l. rewrite !get_format_map_eq. f_equal.
    rewrite dict_set_app_present by assumption.
    rewrite flat_pairs_app_empty by assumption.
    rewrite dict_set_append_info by discriminate.
    unfold flat_pairs. now rewrite data_entries_append_info.
Qed.

(** The loop over the subdirectories reads the listings of the
    subdirectories only. *)
Lemma prune_loop_ext fs fs1 dir fuel i l :
  (forall d, In d l ->
             fs_listdir fs1 (Path.join dir d) = fs_listdir fs (Path.join dir d))
  -> prune_loop fs1 dir fuel i l = prune_loop fs dir fuel i l.
Proof.
  revert i l. induction fuel as [|n IH]; intros i l H; [reflexivity|].
  cbn [prune_loop]. destruct (nth_error l i) as [d|] eqn:E; [|reflexivity].
  unfold listdir. rewrite (H d) by (eapply nth_error_In; eauto).
  destruct (fs_listdir fs (Path.join dir d)) as [sub|]; [|reflexivity].
  rewrite !bind_ret.
  destruct (existsb (fun ff => Path.endswith ff ".info") sub).
  - now apply IH.
  - apply IH. intros d' Hd'. apply H. eapply list_remove_incl; eauto.
Qed.

End PersistFacts.

Section SecondRun.
Variable formats : dict DataFormat.
Variable info_name_list : dict InfoCollector.
Variable abspath : string -> string.

(** [__init__] on a directory whose catalog has every name of the format
    map: the stored table is returned and nothing is marked. *)
Lemma init_load_same fs dir add entries infos dd dd' T fncol :
  let fls := check_file_format formats fs entries dir in
  let base := Path.basename (Path.rstrip_sep (abspath dir)) in
  let name := info_name base infos in
  fs_listdir fs dir = Some entries ->
  dict_get "info" fls = Some infos ->
  dict_get "data_dir" fls = Some dd ->
  outcome (prune_loop fs dir (List.length dd) 0 dd) = Ok dd' ->
  fs_isfile fs (Path.join dir name) = true ->
  fs_read_table fs (Path.join dir name) = Some T ->
  column "filename" T = Some fncol ->
  delta (get_format_map (dict_set "data_dir" dd' fls)) fncol = [] ->
  outcome (init formats info_name_list abspath fs dir add)
  = Ok (mkInfo dir (abspath dir) base (dict_set "data_dir" dd' fls) name
               [] false (default_col_names ++ add) T).
Proof.
  cbv zeta. intros Hl Hi Hd Hp Hf Hr Hc Hn.
  rewrite (@init_eq formats info_name_list abspath fs dir add entries infos
             Hl Hi).
  cbv zeta. unfold outcome at 1. cbn [snd].
  rewrite setup_info_table_eq with (dd := dd) (dd' := dd') by assumption.
  cbv zeta. cbn [directory info_file_name files col_names table_update
                 directory_abs_path directory_basename].
  rewrite Hf, Hr, Hc, Hn. reflexivity.
Qed.

(** Every key of the format map is in the [filename] column [__init__]
    leaves. *)
Lemma init_covers fs dir add st :
  outcome (init formats info_name_list abspath fs dir add) = Ok st ->
  exists c,
    column "filename" (info_table st) = Some c /\
    delta (get_format_map (files st)) c = [].
Proof.
  intros H. apply init_filenames in H. cbv zeta in H.
  destruct H as [c [Hc [[_ [_ [_ ->]]]|[_ [T [fncol H]]]]]].
  - eexists. split; [exact Hc|]. apply delta_nil. intros k Hk.
    now apply in_map.
  - destruct H as [_ [_ [Hn [_ ->]]]]. eexists. split; [exact Hc|].
    apply delta_nil. intros k Hk. apply in_or_app.
    destruct (existsb (cell_eqb (Val k)) fncol) eqn:E.
    + left. apply existsb_exists in E. destruct E as [x [Hx Ex]].
      destruct x as [|v]; simpl in Ex; [discriminate|].
      apply String.eqb_eq in Ex. now subst.
    + right. apply in_map. rewrite Hn. unfold delta. apply filter_In.
      split; [assumption|]. now rewrite E.
Qed.

(** C2, as the program has it. After a run whose table was written with
    [write_info_table] (the directory being otherwise as it was, and no
    format recognising the catalog file), the next run returns the same
    table and leaves [table_update] false, so that [write_info_table] then
    writes nothing. The directory may be given by a relative path: the
    table is written through the absolute path and read through the given
    one. What is asked of [os.path.abspath] and of [os.path.isdir] holds
    of any directory: the absolute path of an absolute path is itself, the
    catalog file has one absolute path by either way, it is a directory
    by both ways or by none, and no entry is the directory itself. *)
Theorem second_run_clean fs dir add st1 fs1 :
  outcome (init formats info_name_list abspath fs dir add) = Ok st1 ->
  outcome (write_info_table abspath fs st1) = Ok fs1 ->
  abspath (abspath dir) = abspath dir ->
  abspath (Path.join (abspath dir) (info_file_name st1))
  = abspath (Path.join dir (info_file_name st1)) ->
  fs_isdir fs (Path.join (abspath dir) (info_file_name st1))
  = fs_isdir fs (Path.join dir (info_file_name st1)) ->
  (forall entries d, fs_listdir fs dir = Some entries -> In d entries ->
                     abspath (Path.join dir d) <> abspath dir) ->
  (forall k kc, In (k, kc) formats ->
                is_format kc (Path.join dir (info_file_name st1)) = false) ->
  exists st2,
    outcome (init formats info_name_list abspath fs1 dir add) = Ok st2 /\
    info_table st2 = info_table st1 /\
    table_update st2 = false /\
    new_files st2 = [] /\
    write_info_table abspath fs1 st2 = ([], Ok fs1).
Proof.
  intros H1 Hw Hidem Hsame Hisdir Hdistinct Hm.
  pose proof H1 as C. apply init_cases in C.
  destruct C as [entries [infos [dd [dd' C]]]]. cbv zeta in C.
  destruct C as [Hl [Hi [Hd [Hp [Ed [Ea [En [Ef C]]]]]]]].
  pose proof H1 as Cov. apply init_covers in Cov.
  destruct Cov as [c [Hc Hcov]]. rewrite Ef in Hcov.
  destruct (table_update st1) eqn:U.
  - (* the table was written *)
    unfold write_info_table in Hw. rewrite U in Hw. unfold write_table in Hw.
    rewrite Ea in Hw.
    destruct (fs_isdir fs (Path.join (abspath dir) (info_file_name st1)))
      eqn:Hdir0; [discriminate Hw|].
    assert (Hdir : fs_isdir fs (Path.join dir (info_file_name st1)) = false)
      by congruence.
    unfold outcome, bind, emit, ret in Hw. cbn [snd] in Hw.
    inversion Hw as [Hfs1]. clear Hw.
    set (name := info_file_name st1) in *.
    set (t1 := info_table st1) in *.
    set (fsw := fs_write abspath fs (abspath dir) name t1) in *.
    assert (Hsub : forall d, In d dd ->
              fs_listdir fsw (Path.join dir d)
              = fs_listdir fs (Path.join dir d)).
    { intros d Hin. unfold fsw, fs_write. cbn [fs_listdir].
      destruct (abspath (Path.join dir d) =? abspath (abspath dir)) eqn:E;
        [|reflexivity].
      apply String.eqb_eq in E. rewrite Hidem in E. exfalso.
      apply dict_get_Some_In in Hd.
      destruct (check_file_format_filed formats fs dir entries _ _ _ Hd Hin)
        as [Hin' _].
      exact (Hdistinct entries d Hl Hin' E). }
    assert (Hp1 : outcome (prune_loop fsw dir (List.length dd) 0 dd)
                  = Ok dd').
    { rewrite (prune_loop_ext fs fsw dir _ _ dd Hsub). exact Hp. }
    assert (Hfile1 : fs_isfile fsw (Path.join dir name) = true).
    { unfold fsw, fs_write. cbn [fs_isfile].
      now rewrite Hsame, String.eqb_refl. }
    assert (Hread1 : fs_read_table fsw (Path.join dir name) = Some t1).
    { unfold fsw, fs_write. cbn [fs_read_table].
      now rewrite Hsame, String.eqb_refl. }
    assert (Hl1 : fs_listdir fsw dir
                  = Some (if mem name entries then entries
                          else entries ++ [name])).
    { unfold fsw, fs_write. cbn [fs_listdir].
      rewrite Hidem, String.eqb_refl, Hl. reflexivity. }
    destruct (mem name entries) eqn:Mn.
    + (* the catalog file was there already *)
      eexists. split.
      * apply init_load_same with (entries := entries) (infos := infos)
                                  (dd := dd) (dd' := dd') (fncol := c);
          first [ assumption | exact Hc
                | fold name in En; rewrite <- En;
                  first [exact Hfile1 | exact Hread1] ].
      * cbn [info_table table_update new_files]. repeat split.
    + (* the catalog file is new in the listing *)
      apply mem_false in Mn.
      assert (Einf : infos = []).
      { destruct infos as [|i0 infos']; [reflexivity|]. exfalso. apply Mn.
        fold name in En. rewrite En. unfold info_name. cbn.
        apply dict_get_Some_In in Hi.
        destruct (check_file_format_filed formats fs dir entries _ _ i0 Hi)
          as [Hent _]; [now left|exact Hent]. }
      subst infos.
      assert (Ename : name
                      = (Path.basename (Path.rstrip_sep (abspath dir))
                           ++ ".info")%string).
      { fold name in En. rewrite En. reflexivity. }
      destruct (@check_step_catalog formats fs dir
                  (check_file_format formats fs entries dir) name [])
        as [Hi1 [Hd1 Hfm1]].
      { rewrite Ename. apply endswith_append. }
      { exact Hdir. }
      { exact Hm. }
      { exact Hi. }
      { apply dict_mem_true. unfold dict_mem. now rewrite Hd. }
      cbv zeta in Hi1, Hd1, Hfm1. rewrite Hd in Hd1.
      assert (Efls : check_file_format formats fsw
                                       (entries ++ [name]) dir
                     = check_step formats fs dir
                         (check_file_format formats fs entries dir) name).
      { unfold check_file_format. rewrite fold_left_app. reflexivity. }
      eexists. split.
      * apply init_load_same with (entries := entries ++ [name])
                                  (infos := [name])
                                  (dd := dd) (dd' := dd') (fncol := c);
          first [ assumption | exact Hfile1 | exact Hread1 | exact Hc
                | rewrite Efls;
                  first [exact Hi1 | exact Hd1 | rewrite Hfm1; exact Hcov] ].
      * cbn [info_table table_update new_files]. repeat split.
  - (* nothing was written *)
    unfold write_info_table in Hw. rewrite U in Hw.
    unfold outcome, ret in Hw. cbn [snd] in Hw. inversion Hw; subst fs1.
    exists st1. split; [exact H1|]. split; [reflexivity|].
    split; [exact U|]. split.
    + destruct C as [[_ [_ [X _]]]|[[_ [T [fncol X]]]|[_ [T [fncol X]]]]].
      * congruence.
      * tauto.
      * destruct X as [_ [_ [_ [_ [X _]]]]]. congruence.
    + unfold write_info_table. now rewrite U.
Qed.

End SecondRun.

Lemma second_run_clean_witness :
  exists st2,
    outcome (init Examples.formats Examples.collectors Examples.abspath_cwd
                  (fs_write Examples.abspath_cwd Examples.disk_first_run_cwd
                            "/data" "data.info"
                            (info_table Examples.st_first_run_cwd))
                  "." []) = Ok st2 /\
    info_table st2 = info_table Examples.st_first_run_cwd /\
    table_update st2 = false.
Proof.
  destruct (@second_run_clean Examples.formats Examples.collectors
              Examples.abspath_cwd Examples.disk_first_run_cwd "." []
              Examples.st_first_run_cwd
              (fs_write Examples.abspath_cwd Examples.disk_first_run_cwd
                        "/data" "data.info"
                        (info_table Examples.st_first_run_cwd)))
    as [st2 [H [Ht [Hu _]]]].
  - reflexivity.
  - reflexivity.
  - reflexivity.
  - reflexivity.
  - reflexivity.
  - intros entries d H Hin. vm_compute in H. inversion H; subst entries.
    destruct Hin as [<-|[]]. vm_compute. discriminate.
  - intros k kc [E|[E|[]]]; inversion E; reflexivity.
  - exists st2. auto.
Defined.

(** C2 fails as stated: on a directory with one data file and no catalog,
    a second run right after the first (nothing written in between) builds
    the same table again and marks it, and [write_info_table] writes. *)
Lemma second_run_still_dirty :
  exists st1 st2,
    outcome (Examples.run Examples.disk_first_run) = Ok st1 /\
    outcome (Examples.run Examples.disk_first_run) = Ok st2 /\
    info_table st2 = info_table st1 /\
    table_update st2 = true /\
    log (write_info_table Examples.abspath Examples.disk_first_run st2)
    = [EvWrite "/data/data.info"].
Proof.
  eexists. eexists. split; [reflexivity|]. split; [reflexivity|].
  repeat split; reflexivity.
Qed.

(* ------------------------------------------------------------------ *)
(** ** Every recognised file has a row *)

Section Coverage.
Variable formats : dict DataFormat.
Variable info_name_list : dict InfoCollector.
Variable abspath : string -> string.

(** X24. A regular entry that a format recognises is in the format map and
    has a row in the table [__init__] returns. Its suffix plays no part:
    this holds for a file with the catalog suffix as for any other. *)
Lemma recognised_file_has_row fs dir add st entries fn fl1 k kc fl2 :
  outcome (init formats info_name_list abspath fs dir add) = Ok st ->
  fs_listdir fs dir = Some entries ->
  In fn entries ->
  fs_isdir fs (Path.join dir fn) = false ->
  formats = fl1 ++ (k, kc) :: fl2 ->
  (forall k' kc', In (k', kc') fl1 ->
                  is_format kc' (Path.join dir fn) = false) ->
  is_format kc (Path.join dir fn) = true ->
  k <> "info" ->
  k <> "data_dir" ->
  In fn (dict_keys (get_format_map (files st))) /\
  exists c, column "filename" (info_table st) = Some c /\ In (Val fn) c.
Proof.
  intros H Hl Hin Hd Hf Hn Hy Ki Kd.
  pose proof H as C. apply init_cases in C.
  destruct C as [entries' [infos [dd [dd' C]]]]. cbv zeta in C.
  destruct C as [Hl' [_ [_ [_ [_ [_ [_ [Ef _]]]]]]]].
  rewrite Hl in Hl'. inversion Hl'; subst entries'.
  assert (L : exists l, In (k, l) (check_file_format formats fs entries dir)
                        /\ In fn l)
    by (eapply check_file_format_lists; eassumption).
  destruct L as [l [I Hfn]].
  assert (K : In fn (dict_keys (get_format_map (files st)))).
  { apply get_format_map_keys. exists k, l. split; [|split; assumption].
    rewrite Ef. clear - I Kd.
    induction (check_file_format formats fs entries dir) as [|[k0 l0] r IH];
      [destruct I|].
    cbn [dict_set]. destruct (k0 =? "data_dir") eqn:E.
    - destruct I as [I|I]; [|now right].
      inversion I; subst. apply String.eqb_eq in E. contradiction.
    - destruct I as [I|I]; [now left|right; auto]. }
  split; [exact K|].
  apply init_covers in H. destruct H as [c [Hc Hcov]].
  exists c. split; [exact Hc|].
  destruct (existsb (cell_eqb (Val fn)) c) eqn:E.
  - apply existsb_exists in E. destruct E as [x [Hx Ex]].
    destruct x as [|v]; simpl in Ex; [discriminate|].
    apply String.eqb_eq in Ex. now subst.
  - exfalso. assert (X : In fn (delta (get_format_map (files st)) c)).
    { unfold delta. apply filter_In. split; [exact K|]. now rewrite E. }
    rewrite Hcov in X. destruct X.
Qed.

End Coverage.

(* ------------------------------------------------------------------ *)
(** ** get_col_collector *)

Section CollectorFacts.
Variable info_name_list : dict InfoCollector.

Lemma get_col_collector_fold cols d k :
  dict_get k
    (fold_left (fun d coln =>
                  match dict_get coln info_name_list with
                  | Some c => dict_set coln c d
                  | None => d
                  end) cols d)
  = if mem k cols
    then match dict_get k info_name_list with
         | Some c => Some c
         | None => dict_get k d
         end
    else dict_get k d.
Proof.
  revert d. induction cols as [|c0 r IH]; intros d; [reflexivity|].
  cbn [fold_left mem existsb]. fold (mem k r). rewrite IH.
  destruct (k =? c0) eqn:E.
  - apply String.eqb_eq in E. subst c0. cbn [orb].
    destruct (dict_get k info_name_list) as [c|] eqn:L.
    + rewrite dict_get_set_eq. now destruct (mem k r).
    + now destruct (mem k r).
  - cbn [orb]. apply String.eqb_neq in E.
    destruct (dict_get c0 info_name_list) as [c|]; [|reflexivity].
    rewrite dict_get_set_neq by assumption. reflexivity.
Qed.

Lemma get_col_collector_NoDup cols :
  NoDup (dict_keys (get_col_collector info_name_list cols)).
Proof.
  unfold get_col_collector.
  assert (G : forall d : dict InfoCollector,
             NoDup (dict_keys d) ->
             NoDup (dict_keys
                      (fold_left
                         (fun d coln =>
                            match dict_get coln info_name_list with
                            | Some c => dict_set coln c d
                            | None => d
                            end) cols d))).
  { induction cols as [|c0 r IH]; intros d ND; [assumption|].
    cbn [fold_left]. apply IH.
    destruct (dict_get c0 info_name_list); [|assumption].
    now apply dict_set_NoDup. }
  apply G. constructor.
Qed.

Lemma get_col_collector_lookup cols k :
  dict_get k (get_col_collector info_name_list cols)
  = if mem k cols then dict_get k info_name_list else None.
Proof.
  unfold get_col_collector. rewrite get_col_collector_fold.
  cbn [dict_get]. destruct (mem k cols); [|reflexivity].
  now destruct (dict_get k info_name_list).
Qed.

(** X1. The collectors [get_col_collector] returns: a requested name has
    the collector the registry has for it; a name the registry does not
    have, or that was not requested, has none (it is dropped without an
    error); no name comes twice. *)
Theorem get_col_collector_get cols :
  (forall k, dict_get k (get_col_collector info_name_list cols)
             = if mem k cols then dict_get k info_name_list else None) /\
  NoDup (dict_keys (get_col_collector info_name_list cols)).
Proof.
  split; [|apply get_col_collector_NoDup].
  intros k. unfold get_col_collector. rewrite get_col_collector_fold.
  cbn [dict_get]. destruct (mem k cols); [|reflexivity].
  now destruct (dict_get k info_name_list).
Qed.

End CollectorFacts.

(* ------------------------------------------------------------------ *)
(** ** The categories of the scan *)

Section CategoryFacts.
Variable formats : dict DataFormat.
Variable fs : FileSystem.
Variable dir : string.

Lemma format_loop_get_other fl f fn ff k :
  ~ In k (dict_keys fl) ->
  dict_get k (format_loop fl f fn ff) = dict_get k ff.
Proof.
  revert ff. induction fl as [|[k0 kc] r IH]; intros ff N; [reflexivity|].
  cbn [format_loop]. simpl in N.
  assert (K : k <> k0) by (intros ->; tauto).
  assert (E : dict_get k (if dict_mem k0 ff then ff else dict_set k0 [] ff)
              = dict_get k ff).
  { destruct (dict_mem k0 ff); [reflexivity|].
    now apply dict_get_set_neq. }
  destruct (is_format kc f).
  - rewrite dict_append_get_neq by assumption. exact E.
  - rewrite IH by tauto. exact E.
Qed.

Lemma check_loop_info fns ff acc :
  ~ In "info" (dict_keys formats) ->
  dict_get "info" ff = Some acc ->
  dict_get "info" (fold_left (check_step formats fs dir) fns ff)
  = Some (acc ++ filter (fun fn => Path.endswith fn ".info") fns).
Proof.
  intros N. revert ff acc. induction fns as [|fn r IH]; intros ff acc H.
  - simpl. now rewrite app_nil_r.
  - cbn [fold_left filter].
    assert (S : dict_get "info" (check_step formats fs dir ff fn)
                = Some (if Path.endswith fn ".info" then acc ++ [fn]
                        else acc)).
    { unfold check_step.
      assert (E : dict_get "info"
                    (if Path.endswith fn ".info"
                     then dict_append "info" fn ff else ff)
                  = Some (if Path.endswith fn ".info" then acc ++ [fn]
                          else acc)).
      { destruct (Path.endswith fn ".info"); [|assumption].
        now apply dict_append_get_eq. }
      destruct (fs_isdir fs (Path.join dir fn)).
      - rewrite dict_append_get_neq by discriminate. exact E.
      - rewrite format_loop_get_other by assumption. exact E. }
    rewrite (IH _ _ S).
    destruct (Path.endswith fn ".info"); [|reflexivity].
    now rewrite <- app_assoc.
Qed.

Lemma check_loop_data_dir fns ff acc :
  ~ In "data_dir" (dict_keys formats) ->
  dict_get "data_dir" ff = Some acc ->
  dict_get "data_dir" (fold_left (check_step formats fs dir) fns ff)
  = Some (acc ++ filter (fun fn => fs_isdir fs (Path.join dir fn)) fns).
Proof.
  intros N. revert ff acc. induction fns as [|fn r IH]; intros ff acc H.
  - simpl. now rewrite app_nil_r.
  - cbn [fold_left filter].
    assert (S : dict_get "data_dir" (check_step formats fs dir ff fn)
                = Some (if fs_isdir fs (Path.join dir fn) then acc ++ [fn]
                        else acc)).
    { unfold check_step.
      assert (E : dict_get "data_dir"
                    (if Path.endswith fn ".info"
                     then dict_append "info" fn ff else ff)
                  = Some acc).
      { destruct (Path.endswith fn ".info"); [|assumption].
        rewrite dict_append_get_neq by discriminate. assumption. }
      destruct (fs_isdir fs (Path.join dir fn)).
      - now apply dict_append_get_eq.
      - rewrite format_loop_get_other by assumption. exact E. }
    rewrite (IH _ _ S).
    destruct (fs_isdir fs (Path.join dir fn)); [|reflexivity].
    now rewrite <- app_assoc.
Qed.

(** X2. When no format is registered under the names ['info'] and
    ['data_dir'], the scan lists under ['info'] exactly the entries with
    the catalog suffix and under ['data_dir'] exactly the entries that are
    directories, both in the order of the listing. *)
Theorem check_file_format_categories entries :
  ~ In "info" (dict_keys formats) ->
  ~ In "data_dir" (dict_keys formats) ->
  dict_get "info" (check_file_format formats fs entries dir)
  = Some (filter (fun fn => Path.endswith fn ".info") entries) /\
  dict_get "data_dir" (check_file_format formats fs entries dir)
  = Some (filter (fun fn => fs_isdir fs (Path.join dir fn)) entries).
Proof.
  intros Ni Nd. unfold check_file_format. split.
  - now rewrite check_loop_info with (acc := []).
  - now rewrite check_loop_data_dir with (acc := []).
Qed.

(** The loop over the formats lists a file under the first format that
    recognises it and under no other. *)
Lemma format_loop_placed entries fl fn ff :
  first_match formats (Path.join dir fn) = first_match fl (Path.join dir fn) ->
  In fn entries ->
  fs_isdir fs (Path.join dir fn) = false ->
  (forall tp l x, In (tp, l) ff -> In x l ->
                  In x entries /\ placed formats fs dir tp x) ->
  forall tp l x,
    In (tp, l) (format_loop fl (Path.join dir fn) fn ff) -> In x l ->
    In x entries /\ placed formats fs dir tp x.
Proof.
  intros Hfm Hfn Hd. revert ff Hfm.
  induction fl as [|[k kc] r IH]; intros ff Hfm H; [exact H|].
  cbn [format_loop first_match] in *.
  assert (H' : forall tp l x,
             In (tp, l) (if dict_mem k ff then ff else dict_set k [] ff) ->
             In x l -> In x entries /\ placed formats fs dir tp x).
  { destruct (dict_mem k ff); [assumption|].
    intros tp l x I Hx. apply dict_set_In in I. destruct I as [I|I].
    - inversion I; subst. destruct Hx.
    - eapply H; eauto. }
  destruct (is_format kc (Path.join dir fn)) eqn:Ef.
  - intros tp l x I Hx. apply dict_append_In in I.
    destruct I as [I|[-> [l0 [I ->]]]].
    + eapply H'; eauto.
    + apply in_app_or in Hx. destruct Hx as [Hx|[<-|[]]].
      * eapply H'; eauto.
      * split; [assumption|]. right. right. auto.
  - apply IH; assumption.
Qed.

Lemma check_loop_placed entries fns ff :
  incl fns entries ->
  (forall tp l x, In (tp, l) ff -> In x l ->
                  In x entries /\ placed formats fs dir tp x) ->
  forall tp l x,
    In (tp, l) (fold_left (check_step formats fs dir) fns ff) ->
    In x l -> In x entries /\ placed formats fs dir tp x.
Proof.
  revert ff. induction fns as [|fn r IH]; intros ff Hi H; [exact H|].
  cbn [fold_left]. apply IH; [intros y Hy; apply Hi; now right|].
  assert (Hfn : In fn entries) by (apply Hi; now left).
  unfold check_step.
  assert (H' : forall tp l x,
             In (tp, l) (if Path.endswith fn ".info"
                         then dict_append "info" fn ff else ff) ->
             In x l -> In x entries /\ placed formats fs dir tp x).
  { destruct (Path.endswith fn ".info") eqn:E; [|assumption].
    intros tp0 l0 x0 I Hx. apply dict_append_In in I.
    destruct I as [I|[-> [l1 [I ->]]]].
    - eapply H; eauto.
    - apply in_app_or in Hx. destruct Hx as [Hx|[<-|[]]].
      + eapply H; eauto.
      + split; [assumption|]. left. auto. }
  destruct (fs_isdir fs (Path.join dir fn)) eqn:Ed.
  - intros tp0 l0 x0 I Hx. apply dict_append_In in I.
    destruct I as [I|[-> [l1 [I ->]]]].
    + eapply H'; eauto.
    + apply in_app_or in Hx. destruct Hx as [Hx|[<-|[]]].
      * eapply H'; eauto.
      * split; [assumption|]. right. left. auto.
  - apply format_loop_placed; auto.
Qed.

Lemma scan_start_placed entries tp l x :
  In (tp, l) [("data_dir", []); ("info", [])] -> In x l ->
  In x entries /\ placed formats fs dir tp x.
Proof. intros [I|[I|[]]] Hx; inversion I; subst; destruct Hx. Qed.

(** X3. Everything the scan lists is an entry of the directory, and it is
    listed where the code puts it: under ['info'] for its suffix, under
    ['data_dir'] when it is a directory (a directory is never shown to the
    format matchers), and, a regular file, under the first format in
    registry order that recognises it, never under a later one. *)
Theorem check_file_format_placed entries tp l x :
  In (tp, l) (check_file_format formats fs entries dir) ->
  In x l ->
  In x entries /\ placed formats fs dir tp x.
Proof.
  intros I Hx. unfold check_file_format in I.
  revert tp l x I Hx. apply check_loop_placed; [apply incl_refl|].
  apply scan_start_placed.
Qed.

Lemma format_loop_first fl f fn ff k :
  first_match fl f = Some k ->
  exists l, In (k, l) (format_loop fl f fn ff) /\ In fn l.
Proof.
  revert ff. induction fl as [|[k0 kc] r IH]; intros ff H; [discriminate|].
  cbn [format_loop first_match] in *.
  destruct (is_format kc f).
  - inversion H; subst k0. apply dict_append_listed.
    destruct (dict_mem k ff) eqn:E; [now apply dict_mem_true|].
    apply dict_keys_set. now left.
  - now apply IH.
Qed.

Lemma check_loop_listed entries fn tp :
  In fn entries ->
  (forall ff, In "info" (dict_keys ff) -> In "data_dir" (dict_keys ff) ->
              exists l, In (tp, l) (check_step formats fs dir ff fn) /\
                        In fn l) ->
  exists l, In (tp, l) (check_file_format formats fs entries dir) /\ In fn l.
Proof.
  intros Hin Hs. unfold check_file_format.
  apply in_split in Hin. destruct Hin as [e1 [e2 ->]].
  rewrite fold_left_app. cbn [fold_left].
  set (ff := fold_left (check_step formats fs dir) e1 _).
  destruct (Hs ff) as [l [I Hl]];
    try (apply check_loop_keys; simpl; tauto).
  exact (check_loop_grows formats fs dir e2 _ _ _ _ I Hl).
Qed.

Lemma check_file_format_lists_dir entries fn :
  In fn entries ->
  fs_isdir fs (Path.join dir fn) = true ->
  exists l, In ("data_dir", l) (check_file_format formats fs entries dir) /\
            In fn l.
Proof.
  intros Hin Hd. apply check_loop_listed; [assumption|].
  intros ff Ki Kd. unfold check_step. rewrite Hd.
  apply dict_append_listed.
  destruct (Path.endswith fn ".info"); [|assumption].
  now rewrite dict_append_keys.
Qed.

(** X4. No entry is lost where the code has a place for it: every entry
    with the catalog suffix is listed under ['info'], every directory under
    ['data_dir'], and every regular file some format recognises under the
    first such format. *)
Theorem check_file_format_complete entries fn :
  In fn entries ->
  (Path.endswith fn ".info" = true ->
   exists l, In ("info", l) (check_file_format formats fs entries dir) /\
             In fn l) /\
  (fs_isdir fs (Path.join dir fn) = true ->
   exists l, In ("data_dir", l) (check_file_format formats fs entries dir) /\
             In fn l) /\
  (forall k, fs_isdir fs (Path.join dir fn) = false ->
             first_match formats (Path.join dir fn) = Some k ->
             exists l, In (k, l) (check_file_format formats fs entries dir) /\
                       In fn l).
Proof.
  intros Hin. split; [|split].
  - intros He. apply check_loop_listed; [assumption|].
    intros ff Ki Kd. unfold check_step. rewrite He.
    destruct (dict_append_listed "info" fn ff Ki) as [l [I Hl]].
    destruct (fs_isdir fs (Path.join dir fn)).
    + exact (dict_append_grows "data_dir" fn _ _ _ _ I Hl).
    + exact (format_loop_grows formats _ _ _ _ _ _ I Hl).
  - intros Hd. now apply check_file_format_lists_dir.
  - intros k Hd Hk. apply check_loop_listed; [assumption|].
    intros ff Ki Kd. unfold check_step. rewrite Hd.
    now apply format_loop_first.
Qed.

End CategoryFacts.

(* ------------------------------------------------------------------ *)
(** ** get_format_map and the loop over the subdirectories *)

Lemma dict_update_get_In {V} (bs : dict V) d k v :
  dict_get k (dict_update bs d) = Some v ->
  In (k, v) bs \/ dict_get k d = Some v.
Proof.
  revert d. induction bs as [|[k0 v0] r IH]; intros d H; [now right|].
  unfold dict_update in *. cbn [fold_left fst snd] in H.
  apply IH in H. destruct H as [H|H]; [left; now right|].
  destruct (string_dec k k0) as [->|N].
  - rewrite dict_get_set_eq in H. inversion H. left. now left.
  - rewrite dict_get_set_neq in H by assumption. now right.
Qed.

Lemma get_format_map_get fls k tp :
  dict_get k (get_format_map fls) = Some tp ->
  exists l, In (tp, l) fls /\ tp <> "info" /\ In k l.
Proof.
  intros H. rewrite get_format_map_eq in H.
  apply dict_update_get_In in H. destruct H as [H|H]; [|discriminate].
  unfold flat_pairs, data_entries in H. apply in_flat_map in H.
  destruct H as [[tp' l] [I H]]. apply filter_In in I. destruct I as [I N].
  cbn [fst snd] in *. apply in_map_iff in H. destruct H as [x [E Hx]].
  inversion E; subst. exists l. repeat split; auto.
  intros ->. discriminate.
Qed.

(** X5. The format map has one entry per name; its names are the names
    listed under a category other than ['info'], and the format it gives a
    name is a category that lists it. *)
Theorem get_format_map_sound fls :
  NoDup (dict_keys (get_format_map fls)) /\
  (forall k, In k (dict_keys (get_format_map fls)) <->
             exists tp l, In (tp, l) fls /\ tp <> "info" /\ In k l) /\
  (forall k tp, dict_get k (get_format_map fls) = Some tp ->
                exists l, In (tp, l) fls /\ tp <> "info" /\ In k l).
Proof.
  split; [apply get_format_map_NoDup|]. split; [apply get_format_map_keys|].
  apply get_format_map_get.
Qed.

Lemma list_remove_In_neq x y l : x <> y -> In x l -> In x (list_remove y l).
Proof.
  intros N. induction l as [|z r IH]; [tauto|]. cbn [list_remove].
  destruct (z =? y) eqn:E.
  - apply String.eqb_eq in E. subst z. intros [H|H]; [congruence|assumption].
  - intros [H|H]; [now left|right; auto].
Qed.

Lemma list_remove_NoDup_notin x l : NoDup l -> ~ In x (list_remove x l).
Proof.
  induction 1 as [|y r N ND IH]; [tauto|]. cbn [list_remove].
  destruct (y =? x) eqn:E.
  - apply String.eqb_eq in E. now subst.
  - apply String.eqb_neq in E. intros [H|H]; [congruence|tauto].
Qed.

Section PruneMore.
Variable fs : FileSystem.
Variable dir : string.

Lemma prune_loop_keeps fuel i l l' d sub :
  outcome (prune_loop fs dir fuel i l) = Ok l' ->
  In d l ->
  fs_listdir fs (Path.join dir d) = Some sub ->
  has_info sub = true ->
  In d l'.
Proof.
  revert i l. induction fuel as [|n IH]; intros i l H Hd Hl Hi.
  - simpl in H. inversion H. now subst.
  - cbn [prune_loop] in H.
    destruct (nth_error l i) as [d0|] eqn:E; [|inversion H; now subst].
    unfold listdir in H.
    destruct (fs_listdir fs (Path.join dir d0)) as [sub0|] eqn:L0;
      [|discriminate H].
    rewrite bind_ret in H.
    destruct (existsb (fun ff => Path.endswith ff ".info") sub0) eqn:X.
    + eapply IH; eauto.
    + eapply IH; [exact H| |exact Hl|exact Hi].
      apply list_remove_In_neq; [|assumption].
      intros ->. rewrite Hl in L0. inversion L0; subst sub0.
      unfold has_info in Hi. congruence.
Qed.

(** X6. The loop over the subdirectories adds no name and never removes a
    subdirectory that holds a catalog file. *)
Theorem prune_loop_keeps_catalog fuel i l l' :
  outcome (prune_loop fs dir fuel i l) = Ok l' ->
  incl l' l /\
  (forall d sub, In d l ->
                 fs_listdir fs (Path.join dir d) = Some sub ->
                 has_info sub = true ->
                 In d l').
Proof.
  intros H. split; [eapply prune_loop_incl; eauto|].
  intros d sub. intros Hd Hl Hi. eapply prune_loop_keeps; eauto.
Qed.

Lemma prune_loop_removes fuel done pre d post sub l' :
  NoDup (done ++ pre ++ d :: post) ->
  List.length pre < fuel ->
  (forall p, In p pre ->
             exists s, fs_listdir fs (Path.join dir p) = Some s /\
                       has_info s = true) ->
  fs_listdir fs (Path.join dir d) = Some sub ->
  has_info sub = false ->
  outcome (prune_loop fs dir fuel (List.length done)
                      (done ++ pre ++ d :: post)) = Ok l' ->
  ~ In d l'.
Proof.
  revert done pre. induction fuel as [|n IH]; intros done pre ND Hf Hp Hl Hi H;
    [lia|].
  cbn [prune_loop] in H.
  destruct pre as [|p pre'].
  - cbn [app] in *.
    rewrite nth_error_app2 in H by lia. rewrite Nat.sub_diag in H.
    cbn [nth_error] in H. unfold listdir in H. rewrite Hl, bind_ret in H.
    fold (has_info sub) in H. rewrite Hi in H.
    apply prune_loop_incl in H. intros I. apply H in I.
    revert I. now apply list_remove_NoDup_notin.
  - cbn [app] in *.
    rewrite nth_error_app2 in H by lia. rewrite Nat.sub_diag in H.
    cbn [nth_error] in H. unfold listdir in H.
    destruct (Hp p) as [s [Ls Is]]; [now left|].
    rewrite Ls, bind_ret in H. fold (has_info s) in H. rewrite Is in H.
    replace (done ++ p :: pre' ++ d :: post)
      with ((done ++ [p]) ++ pre' ++ d :: post) in H, ND
      by (now rewrite <- app_assoc).
    replace (S (List.length done)) with (List.length (done ++ [p])) in H
      by (rewrite length_app; simpl; lia).
    eapply IH; [exact ND| | |exact Hl|exact Hi|exact H].
    + simpl in Hf. lia.
    + intros q Hq. apply Hp. now right.
Qed.

(** X7. The first subdirectory without a catalog file is discarded: when
    the subdirectories listed before it all hold one, it is not in the
    list the loop leaves. *)
Theorem prune_loop_removes_first pre d post sub l' :
  NoDup (pre ++ d :: post) ->
  (forall p, In p pre ->
             exists s, fs_listdir fs (Path.join dir p) = Some s /\
                       has_info s = true) ->
  fs_listdir fs (Path.join dir d) = Some sub ->
  has_info sub = false ->
  outcome (prune_loop fs dir (List.length (pre ++ d :: post)) 0
                      (pre ++ d :: post)) = Ok l' ->
  ~ In d l'.
Proof.
  intros ND Hp Hl Hi H.
  apply (@prune_loop_removes (List.length (pre ++ d :: post)) [] pre d post
           sub l'); auto.
  rewrite length_app. simpl. lia.
Qed.

End PruneMore.

(* ------------------------------------------------------------------ *)
(** ** More on add_columns *)

Lemma dict_update_keys_new {V} (bs d : dict V) :
  NoDup (dict_keys bs) ->
  (forall k, In k (dict_keys bs) -> ~ In k (dict_keys d)) ->
  dict_keys (dict_update bs d) = dict_keys d ++ dict_keys bs.
Proof.
  revert d. induction bs as [|[k v] r IH]; intros d ND H.
  - simpl. now rewrite app_nil_r.
  - unfold dict_update in *. cbn [fold_left fst snd].
    inversion ND as [|? ? N ND']; subst.
    rewrite dict_set_absent by (apply H; now left).
    rewrite IH; [|assumption|].
    + unfold dict_keys. rewrite map_app. simpl. now rewrite <- app_assoc.
    + intros k' Hk' I. unfold dict_keys in I. rewrite map_app in I.
      apply in_app_or in I. destruct I as [I|[<-|[]]].
      * apply (H k'); [now right|assumption].
      * contradiction.
Qed.

Lemma record_names_spec ks cnames :
  (exists extra, record_names ks cnames = cnames ++ extra) /\
  (forall k, In k ks -> In k (record_names ks cnames)) /\
  (NoDup cnames -> NoDup (record_names ks cnames)).
Proof.
  unfold record_names. revert cnames.
  induction ks as [|k r IH]; intros cnames.
  - simpl. split; [exists []; now rewrite app_nil_r|]. split; tauto.
  - cbn [fold_left]. destruct (mem k cnames) eqn:E.
    + destruct (IH cnames) as [[extra He] [Hin Hnd]].
      split; [now exists extra|]. split; [|assumption].
      intros k' [<-|Hk']; [|auto].
      rewrite He. apply in_or_app. left. now apply mem_true.
    + destruct (IH (cnames ++ [k])) as [[extra He] [Hin Hnd]].
      split; [exists ([k] ++ extra); now rewrite He, <- app_assoc|].
      split.
      * intros k' [<-|Hk']; [|auto].
        rewrite He. apply in_or_app. left. apply in_or_app. right. now left.
      * intros ND. apply Hnd. apply NoDup_app; auto.
        -- repeat constructor. simpl. tauto.
        -- intros a Ha [<-|[]]. apply mem_false in E. contradiction.
Qed.

Section AddColumnsMore.
Variable formats : dict DataFormat.
Variable dir : string.
Variable cs : dict InfoCollector.


(** X9. With [overwrite] false a successful [add_columns] leaves every
    column the table had as it was, keeps the columns in their order with
    the computed ones added after them in the order of the collectors,
    keeps the metadata, and gives every computed column one cell per
    row. *)
Theorem add_columns_frame cnames t t' cn' :
  outcome (add_columns formats dir cnames cs t false) = Ok (t', cn') ->
  (forall k, In k (keys t) -> column k t' = column k t) /\
  keys t' = keys t ++ computed cs t false /\
  meta t' = meta t /\
  (forall k, In k (computed cs t false) ->
             exists c, column k t' = Some c /\
                       forall fns fmts,
                         column "filename" t = Some fns ->
                         column "fileformat" t = Some fmts ->
                         List.length c = List.length (combine fns fmts)).
Proof.
  intros H. pose proof H as H0. apply add_columns_ok_inv in H0.
  destruct H0 as [fns [fmts [Hn [Hf F]]]].
  rewrite add_columns_ok with (fns := fns) (fmts := fmts) in H by assumption.
  unfold outcome in H. cbn [snd] in H. inversion H; subst t' cn'. clear H.
  split; [|split; [|split]].
  - intros k Hk. apply with_columns_other. intros I.
    apply computed_In in I. destruct I as [_ I]. unfold colliding in I.
    apply mem_true in Hk. rewrite Hk in I. discriminate.
  - unfold keys, with_columns. cbn [columns].
    rewrite dict_update_keys_new.
    + now rewrite extend_keys.
    + rewrite extend_keys. apply computed_NoDup.
    + intros k Hk I. rewrite extend_keys in Hk. apply computed_In in Hk.
      destruct Hk as [_ Hk]. unfold colliding in Hk.
      apply mem_true in I. unfold keys in Hk. rewrite I in Hk. discriminate.
  - reflexivity.
  - intros k Hk. eexists. split; [now apply with_columns_computed|].
    intros fns' fmts' Hn' Hf'. rewrite Hn in Hn'. rewrite Hf in Hf'.
    inversion Hn'; inversion Hf'; subst. apply length_map.
Qed.

(** X10. A successful [add_columns] leaves [self.col_names] with the names
    it had, in their order, followed by the computed columns it lacked;
    every computed column is in it, and no name is entered twice. *)
Theorem add_columns_col_names cnames t ov t' cn' :
  outcome (add_columns formats dir cnames cs t ov) = Ok (t', cn') ->
  (exists extra, cn' = cnames ++ extra) /\
  (forall k, In k (computed cs t ov) -> In k cn') /\
  (NoDup cnames -> NoDup cn').
Proof.
  intros H. pose proof H as H0. apply add_columns_ok_inv in H0.
  destruct H0 as [fns [fmts [Hn [Hf F]]]].
  rewrite add_columns_ok with (fns := fns) (fmts := fmts) in H by assumption.
  unfold outcome in H. cbn [snd] in H. inversion H; subst t' cn'.
  apply record_names_spec.
Qed.

(** X11. A table without the column [filename], or without the column
    [fileformat], makes [add_columns] raise [KeyError] with the name of the
    missing column, after the collision warnings and before any file is
    opened. *)
Theorem add_columns_missing_column cnames t ov :
  (column "filename" t = None ->
   add_columns formats dir cnames cs t ov
   = (warnings cs t ov, Raise (KeyError "filename"))) /\
  (forall fns, column "filename" t = Some fns ->
               column "fileformat" t = None ->
               add_columns formats dir cnames cs t ov
               = (warnings cs t ov, Raise (KeyError "fileformat"))).
Proof.
  split.
  - intros H. unfold add_columns. rewrite init_col_info_eq.
    unfold column in H. unfold getitem. rewrite H.
    unfold bind, raise, warnings. cbn. now rewrite app_nil_r.
  - intros fns Hn Hf. unfold add_columns. rewrite init_col_info_eq.
    unfold column in Hn, Hf. unfold getitem. rewrite Hn, Hf.
    unfold bind, raise, ret, warnings. cbn. now rewrite app_nil_r.
Qed.

(** X12. A row whose format is not in the registry makes [add_columns]
    raise [KeyError] with that format: the rows before it were processed,
    its own file is not opened. *)
Theorem add_columns_unknown_format cnames t ov fns fmts pre fn fmt post :
  column "filename" t = Some fns ->
  column "fileformat" t = Some fmts ->
  combine fns fmts = pre ++ (Val fn, Val fmt) :: post ->
  forallb (row_okb formats dir cs (computed cs t ov)) pre = true ->
  dict_get fmt formats = None ->
  add_columns formats dir cnames cs t ov =
  (warnings cs t ov ++ List.concat (map (row_events dir) pre),
   Raise (KeyError fmt)).
Proof.
  intros Hn Hf Hc F Hk.
  rewrite (@add_columns_raise formats dir cs cnames t ov fns fmts pre
             (Val fn, Val fmt) post [] (KeyError fmt) Hn Hf Hc F).
  - now rewrite app_nil_r.
  - unfold do_row, getitem. cbn [fst snd as_str as_key].
    rewrite !bind_ret. now rewrite Hk.
Qed.

Lemma row_loop_first_raise ks1 k ks2 fmt h ci e :
  forallb (fun k => cell_okb cs k fmt h) ks1 = true ->
  outcome (collect_cell cs k fmt h) = Raise e ->
  row_loop cs (ks1 ++ k :: ks2) fmt h ci = ([], Raise e).
Proof.
  revert ci. induction ks1 as [|k1 r IH]; intros ci F H.
  - cbn [app row_loop]. rewrite collect_cell_eq, H. reflexivity.
  - cbn [app row_loop]. cbn [forallb] in F. apply andb_true_iff in F.
    destruct F as [F1 F2]. unfold cell_okb in F1.
    rewrite collect_cell_eq.
    destruct (outcome (collect_cell cs k1 fmt h)) as [c|e']; [|discriminate].
    rewrite bind_nil. now apply IH.
Qed.

(** X13. A collector whose [collect_method] has no entry for the format of
    a row does not count as "not implemented": [add_columns] raises
    [KeyError] with that format, the file of the row having been opened and
    not closed. *)
Theorem add_columns_no_method
        cnames t ov fns fmts pre fn fmt post kc h ks1 k ks2 c :
  column "filename" t = Some fns ->
  column "fileformat" t = Some fmts ->
  combine fns fmts = pre ++ (Val fn, Val fmt) :: post ->
  forallb (row_okb formats dir cs (computed cs t ov)) pre = true ->
  dict_get fmt formats = Some kc ->
  instantiate_format_cls kc (Path.join dir fn) = Ok h ->
  computed cs t ov = ks1 ++ k :: ks2 ->
  forallb (fun k => cell_okb cs k fmt h) ks1 = true ->
  dict_get k cs = Some c ->
  dict_get fmt (collect_method c) = None ->
  add_columns formats dir cnames cs t ov =
  (warnings cs t ov ++ List.concat (map (row_events dir) pre)
     ++ [EvOpen (Path.join dir fn)],
   Raise (KeyError fmt)).
Proof.
  intros Hn Hf Hc F Hk Ho Hks F1 Hcs Hm.
  apply (@add_columns_raise formats dir cs cnames t ov fns fmts pre
           (Val fn, Val fmt) post); auto.
  unfold do_row, open_format, getitem. cbn [fst snd as_str as_key].
  rewrite !bind_ret, Hk, bind_ret, Ho.
  rewrite extend_keys. fold (computed cs t ov). rewrite Hks.
  change (emit (EvOpen (Path.join dir fn)) ;;; ret h)
    with ([EvOpen (Path.join dir fn)], Ok h).
  unfold bind at 1.
  rewrite row_loop_first_raise with (e := KeyError fmt); auto.
  unfold collect_cell, getitem. rewrite Hcs, bind_ret, Hm. reflexivity.
Qed.

End AddColumnsMore.

(* ------------------------------------------------------------------ *)
(** ** What __init__ logs *)

Lemma log_bind_In {A B} (m : M A) (f : A -> M B) e :
  In e (log (bind m f)) ->
  In e (log m) \/ exists a, outcome m = Ok a /\ In e (log (f a)).
Proof.
  destruct m as [l [a|x]]; simpl.
  - destruct (f a) as [l' r] eqn:E. simpl. intros H.
    apply in_app_or in H. destruct H as [H|H]; [now left|].
    right. exists a. rewrite E. auto.
  - now left.
Qed.

Lemma mapM_getitem_log {V} (d : dict V) l :
  log (mapM (fun f => getitem f d) l) = [].
Proof.
  induction l as [|x r IH]; [reflexivity|]. cbn [mapM].
  unfold getitem at 1. destruct (dict_get x d) as [v|]; [|reflexivity].
  rewrite bind_ret. destruct (mapM (fun f => getitem f d) r) as [l' [ys|e]];
    simpl in *; subst; reflexivity.
Qed.

Lemma opened_in_turn_rows dir fns fmts :
  List.length fns = List.length fmts ->
  List.concat (map (row_events dir) (combine (map Val fns) (map Val fmts)))
  = opened_in_turn dir fns.
Proof.
  revert fmts. induction fns as [|fn r IH]; intros [|fmt fmts] H;
    simpl in *; try discriminate; [reflexivity|].
  unfold row_path. cbn [fst]. f_equal. f_equal. apply IH. lia.
Qed.

Lemma file_events_app l1 l2 :
  file_events (l1 ++ l2) = file_events l1 ++ file_events l2.
Proof. apply filter_app. Qed.

Lemma file_events_opened dir fns :
  file_events (opened_in_turn dir fns) = opened_in_turn dir fns.
Proof.
  induction fns as [|fn r IH]; [reflexivity|].
  unfold opened_in_turn in *. cbn [flat_map app]. unfold file_events in *.
  cbn [filter is_file_event]. now rewrite IH.
Qed.

Lemma file_events_none l :
  (forall e, In e l -> exists m, e = EvWarn m) -> file_events l = [].
Proof.
  induction l as [|e r IH]; intros H; [reflexivity|].
  unfold file_events in *. cbn [filter].
  destruct (H e) as [m ->]; [now left|]. cbn [is_file_event].
  apply IH. intros e' He'. apply H. now right.
Qed.

Lemma lookup_all_length fm nf : List.length (lookup_all fm nf) = List.length nf.
Proof. apply length_map. Qed.

Lemma dict_keys_values_length {V} (d : dict V) :
  List.length (dict_keys d) = List.length (dict_values d).
Proof. unfold dict_keys, dict_values. now rewrite !length_map. Qed.

Section LogFacts.
Variable formats : dict DataFormat.
Variable info_name_list : dict InfoCollector.
Variable abspath : string -> string.

Lemma do_row_log_events dir cs ci r e :
  In e (log (do_row formats dir cs ci r)) ->
  e = EvOpen (row_path dir r) \/ e = EvClose (row_path dir r).
Proof.
  destruct r as [[|fn] [|fmt]]; try (simpl; tauto).
  unfold do_row, open_format, getitem, row_path.
  cbn [fst snd as_str as_key]. rewrite !bind_ret.
  destruct (dict_get fmt formats) as [kc|]; [|simpl; tauto].
  rewrite bind_ret.
  destruct (instantiate_format_cls kc (Path.join dir fn)) as [h|x];
    [|simpl; tauto].
  change (emit (EvOpen (Path.join dir fn)) ;;; ret h)
    with ([EvOpen (Path.join dir fn)], Ok h).
  unfold bind at 1.
  destruct (forallb (fun k => cell_okb cs k fmt h) (dict_keys ci)) eqn:F.
  - rewrite (row_loop_ok cs _ _ _ ci F). simpl. intuition.
  - destruct (row_loop_raise cs _ _ _ ci F) as [x ->]. simpl. intuition.
Qed.

Lemma rows_loop_log_events dir cs rs ci e :
  In e (log (rows_loop formats dir cs rs ci)) ->
  exists p, e = EvOpen p \/ e = EvClose p.
Proof.
  revert ci. induction rs as [|r rs IH]; intros ci H; [destruct H|].
  cbn [rows_loop] in H. apply log_bind_In in H.
  destruct H as [H|[ci' [_ H]]].
  - apply do_row_log_events in H. eexists. exact H.
  - eapply IH; eauto.
Qed.

Lemma add_columns_log_events dir cnames cs t ov e :
  In e (log (add_columns formats dir cnames cs t ov)) ->
  (exists cn, e = EvWarn (collision_warning cn)) \/
  exists p, e = EvOpen p \/ e = EvClose p.
Proof.
  unfold add_columns. rewrite init_col_info_eq. intros H.
  apply log_bind_In in H. destruct H as [H|[ci [_ H]]].
  - left. cbn [log fst] in H. apply in_map_iff in H.
    destruct H as [cn [<- _]]. now exists cn.
  - apply log_bind_In in H. destruct H as [H|[a [_ H]]].
    { unfold getitem in H. destruct (dict_get _ _); destruct H. }
    apply log_bind_In in H. destruct H as [H|[b [_ H]]].
    { unfold getitem in H. destruct (dict_get _ _); destruct H. }
    apply log_bind_In in H. destruct H as [H|[c [_ H]]].
    + right. eapply rows_loop_log_events; eauto.
    + destruct H.
Qed.

Lemma setup_info_table_log_events fs self e :
  In e (log (setup_info_table formats info_name_list fs self)) ->
  (exists cn, e = EvWarn (collision_warning cn)) \/
  exists p, e = EvOpen p \/ e = EvClose p.
Proof.
  unfold setup_info_table. intros H.
  apply log_bind_In in H. destruct H as [H|[dd [_ H]]].
  { unfold getitem in H. destruct (dict_get _ _); destruct H. }
  apply log_bind_In in H. destruct H as [H|[dd' [_ H]]].
  { rewrite prune_loop_eq in H. destruct H. }
  destruct (fs_isfile fs _).
  - apply log_bind_In in H. destruct H as [H|[T [_ H]]].
    { unfold read_table in H. destruct (fs_read_table _ _); destruct H. }
    apply log_bind_In in H. destruct H as [H|[fncol [_ H]]].
    { unfold getitem in H. destruct (dict_get _ _); destruct H. }
    destruct (delta _ fncol) as [|f nf']; [destruct H|].
    apply log_bind_In in H. destruct H as [H|[tps [_ H]]].
    { rewrite mapM_getitem_log in H. destruct H. }
    apply log_bind_In in H. destruct H as [H|[r [_ H]]].
    { eapply add_columns_log_events; eauto. }
    apply log_bind_In in H. destruct H as [H|[t' [_ H]]]; [|destruct H].
    unfold vstack in H. destruct (merge_conflict _ _); destruct H.
  - apply log_bind_In in H. destruct H as [H|[r [_ H]]]; [|destruct H].
    eapply add_columns_log_events; eauto.
Qed.

Lemma init_log_events fs dir add e :
  In e (log (init formats info_name_list abspath fs dir add)) ->
  (exists m, e = EvWarn m) \/ exists p, e = EvOpen p \/ e = EvClose p.
Proof.
  unfold init. intros H.
  apply log_bind_In in H. destruct H as [H|[entries [_ H]]].
  { unfold listdir in H. destruct (fs_listdir _ _); destruct H. }
  apply log_bind_In in H. destruct H as [H|[infos [_ H]]].
  { unfold getitem in H. destruct (dict_get _ _); destruct H. }
  apply log_bind_In in H. destruct H as [H|[name [_ H]]].
  - apply pick_info_file_name_log in H. left. eexists. exact H.
  - apply setup_info_table_log_events in H.
    destruct H as [[cn ->]|H]; [left; eexists; reflexivity|now right].
Qed.

(** X14. [__init__] never writes: whatever the directory holds and however
    the run ends, its log has warnings, openings and closings of files and
    nothing else; the catalog file is written by [write_info_table]
    alone. *)
Theorem init_never_writes fs dir add e :
  In e (log (init formats info_name_list abspath fs dir add)) ->
  (forall p, e <> EvWrite p) /\
  ((exists m, e = EvWarn m) \/ exists p, e = EvOpen p \/ e = EvClose p).
Proof.
  intros H. apply init_log_events in H. split; [|exact H].
  intros p ->. destruct H as [[m H]|[q [H|H]]]; discriminate.
Qed.

(** X15. The files a successful [__init__] opens are the files of the rows
    it computes, each opened once and closed before the next is opened, in
    the order of the rows: every name of the format map when there is no
    catalog file, the new files alone when there is one (the files of the
    stored rows are not opened). *)
Theorem init_opens_new_rows fs dir add st :
  outcome (init formats info_name_list abspath fs dir add) = Ok st ->
  file_events (log (init formats info_name_list abspath fs dir add))
  = opened_in_turn dir
      (if fs_isfile fs (Path.join dir (info_file_name st))
       then new_files st
       else dict_keys (get_format_map (files st))).
Proof.
  intros H.
  pose proof H as H0. apply init_ok_inv in H0.
  destruct H0 as [entries [infos [Hl Hi]]].
  rewrite (@init_eq formats info_name_list abspath fs dir add entries infos
             Hl Hi) in H |- *.
  cbv zeta in H |- *. unfold outcome at 1 in H. cbn [snd] in H.
  unfold log at 1. cbn [fst]. rewrite file_events_app.
  rewrite (file_events_none (log (pick_info_file_name _ infos)))
    by (intros e He; apply pick_info_file_name_log in He; eauto).
  cbn [app].
  pose proof H as H0. apply setup_info_table_ok_inv in H0.
  destruct H0 as [dd [dd' [Hd Hp]]]. cbn [files directory] in Hd, Hp.
  rewrite setup_info_table_eq with (dd := dd) (dd' := dd') in H |- *
    by assumption.
  cbv zeta in H |- *. cbn [directory info_file_name files col_names] in H |- *.
  destruct (fs_isfile fs _) eqn:Ef.
  - destruct (fs_read_table fs _) as [T|]; [|discriminate H].
    destruct (column "filename" T) as [fncol|]; [|discriminate H].
    destruct (delta _ fncol) as [|f nf'] eqn:Ed.
    + unfold outcome in H. cbn [snd] in H. inversion H; subst st.
      cbn [info_file_name new_files]. rewrite Ef. reflexivity.
    + unfold outcome at 1 in H. cbn [snd] in H.
      destruct (outcome (add_columns _ _ _ _ _ _)) as [x|e] eqn:A;
        [|discriminate H].
      destruct (merge_conflict T (fst x)); [discriminate H|].
      inversion H; subst st. cbn [info_file_name new_files]. rewrite Ef.
      unfold new_rows in A. apply add_columns_rows_inv in A.
      destruct A as [_ E]. unfold new_rows. rewrite E.
      unfold log. cbn [fst]. rewrite file_events_app.
      rewrite file_events_none
        by (unfold warnings; intros e He; apply in_map_iff in He;
            destruct He as [cn [<- _]]; eauto).
      cbn [app]. rewrite opened_in_turn_rows
        by (now rewrite lookup_all_length).
      apply file_events_opened.
  - unfold outcome at 1 in H. cbn [snd] in H.
    destruct (outcome (add_columns _ _ _ _ _ _)) as [x|e] eqn:A;
      [|discriminate H].
    inversion H; subst st. cbn [info_file_name files]. rewrite Ef.
    unfold fresh_rows in A. apply add_columns_rows_inv in A.
    destruct A as [_ E]. unfold fresh_rows. rewrite E.
    unfold log. cbn [fst]. rewrite file_events_app.
    rewrite file_events_none
      by (unfold warnings; intros e He; apply in_map_iff in He;
          destruct He as [cn [<- _]]; eauto).
    cbn [app]. rewrite opened_in_turn_rows
      by apply dict_keys_values_length.
    apply file_events_opened.
Qed.

End LogFacts.

(* ------------------------------------------------------------------ *)
(** ** The table and the flag __init__ leaves *)

Lemma dict_get_unique {V} k (v : V) d :
  NoDup (dict_keys d) -> In (k, v) d -> dict_get k d = Some v.
Proof.
  induction d as [|[k' v'] r IH]; simpl; [tauto|].
  intros ND [H|H].
  - inversion H; subst. now rewrite String.eqb_refl.
  - inversion ND as [|? ? NI ND']; subst.
    destruct (k' =? k) eqn:E; [|auto].
    apply String.eqb_eq in E. subst. exfalso. apply NI.
    change k with (fst (k, v)). now apply in_map.
Qed.

Lemma format_loop_NoDup fl f fn ff :
  NoDup (dict_keys ff) -> NoDup (dict_keys (format_loop fl f fn ff)).
Proof.
  revert ff. induction fl as [|[k kc] r IH]; intros ff ND; [assumption|].
  cbn [format_loop].
  assert (ND' : NoDup (dict_keys (if dict_mem k ff then ff
                                  else dict_set k [] ff))).
  { destruct (dict_mem k ff); [assumption|now apply dict_set_NoDup]. }
  destruct (is_format kc f).
  - now rewrite dict_append_keys.
  - now apply IH.
Qed.

Lemma check_file_format_NoDup formats fs entries dir :
  NoDup (dict_keys (check_file_format formats fs entries dir)).
Proof.
  unfold check_file_format.
  assert (G : forall fns ff,
             NoDup (dict_keys ff) ->
             NoDup (dict_keys (fold_left (check_step formats fs dir) fns ff))).
  { induction fns as [|fn r IH]; intros ff ND; [assumption|].
    cbn [fold_left]. apply IH. unfold check_step.
    assert (ND' : NoDup (dict_keys (if Path.endswith fn ".info"
                                    then dict_append "info" fn ff else ff))).
    { destruct (Path.endswith fn ".info"); [|assumption].
      now rewrite dict_append_keys. }
    destruct (fs_isdir fs (Path.join dir fn)).
    - now rewrite dict_append_keys.
    - now apply format_loop_NoDup. }
  apply G. simpl. repeat constructor; simpl; intuition discriminate.
Qed.

Section TableFacts.
Variable formats : dict DataFormat.
Variable info_name_list : dict InfoCollector.
Variable abspath : string -> string.

(** X16. After a successful [__init__], [table_update] is true exactly when
    the table was built from the scan (no catalog file) or rows were
    added to the stored one; with a catalog file the new files are the
    names of the format map that its [filename] column lacks, each once. *)
Theorem init_table_update fs dir add st :
  outcome (init formats info_name_list abspath fs dir add) = Ok st ->
  let fm := get_format_map (files st) in
  let info_file := Path.join dir (info_file_name st) in
  (fs_isfile fs info_file = false ->
   table_update st = true /\ new_files st = []) /\
  (fs_isfile fs info_file = true ->
   exists T fncol,
     fs_read_table fs info_file = Some T /\
     column "filename" T = Some fncol /\
     (forall f, In f (new_files st) <->
                In f (dict_keys fm) /\ ~ In (Val f) fncol) /\
     NoDup (new_files st) /\
     (table_update st = true <-> new_files st <> [])).
Proof.
  intros H. apply init_filenames in H. cbv zeta in *.
  destruct H as [c [Hc [[Hf [Hn [Hu _]]]|[Hf [T [fncol H]]]]]].
  - split; [auto|]. intros X. congruence.
  - split; [intros X; congruence|]. intros _.
    destruct H as [Hr [Hcol [Hn [Hu _]]]]. exists T, fncol.
    repeat (split; [assumption|]). split; [|split].
    + intros f. rewrite Hn. apply delta_In.
    + rewrite Hn. unfold delta. apply NoDup_filter, get_format_map_NoDup.
    + rewrite Hu. destruct (new_files st); simpl; split; congruence.
Qed.


(** X18. An empty directory without a catalog file: [__init__] succeeds
    with a table of no rows (every column is empty), no file is opened,
    the metadata say there is no child, and the table is marked for
    writing. *)
Theorem init_empty_directory fs dir add :
  fs_listdir fs dir = Some [] ->
  fs_isfile fs (Path.join dir
                  (Path.basename (Path.rstrip_sep (abspath dir)) ++ ".info"))
  = false ->
  exists st,
    outcome (init formats info_name_list abspath fs dir add) = Ok st /\
    column "filename" (info_table st) = Some [] /\
    (forall k c, column k (info_table st) = Some c -> c = []) /\
    dict_get "haschild" (meta (info_table st)) = Some (MBool false) /\
    table_update st = true /\
    file_events (log (init formats info_name_list abspath fs dir add)) = [].
Proof.
  intros Hl Hf.
  pose proof (@init_eq formats info_name_list abspath fs dir add [] []
                Hl eq_refl) as E.
  cbv zeta in E.
  rewrite setup_info_table_eq with (dd := []) (dd' := []) in E
    by reflexivity.
  cbv zeta in E.
  cbn [directory directory_abs_path directory_basename info_file_name files
       col_names new_files table_update] in E.
  change (info_name (Path.basename (Path.rstrip_sep (abspath dir))) [])
    with (Path.basename (Path.rstrip_sep (abspath dir)) ++ ".info")%string
    in E.
  rewrite Hf in E.
  change (get_format_map
            (dict_set "data_dir" [] (check_file_format formats fs [] dir)))
    with ([] : dict string) in E.
  set (cs := get_col_collector info_name_list (default_col_names ++ add))
    in *.
  set (t0 := fresh_rows (Path.basename (Path.rstrip_sep (abspath dir))) []
                        (0 <? List.length (@nil string))%nat) in *.
  assert (A : add_columns formats dir (default_col_names ++ add) cs t0 false
              = (warnings cs t0 false ++ [],
                 Ok (with_columns formats dir cs t0 false [],
                     record_names (computed cs t0 false)
                                  (default_col_names ++ add)))).
  { apply (@add_columns_ok formats dir cs (default_col_names ++ add) t0 false
             [] []); reflexivity. }
  rewrite A in E. unfold outcome, log in E. cbn [fst snd] in E.
  eexists. split; [rewrite E; reflexivity|].
  cbn [info_table table_update].
  split; [|split; [|split; [|split]]].
  - rewrite with_columns_kept by (simpl; tauto). reflexivity.
  - intros k c Hc.
    destruct (in_dec string_dec k (computed cs t0 false)) as [I|N].
    + rewrite with_columns_computed in Hc by assumption. now inversion Hc.
    + rewrite with_columns_other in Hc by assumption.
      unfold column, t0, fresh_rows in Hc. cbn [columns dict_get] in Hc.
      destruct ("filename" =? k); [now inversion Hc|].
      destruct ("fileformat" =? k); [now inversion Hc|discriminate].
  - reflexivity.
  - reflexivity.
  - rewrite E. unfold log. cbn [fst]. rewrite app_nil_r, file_events_app.
    rewrite (file_events_none (fst (pick_info_file_name _ [])))
      by (intros e He; apply pick_info_file_name_log in He; eauto).
    apply file_events_none. unfold warnings. intros e He.
    apply in_map_iff in He. destruct He as [cn [<- _]]. eauto.
Qed.

End TableFacts.

(* ------------------------------------------------------------------ *)
(** ** The stored catalog: errors, merge, children, choice of the file *)

Section CatalogFacts.
Variable formats : dict DataFormat.
Variable info_name_list : dict InfoCollector.
Variable abspath : string -> string.

(** X19. A catalog file that does not parse, or that has no [filename]
    column, stops [__init__] with the error of the read ([ParseError],
    [KeyError] on [filename]); no file of the directory is opened and no
    table is built from the scan in its place. *)
Theorem init_corrupt_catalog fs dir add entries dd' :
  let fls := check_file_format formats fs entries dir in
  let name := info_name (Path.basename (Path.rstrip_sep (abspath dir)))
                        (category "info" fls) in
  fs_listdir fs dir = Some entries ->
  outcome (prune_loop fs dir (List.length (category "data_dir" fls)) 0
                      (category "data_dir" fls)) = Ok dd' ->
  fs_isfile fs (Path.join dir name) = true ->
  (fs_read_table fs (Path.join dir name) = None ->
   outcome (init formats info_name_list abspath fs dir add)
   = Raise (ParseError (Path.join dir name)) /\
   file_events (log (init formats info_name_list abspath fs dir add)) = []) /\
  (forall T, fs_read_table fs (Path.join dir name) = Some T ->
             column "filename" T = None ->
             outcome (init formats info_name_list abspath fs dir add)
             = Raise (KeyError "filename") /\
             file_events (log (init formats info_name_list abspath fs dir add))
             = []).
Proof.
  cbv zeta. intros Hl Hp Hf.
  destruct (check_file_format_has formats fs dir entries (k := "info"))
    as [infos Hi]; [now left|].
  destruct (check_file_format_has formats fs dir entries (k := "data_dir"))
    as [dd Hd]; [now right|].
  unfold category in *. rewrite Hi in *. rewrite Hd in Hp.
  pose proof (@init_eq formats info_name_list abspath fs dir add entries infos
                Hl Hi) as E.
  cbv zeta in E.
  rewrite setup_info_table_eq with (dd := dd) (dd' := dd') in E
    by assumption.
  cbv zeta in E.
  cbn [directory directory_abs_path directory_basename info_file_name files
       col_names new_files table_update] in E.
  rewrite Hf in E.
  assert (P : file_events (log (pick_info_file_name
                 (Path.basename (Path.rstrip_sep (abspath dir))) infos)) = [])
    by (apply file_events_none; intros e He;
        apply pick_info_file_name_log in He; eauto).
  split.
  - intros Hr. rewrite Hr in E. rewrite E. unfold outcome, log. cbn [fst snd].
    split; [reflexivity|]. rewrite app_nil_r. exact P.
  - intros T Hr Hc. rewrite Hr, Hc in E. rewrite E.
    unfold outcome, log. cbn [fst snd].
    split; [reflexivity|]. rewrite app_nil_r. exact P.
Qed.

Lemma new_rows_nrows dir cs nf tps :
  nrows (with_columns formats dir cs (new_rows nf tps) false
                      (combine (map Val nf) (map Val tps)))
  = List.length nf.
Proof.
  unfold nrows, with_columns. cbn [columns new_rows].
  rewrite dict_update_head.
  - now rewrite length_map.
  - rewrite extend_keys. apply computed_not_key. simpl. tauto.
Qed.

(** X20. With a catalog file a successful [__init__] returns the stored
    table with one row more per new file, the new rows after the stored
    ones and in the order of [new_files]: every stored column keeps its
    place and its cells; a stored column for which no collector is
    registered has the null in every new row. *)
Theorem init_merge fs dir add st T fncol :
  outcome (init formats info_name_list abspath fs dir add) = Ok st ->
  fs_isfile fs (Path.join dir (info_file_name st)) = true ->
  fs_read_table fs (Path.join dir (info_file_name st)) = Some T ->
  column "filename" T = Some fncol ->
  column "filename" (info_table st)
  = Some (fncol ++ map Val (new_files st)) /\
  (exists extra, keys (info_table st) = keys T ++ extra) /\
  (forall n c,
      column n T = Some c ->
      exists xs,
        List.length xs = List.length (new_files st) /\
        column n (info_table st) = Some (c ++ xs) /\
        (n <> "filename" -> n <> "fileformat" ->
         dict_get n info_name_list = None ->
         xs = repeat Null (List.length (new_files st)))).
Proof.
  intros H Hf Hr Hc. pose proof H as C. apply init_cases in C.
  destruct C as [entries [infos [dd [dd' C]]]]. cbv zeta in C.
  destruct C as [_ [_ [_ [_ [_ [_ [En [Ef C]]]]]]]].
  rewrite <- En in C.
  destruct C as [[X _]|[[_ [T' [fncol' C]]]|[_ [T' [fncol' C]]]]];
    [congruence| |].
  - destruct C as [Hr' [Hc' [_ [Hn [_ Ht]]]]].
    assert (ET : T' = T) by congruence. rewrite ET in Ht. rewrite Ht, Hn.
    split; [now rewrite app_nil_r|]. split; [exists []; now rewrite app_nil_r|].
    intros n c Hcn. exists []. rewrite app_nil_r. auto.
  - destruct C as [Hr' [Hc' [_ [Hn [_ Ht]]]]]. cbv zeta in Ht.
    assert (ET : T' = T) by congruence. rewrite ET in Ht, Hc'.
    assert (EC : fncol' = fncol) by congruence. rewrite EC in Ht, Hn.
    rewrite <- Hn in Ht. rewrite Ht.
    set (tps := lookup_all _ (new_files st)).
    set (curr := get_col_collector info_name_list (keys T)).
    split; [|split].
    + rewrite mark_child_column.
      rewrite stacked_column with (c := fncol) by exact Hc.
      now rewrite new_rows_filename.
    + eexists. unfold keys at 1. rewrite mark_child_columns.
      apply stacked_keys.
    + intros n c Hcn. eexists. split; [|split].
      * apply new_rows_padded. unfold tps. now rewrite lookup_all_length.
      * rewrite mark_child_column. now apply stacked_column.
      * intros N1 N2 Hreg. unfold padded.
        rewrite with_columns_other.
        -- rewrite new_rows_nrows.
           unfold column, new_rows. cbn [columns dict_get].
           apply String.eqb_neq in N1, N2.
           rewrite String.eqb_sym in N1. rewrite String.eqb_sym in N2.
           now rewrite N1, N2.
        -- intros I. apply computed_In in I. destruct I as [I _].
           apply dict_mem_true in I. unfold dict_mem in I.
           unfold curr in I. rewrite get_col_collector_lookup in I.
           destruct (mem n (keys T)); rewrite ?Hreg in I; discriminate.
Qed.

(** X21. A subdirectory that holds a catalog file is a row of the table:
    after a successful [__init__] it is in the format map under
    ['data_dir'] and in the [filename] column, and the metadata say the
    table has a child when the table was built from the scan or the
    subdirectory is one of the new files. *)
Theorem init_child_catalog fs dir add st entries d sub :
  outcome (init formats info_name_list abspath fs dir add) = Ok st ->
  fs_listdir fs dir = Some entries ->
  In d entries ->
  fs_isdir fs (Path.join dir d) = true ->
  fs_listdir fs (Path.join dir d) = Some sub ->
  has_info sub = true ->
  dict_get d (get_format_map (files st)) = Some "data_dir" /\
  (exists c, column "filename" (info_table st) = Some c /\ In (Val d) c) /\
  (fs_isfile fs (Path.join dir (info_file_name st)) = false \/
   In d (new_files st) ->
   dict_get "haschild" (meta (info_table st)) = Some (MBool true)).
Proof.
  intros H Hl Hin Hd Hs Hi. pose proof H as C. apply init_cases in C.
  destruct C as [entries' [infos [dd [dd' C]]]]. cbv zeta in C.
  destruct C as [Hl' [_ [Hdd [Hp [_ [_ [En [Ef C]]]]]]]].
  rewrite Hl in Hl'. inversion Hl'; subst entries'. clear Hl'.
  set (fls := check_file_format formats fs entries dir) in *.
  assert (ND : NoDup (dict_keys fls)) by apply check_file_format_NoDup.
  assert (Idd : In d dd).
  { destruct (check_file_format_lists_dir formats fs dir entries d Hin Hd)
      as [l [I Hl0]]. fold fls in I.
    apply (dict_get_unique _ _ _ ND) in I. rewrite Hdd in I.
    now inversion I. }
  assert (Idd' : In d dd').
  { eapply prune_loop_keeps; eauto. }
  assert (K : In d (dict_keys (get_format_map (files st)))).
  { apply get_format_map_keys. exists "data_dir", dd'.
    split; [|split; [discriminate|assumption]].
    rewrite Ef. apply dict_get_Some_In. apply dict_get_set_eq. }
  assert (G : dict_get d (get_format_map (files st)) = Some "data_dir").
  { destruct (dict_get d (get_format_map (files st))) as [tp|] eqn:E.
    - f_equal.
      destruct (get_format_map_get _ _ E) as [l [I [N Hdl]]].
      rewrite Ef in I. apply dict_set_In in I. destruct I as [I|I].
      + now inversion I.
      + unfold check_file_format in I.
        destruct (@check_loop_placed formats fs dir entries entries _
                    (incl_refl _) (scan_start_placed formats fs dir entries)
                    _ _ _ I Hdl)
          as [_ [[X _]|[[X _]|[X _]]]]; congruence.
    - apply dict_get_None in E. contradiction. }
  split; [exact G|]. split.
  - pose proof H as Cov. apply init_covers in Cov.
    destruct Cov as [c [Hc Hcov]]. exists c. split; [exact Hc|].
    destruct (existsb (cell_eqb (Val d)) c) eqn:E.
    + apply existsb_exists in E. destruct E as [x [Hx Ex]].
      destruct x as [|v]; simpl in Ex; [discriminate|].
      apply String.eqb_eq in Ex. now subst.
    + exfalso. assert (X : In d (delta (get_format_map (files st)) c)).
      { unfold delta. apply filter_In. split; [exact K|]. now rewrite E. }
      rewrite Hcov in X. destruct X.
  - rewrite <- En in C. rewrite <- Ef in C.
    destruct C as [[_ [Hn [_ Ht]]]|[[Y [T [fncol C]]]|[Y [T [fncol C]]]]].
    + intros _. rewrite Ht. unfold with_columns, fresh_rows.
      cbn [meta dict_get]. destruct dd'; [destruct Idd'|reflexivity].
    + destruct C as [_ [_ [_ [Hn _]]]]. intros [X|X]; [congruence|].
      rewrite Hn in X. destruct X.
    + destruct C as [_ [_ [_ [Hn [_ Ht]]]]]. cbv zeta in Ht.
      intros [X|X]; [congruence|]. rewrite Ht. rewrite <- Hn.
      assert (M : mem "data_dir"
                      (lookup_all (get_format_map (files st)) (new_files st))
                  = true).
      { apply mem_true. unfold lookup_all. apply in_map_iff.
        exists d. rewrite G. auto. }
      unfold mark_child. rewrite M. unfold set_meta. cbn [meta].
      apply dict_get_set_eq.
Qed.

(** X22. The catalog file [__init__] works with, when no format is
    registered under the name ['info']: the first entry of the listing
    with the catalog suffix, or, when there is none, the base name of the
    directory with that suffix; the warning about several catalog files
    is logged exactly when two or more entries have the suffix. *)
Theorem init_catalog_choice fs dir add entries :
  fs_listdir fs dir = Some entries ->
  ~ In "info" (dict_keys formats) ->
  let cands := filter (fun fn => Path.endswith fn ".info") entries in
  (forall st,
      outcome (init formats info_name_list abspath fs dir add) = Ok st ->
      info_file_name st
      = match cands with
        | [] => (Path.basename (Path.rstrip_sep (abspath dir))
                   ++ ".info")%string
        | x :: _ => x
        end) /\
  (In (EvWarn (info_warning (hd "" cands)))
      (log (init formats info_name_list abspath fs dir add))
   <-> 2 <= List.length cands).
Proof.
  intros Hl Ni. cbv zeta.
  assert (Hi : dict_get "info" (check_file_format formats fs entries dir)
               = Some (filter (fun fn => Path.endswith fn ".info") entries)).
  { unfold check_file_format. now rewrite check_loop_info with (acc := []). }
  set (cands := filter _ entries) in *.
  pose proof (@init_eq formats info_name_list abspath fs dir add entries cands
                Hl Hi) as E.
  cbv zeta in E. split.
  - intros st H. rewrite E in H. unfold outcome at 1 in H. cbn [snd] in H.
    pose proof H as H0. apply setup_info_table_ok_inv in H0.
    destruct H0 as [dd [dd' [Hd Hp]]].
    rewrite setup_info_table_eq with (dd := dd) (dd' := dd') in H
      by assumption.
    cbv zeta in H.
    cbn [directory directory_abs_path directory_basename info_file_name files
         col_names new_files table_update] in H.
    assert (N : info_file_name st
                = info_name (Path.basename (Path.rstrip_sep (abspath dir)))
                            cands).
    { destruct (fs_isfile fs _).
      - destruct (fs_read_table fs _) as [T|]; [|discriminate H].
        destruct (column "filename" T) as [fncol|]; [|discriminate H].
        destruct (delta _ fncol).
        + unfold outcome in H. cbn [snd] in H. now inversion H.
        + unfold outcome at 1 in H. cbn [snd] in H.
          destruct (outcome (add_columns _ _ _ _ _ _)); [|discriminate H].
          destruct (merge_conflict T _); [discriminate H|].
          now inversion H.
      - unfold outcome at 1 in H. cbn [snd] in H.
        destruct (outcome (add_columns _ _ _ _ _ _)); [|discriminate H].
        now inversion H. }
    rewrite N. unfold info_name. now destruct cands.
  - rewrite E. unfold log at 1. cbn [fst]. split.
    + intros H. apply in_app_or in H. destruct H as [H|H].
      * unfold pick_info_file_name in H.
        destruct (List.length cands <? 1)%nat eqn:L1; [destruct H|].
        destruct (1 <? List.length cands)%nat eqn:L2.
        -- apply Nat.ltb_lt in L2. lia.
        -- destruct H.
      * apply (@setup_info_table_log_events formats info_name_list abspath) in H.
        destruct H as [[cn H]|[p [H|H]]]; try discriminate.
    + intros L. apply in_or_app. left. unfold pick_info_file_name.
      assert (L1 : (List.length cands <? 1)%nat = false)
        by (apply Nat.ltb_ge; lia).
      assert (L2 : (1 <? List.length cands)%nat = true)
        by (apply Nat.ltb_lt; lia).
      rewrite L1, L2. simpl. now left.
Qed.

(** X26. The new rows do not stack on a catalog whose column is of
    another type: when a column of the stored table with a collector has
    cells of one class of types and the answers of its routine for the new
    files make another (a string column and a null, say), [__init__] opens
    and closes every new file, computes the cells, and then fails with
    [TableMergeError]; no table is returned. *)
Theorem init_type_conflict fs dir add entries dd' T fncol n k :
  let fls := check_file_format formats fs entries dir in
  let name := info_name (Path.basename (Path.rstrip_sep (abspath dir)))
                        (category "info" fls) in
  let fm := get_format_map (dict_set "data_dir" dd' fls) in
  let curr := get_col_collector info_name_list (keys T) in
  let nf := delta fm fncol in
  let tps := lookup_all fm nf in
  let rows := combine (map Val nf) (map Val tps) in
  fs_listdir fs dir = Some entries ->
  outcome (prune_loop fs dir (List.length (category "data_dir" fls)) 0
                      (category "data_dir" fls)) = Ok dd' ->
  fs_isfile fs (Path.join dir name) = true ->
  fs_read_table fs (Path.join dir name) = Some T ->
  column "filename" T = Some fncol ->
  nf <> [] ->
  forallb (row_answeredb formats dir curr
                         (computed curr (new_rows nf tps) false)) rows
  = true ->
  In n (computed curr (new_rows nf tps) false) ->
  col_kind n T = Some k ->
  k <> values_kind (map (answer_at formats dir curr n) rows) ->
  (exists n', outcome (init formats info_name_list abspath fs dir add)
              = Raise (TableMergeError n')) /\
  file_events (log (init formats info_name_list abspath fs dir add))
  = opened_in_turn dir nf.
Proof.
  cbv zeta. intros Hl Hp Hf Hr Hc Hnf Hrow Hn Hk Hne.
  destruct (check_file_format_has formats fs dir entries (k := "info"))
    as [infos Hi]; [now left|].
  destruct (check_file_format_has formats fs dir entries (k := "data_dir"))
    as [dd Hd]; [now right|].
  unfold category in *. rewrite Hi in *. rewrite Hd in Hp.
  pose proof (@init_eq formats info_name_list abspath fs dir add entries infos
                Hl Hi) as E.
  cbv zeta in E.
  rewrite setup_info_table_eq with (dd := dd) (dd' := dd') in E
    by assumption.
  cbv zeta in E.
  cbn [directory directory_abs_path directory_basename info_file_name files
       col_names new_files table_update] in E.
  rewrite Hf, Hr, Hc in E.
  set (fm := get_format_map _) in *.
  destruct (delta fm fncol) as [|f0 nf'] eqn:Ed; [congruence|].
  set (nf := f0 :: nf') in *.
  set (tps := lookup_all fm nf) in *.
  set (curr := get_col_collector info_name_list (keys T)) in *.
  set (rows := combine (map Val nf) (map Val tps)) in *.
  destruct (rows_answered_ok _ _ _ _ _ Hrow) as [Hok Hcells].
  rewrite (add_columns_ok formats dir curr (default_col_names ++ add)
             (new_rows nf tps) false eq_refl eq_refl Hok) in E.
  unfold outcome, log in E. cbn [fst snd] in E.
  destruct (@merge_conflict_some T
              (with_columns formats dir curr (new_rows nf tps) false rows)
              n k (values_kind (map (answer_at formats dir curr n) rows)))
    as [n' Hm].
  - unfold col_kind in Hk. unfold keys.
    destruct (column n T) eqn:Cn; [|discriminate Hk].
    apply dict_mem_true. unfold dict_mem. unfold column in Cn.
    now rewrite Cn.
  - exact Hk.
  - rewrite col_kind_new_rows, with_columns_computed by exact Hn.
    cbn [option_map]. now rewrite (Hcells n Hn).
  - exact Hne.
  - fold rows in E. rewrite Hm in E. rewrite E. unfold outcome, log.
    cbn [fst snd]. split; [now exists n'|].
    rewrite file_events_app.
    fold (log (pick_info_file_name
                 (Path.basename (Path.rstrip_sep (abspath dir))) infos)).
    rewrite (file_events_none (log (pick_info_file_name _ infos)))
      by (intros e He; apply pick_info_file_name_log in He; eauto).
    cbn [app]. rewrite file_events_app.
    rewrite file_events_none
      by (unfold warnings; intros e He; apply in_map_iff in He;
          destruct He as [cn [<- _]]; eauto).
    cbn [app]. unfold rows. rewrite opened_in_turn_rows
      by (unfold tps; now rewrite lookup_all_length).
    apply file_events_opened.
Qed.

End CatalogFacts.

(* ------------------------------------------------------------------ *)
(** ** The properties above at concrete directories *)

Lemma check_file_format_categories_witness :
  dict_get "info"
    (check_file_format Examples.formats_bbx Examples.disk_child
                       ["a.bbx"; "sub"; "data.info"] "/data")
  = Some (filter (fun fn => Path.endswith fn ".info")
                 ["a.bbx"; "sub"; "data.info"]) /\
  dict_get "data_dir"
    (check_file_format Examples.formats_bbx Examples.disk_child
                       ["a.bbx"; "sub"; "data.info"] "/data")
  = Some (filter (fun fn => fs_isdir Examples.disk_child
                                     (Path.join "/data" fn))
                 ["a.bbx"; "sub"; "data.info"]).
Proof.
  apply (@check_file_format_categories Examples.formats_bbx
           Examples.disk_child "/data" ["a.bbx"; "sub"; "data.info"]).
  - simpl. intros [H|[]]. discriminate H.
  - simpl. intros [H|[]]. discriminate H.
Defined.

Lemma check_file_format_placed_witness :
  In "a.bbx" ["a.bbx"; "sub"] /\
  placed Examples.formats Examples.disk_child "/data" "bbx" "a.bbx".
Proof.
  apply (@check_file_format_placed Examples.formats Examples.disk_child
           "/data" ["a.bbx"; "sub"] "bbx" ["a.bbx"] "a.bbx").
  - vm_compute. right. right. left. reflexivity.
  - simpl. left. reflexivity.
Defined.

Lemma check_file_format_complete_witness :
  (Path.endswith "sub" ".info" = true ->
   exists l, In ("info", l)
                (check_file_format Examples.formats Examples.disk_child
                                   ["a.bbx"; "sub"] "/data") /\
             In "sub" l) /\
  (fs_isdir Examples.disk_child (Path.join "/data" "sub") = true ->
   exists l, In ("data_dir", l)
                (check_file_format Examples.formats Examples.disk_child
                                   ["a.bbx"; "sub"] "/data") /\
             In "sub" l) /\
  (forall k, fs_isdir Examples.disk_child (Path.join "/data" "sub") = false ->
             first_match Examples.formats (Path.join "/data" "sub") = Some k ->
             exists l, In (k, l)
                          (check_file_format Examples.formats
                             Examples.disk_child ["a.bbx"; "sub"] "/data") /\
                       In "sub" l).
Proof.
  apply (@check_file_format_complete Examples.formats Examples.disk_child
           "/data" ["a.bbx"; "sub"] "sub").
  simpl. right. left. reflexivity.
Defined.

Lemma prune_loop_keeps_catalog_witness :
  incl ["sub"] ["sub"] /\
  (forall d sub, In d ["sub"] ->
                 fs_listdir Examples.disk_child (Path.join "/data" d)
                 = Some sub ->
                 has_info sub = true ->
                 In d ["sub"]).
Proof.
  apply (@prune_loop_keeps_catalog Examples.disk_child "/data" 1 0 ["sub"]
           ["sub"]).
  reflexivity.
Defined.

Lemma prune_loop_removes_first_witness : ~ In "s1" ["s2"].
Proof.
  apply (@prune_loop_removes_first Examples.disk_two_subdirs "/data"
           [] "s1" ["s2"] [] ["s2"]).
  - simpl. repeat constructor; simpl; intuition discriminate.
  - intros p [].
  - reflexivity.
  - reflexivity.
  - reflexivity.
Defined.

Lemma prune_loop_skips_next_witness : exists r, ["s2"] = "s2" :: r.
Proof.
  apply (@prune_loop_skips_next Examples.disk_two_subdirs "/data"
           "s1" "s2" [] [] ["s2"]).
  - repeat constructor; simpl; intuition discriminate.
  - reflexivity.
  - reflexivity.
  - reflexivity.
Defined.


Lemma add_columns_frame_witness :
  exists t' cn',
    outcome (add_columns Examples.formats "/data" []
               [("station", Examples.station)]
               (Examples.table_of ["a.bbx"] ["bbx"]) false) = Ok (t', cn') /\
    (forall k, In k (keys (Examples.table_of ["a.bbx"] ["bbx"])) ->
               column k t'
               = column k (Examples.table_of ["a.bbx"] ["bbx"])) /\
    keys t' = keys (Examples.table_of ["a.bbx"] ["bbx"])
              ++ computed [("station", Examples.station)]
                          (Examples.table_of ["a.bbx"] ["bbx"]) false /\
    meta t' = meta (Examples.table_of ["a.bbx"] ["bbx"]) /\
    (forall k, In k (computed [("station", Examples.station)]
                              (Examples.table_of ["a.bbx"] ["bbx"]) false) ->
               exists c, column k t' = Some c /\
                         forall fns fmts,
                           column "filename"
                                  (Examples.table_of ["a.bbx"] ["bbx"])
                           = Some fns ->
                           column "fileformat"
                                  (Examples.table_of ["a.bbx"] ["bbx"])
                           = Some fmts ->
                           List.length c = List.length (combine fns fmts)).
Proof.
  eexists. eexists. split; [reflexivity|].
  eapply (@add_columns_frame Examples.formats "/data"
           [("station", Examples.station)] []
           (Examples.table_of ["a.bbx"] ["bbx"])).
  reflexivity.
Defined.

Lemma add_columns_col_names_witness :
  exists t' cn',
    outcome (add_columns Examples.formats "/data" ["filename"; "fileformat"]
               [("station", Examples.station)]
               (Examples.table_of ["a.bbx"] ["bbx"]) false) = Ok (t', cn') /\
    (exists extra, cn' = ["filename"; "fileformat"] ++ extra) /\
    (forall k, In k (computed [("station", Examples.station)]
                              (Examples.table_of ["a.bbx"] ["bbx"]) false) ->
               In k cn') /\
    (NoDup ["filename"; "fileformat"] -> NoDup cn').
Proof.
  eexists. eexists. split; [reflexivity|].
  eapply (@add_columns_col_names Examples.formats "/data"
           [("station", Examples.station)] ["filename"; "fileformat"]
           (Examples.table_of ["a.bbx"] ["bbx"]) false).
  reflexivity.
Defined.

Lemma add_columns_missing_column_witness :
  add_columns Examples.formats "/data" [] [("station", Examples.station)]
              (mkTable [("fileformat", [Val "bbx"])] [] []) false
  = (warnings [("station", Examples.station)]
              (mkTable [("fileformat", [Val "bbx"])] [] []) false,
     Raise (KeyError "filename")).
Proof.
  apply (@add_columns_missing_column Examples.formats "/data"
           [("station", Examples.station)] []
           (mkTable [("fileformat", [Val "bbx"])] [] []) false).
  reflexivity.
Defined.

Lemma add_columns_unknown_format_witness :
  add_columns Examples.formats_bbx "/data" [] [("station", Examples.station)]
              (Examples.table_of ["a.bbx"; "sub"] ["bbx"; "data_dir"]) false
  = (warnings [("station", Examples.station)]
              (Examples.table_of ["a.bbx"; "sub"] ["bbx"; "data_dir"]) false
       ++ List.concat (map (row_events "/data") [(Val "a.bbx", Val "bbx")]),
     Raise (KeyError "data_dir")).
Proof.
  apply (@add_columns_unknown_format Examples.formats_bbx "/data"
           [("station", Examples.station)] []
           (Examples.table_of ["a.bbx"; "sub"] ["bbx"; "data_dir"]) false
           [Val "a.bbx"; Val "sub"] [Val "bbx"; Val "data_dir"]
           [(Val "a.bbx", Val "bbx")] "sub" "data_dir" []).
  - reflexivity.
  - reflexivity.
  - reflexivity.
  - reflexivity.
  - reflexivity.
Defined.

Lemma add_columns_no_method_witness :
  add_columns Examples.formats "/data" [] Examples.collectors_hdr
              (Examples.table_of ["a.bbx"] ["bbx"]) false
  = (warnings Examples.collectors_hdr
              (Examples.table_of ["a.bbx"] ["bbx"]) false
       ++ List.concat (map (row_events "/data") [])
       ++ [EvOpen (Path.join "/data" "a.bbx")],
     Raise (KeyError "bbx")).
Proof.
  apply (@add_columns_no_method Examples.formats "/data"
           Examples.collectors_hdr []
           (Examples.table_of ["a.bbx"] ["bbx"]) false
           [Val "a.bbx"] [Val "bbx"] [] "a.bbx" "bbx" []
           Examples.bbx "/data/a.bbx" ["station"] "hdr_type" ["channel"]
           Examples.hdr_type).
  - reflexivity.
  - reflexivity.
  - reflexivity.
  - reflexivity.
  - reflexivity.
  - reflexivity.
  - reflexivity.
  - reflexivity.
  - reflexivity.
  - reflexivity.
Defined.

Lemma init_never_writes_witness :
  (forall p, EvOpen "/data/b.bbx" <> EvWrite p) /\
  ((exists m, EvOpen "/data/b.bbx" = EvWarn m) \/
   exists p, EvOpen "/data/b.bbx" = EvOpen p \/
             EvOpen "/data/b.bbx" = EvClose p).
Proof.
  apply (@init_never_writes Examples.formats Examples.collectors
           Examples.abspath Examples.disk_new_file "/data" []
           (EvOpen "/data/b.bbx")).
  vm_compute. left. reflexivity.
Defined.

Lemma init_opens_new_rows_witness :
  file_events (log (Examples.run Examples.disk_new_file))
  = opened_in_turn "/data"
      (if fs_isfile Examples.disk_new_file
            (Path.join "/data" (info_file_name Examples.st_new_file))
       then new_files Examples.st_new_file
       else dict_keys (get_format_map (files Examples.st_new_file))).
Proof.
  apply (@init_opens_new_rows Examples.formats Examples.collectors
           Examples.abspath Examples.disk_new_file "/data" []
           Examples.st_new_file).
  reflexivity.
Defined.

Lemma init_table_update_witness :
  let st := Examples.st_new_file in
  let fs := Examples.disk_new_file in
  let fm := get_format_map (files st) in
  let info_file := Path.join "/data" (info_file_name st) in
  (fs_isfile fs info_file = false ->
   table_update st = true /\ new_files st = []) /\
  (fs_isfile fs info_file = true ->
   exists T fncol,
     fs_read_table fs info_file = Some T /\
     column "filename" T = Some fncol /\
     (forall f, In f (new_files st) <->
                In f (dict_keys fm) /\ ~ In (Val f) fncol) /\
     NoDup (new_files st) /\
     (table_update st = true <-> new_files st <> [])).
Proof.
  apply (@init_table_update Examples.formats Examples.collectors
           Examples.abspath Examples.disk_new_file "/data" []
           Examples.st_new_file).
  reflexivity.
Defined.


Lemma init_empty_directory_witness :
  exists st,
    outcome (Examples.run Examples.disk_empty) = Ok st /\
    column "filename" (info_table st) = Some [] /\
    (forall k c, column k (info_table st) = Some c -> c = []) /\
    dict_get "haschild" (meta (info_table st)) = Some (MBool false) /\
    table_update st = true /\
    file_events (log (Examples.run Examples.disk_empty)) = [].
Proof.
  apply (@init_empty_directory Examples.formats Examples.collectors
           Examples.abspath Examples.disk_empty "/data" []).
  - reflexivity.
  - reflexivity.
Defined.

Lemma init_corrupt_catalog_witness :
  outcome (Examples.run Examples.disk_corrupt)
  = Raise (ParseError "/data/data.info") /\
  file_events (log (Examples.run Examples.disk_corrupt)) = [].
Proof.
  destruct (@init_corrupt_catalog Examples.formats Examples.collectors
              Examples.abspath Examples.disk_corrupt "/data" []
              ["a.bbx"; "data.info"] []) as [A _].
  - reflexivity.
  - reflexivity.
  - reflexivity.
  - apply A. reflexivity.
Defined.

Lemma init_merge_witness :
  column "filename" (info_table Examples.st_two_new)
  = Some ([Val "a.bbx"] ++ map Val (new_files Examples.st_two_new)) /\
  (exists extra,
      keys (info_table Examples.st_two_new)
      = keys Examples.catalog_note ++ extra) /\
  (forall n c,
      column n Examples.catalog_note = Some c ->
      exists xs,
        List.length xs = List.length (new_files Examples.st_two_new) /\
        column n (info_table Examples.st_two_new) = Some (c ++ xs) /\
        (n <> "filename" -> n <> "fileformat" ->
         dict_get n Examples.collectors = None ->
         xs = repeat Null (List.length (new_files Examples.st_two_new)))).
Proof.
  apply (@init_merge Examples.formats Examples.collectors
           Examples.abspath Examples.disk_two_new "/data" []
           Examples.st_two_new Examples.catalog_note [Val "a.bbx"]).
  - reflexivity.
  - reflexivity.
  - reflexivity.
  - reflexivity.
Defined.

Lemma init_child_catalog_witness :
  dict_get "sub" (get_format_map (files Examples.st_child))
  = Some "data_dir" /\
  (exists c, column "filename" (info_table Examples.st_child) = Some c /\
             In (Val "sub") c) /\
  (fs_isfile Examples.disk_child
             (Path.join "/data" (info_file_name Examples.st_child)) = false \/
   In "sub" (new_files Examples.st_child) ->
   dict_get "haschild" (meta (info_table Examples.st_child))
   = Some (MBool true)).
Proof.
  apply (@init_child_catalog Examples.formats Examples.collectors
           Examples.abspath Examples.disk_child "/data" []
           Examples.st_child ["a.bbx"; "sub"] "sub" ["sub.info"; "x.bbx"]).
  - reflexivity.
  - reflexivity.
  - simpl. right. left. reflexivity.
  - reflexivity.
  - reflexivity.
  - reflexivity.
Defined.

Lemma init_catalog_choice_witness :
  let cands := filter (fun fn => Path.endswith fn ".info")
                      ["x.info"; "a.bbx"; "y.info"] in
  (forall st,
      outcome (Examples.run Examples.disk_two_info) = Ok st ->
      info_file_name st
      = match cands with
        | [] => (Path.basename (Path.rstrip_sep (Examples.abspath "/data"))
                   ++ ".info")%string
        | x :: _ => x
        end) /\
  (In (EvWarn (info_warning (hd "" cands)))
      (log (Examples.run Examples.disk_two_info))
   <-> 2 <= List.length cands).
Proof.
  apply (@init_catalog_choice Examples.formats Examples.collectors
           Examples.abspath Examples.disk_two_info "/data" []
           ["x.info"; "a.bbx"; "y.info"]).
  - reflexivity.
  - simpl. intros [H|[H|[]]]; discriminate H.
Defined.

Lemma recognised_file_has_row_witness :
  In "data.info" (dict_keys (get_format_map (files Examples.st_any))) /\
  exists c, column "filename" (info_table Examples.st_any) = Some c /\
            In (Val "data.info") c.
Proof.
  apply (@recognised_file_has_row Examples.formats_any Examples.collectors
           Examples.abspath Examples.disk_any "/data" []
           Examples.st_any ["a.dat"; "data.info"] "data.info"
           [] "any" Examples.catch_all []).
  - reflexivity.
  - reflexivity.
  - simpl. right. left. reflexivity.
  - reflexivity.
  - reflexivity.
  - intros k' kc' [].
  - reflexivity.
  - discriminate.
  - discriminate.
Defined.

Lemma init_type_conflict_witness :
  (exists n', outcome (Examples.run Examples.disk_new_subdir)
              = Raise (TableMergeError n')) /\
  file_events (log (Examples.run Examples.disk_new_subdir))
  = opened_in_turn "/data" ["sub"].
Proof.
  apply (@init_type_conflict Examples.formats Examples.collectors
           Examples.abspath Examples.disk_new_subdir "/data" []
           ["a.bbx"; "sub"; "data.info"] ["sub"] Examples.catalog_a
           [Val "a.bbx"] "station" KCharacter).
  - reflexivity.
  - reflexivity.
  - reflexivity.
  - reflexivity.
  - reflexivity.
  - vm_compute. discriminate.
  - reflexivity.
  - vm_compute. left. reflexivity.
  - reflexivity.
  - vm_compute. discriminate.
Defined.
